(** * typhon.spareice.datasets: the Dataset class

    A shallow embedding of [src/typhon/spareice/datasets.py] and the
    properties of its template engine, its file discovery, its ordering and
    bundling, its information cache and its placeholder registry.

    Python values are modelled as follows.
    - [str] is [string] (ASCII); a [dict] with string keys is an association
      list that keeps insertion order, as Python dictionaries do.
    - an exception is a value of [exn]; a function that may raise returns a
      [result].
    - [datetime.datetime] is the number of microseconds since
      0001-01-01T00:00:00 ([datetime.min]); [datetime.timedelta] is a number
      of microseconds. The calendar conversions are those of CPython's
      [datetime.py].
    - a compiled [re] pattern is a list of pattern items; the parser
      [re_compile] covers the constructs that templates with the standard
      placeholders produce and answers [Unsupported] on everything else. *)

From Stdlib Require Import ZArith List String Ascii Bool Lia Arith.
From Stdlib Require Import Permutation Sorted.
Import ListNotations.

Local Open Scope string_scope.
Local Open Scope Z_scope.

(** ** Exceptions and results *)

Inductive exn : Type :=
| ValueError
| TypeError
| KeyError
| IndexError
| AttributeError
| OverflowError
| ReError
| NoFilesError
| NoHandlerError
| UnknownPlaceholderError
| UnfilledPlaceholderError
| PlaceholderRegexError
| Unsupported.

Inductive result (A : Type) : Type :=
| Ok (a : A)
| Err (e : exn).

Arguments Ok {A} a.
Arguments Err {A} e.

Definition bind {A B : Type} (r : result A) (k : A -> result B) : result B :=
  match r with
  | Ok a => k a
  | Err e => Err e
  end.

Declare Scope py_scope.
Delimit Scope py_scope with py.
Notation "x <- c ;; k" := (bind c (fun x => k))
  (at level 61, c at next level, right associativity) : py_scope.
Notation "' pat <- c ;; k" := (bind c (fun x => match x with pat => k end))
  (at level 61, pat pattern, c at next level, right associativity) : py_scope.
Local Open Scope py_scope.

Definition is_ok {A : Type} (r : result A) : bool :=
  match r with Ok _ => true | Err _ => false end.

Fixpoint mapM {A B : Type} (f : A -> result B) (l : list A) : result (list B) :=
  match l with
  | [] => Ok []
  | a :: l' => b <- f a ;; bs <- mapM f l' ;; Ok (b :: bs)
  end.

(** ** Python strings and dictionaries *)

Module Py.

(** [dict]: insertion-ordered association list without duplicate keys. *)
Definition dict (V : Type) : Type := list (string * V).

Fixpoint get {V : Type} (d : dict V) (k : string) : option V :=
  match d with
  | [] => None
  | (k', v) :: d' => if String.eqb k k' then Some v else get d' k
  end.

Definition mem {V : Type} (d : dict V) (k : string) : bool :=
  match get d k with Some _ => true | None => false end.

(** [d[k] = v]: an existing key keeps its position. *)
Fixpoint set {V : Type} (d : dict V) (k : string) (v : V) : dict V :=
  match d with
  | [] => [(k, v)]
  | (k', v') :: d' =>
      if String.eqb k k' then (k, v) :: d' else (k', v') :: set d' k v
  end.

(** [d.update(other)]. *)
Definition update {V : Type} (d other : dict V) : dict V :=
  fold_left (fun acc kv => set acc (fst kv) (snd kv)) other d.

(** [{**a, **b}]. *)
Definition merge {V : Type} (a b : dict V) : dict V := update a b.

(** [d.pop(k, None)]: the value and the dictionary without the key. *)
Fixpoint remove {V : Type} (d : dict V) (k : string) : dict V :=
  match d with
  | [] => []
  | (k', v) :: d' =>
      if String.eqb k k' then d' else (k', v) :: remove d' k
  end.

Definition keys {V : Type} (d : dict V) : list string := map fst d.
Definition values {V : Type} (d : dict V) : list V := map snd d.

(** Building a dictionary from a comprehension: later keys overwrite. *)
Definition of_list {V : Type} (l : list (string * V)) : dict V :=
  update [] l.

(** *** Strings *)

Definition chars (s : string) : list ascii := list_ascii_of_string s.

Fixpoint prefix (p s : string) : bool :=
  match p, s with
  | EmptyString, _ => true
  | String a p', String b s' => Ascii.eqb a b && prefix p' s'
  | String _ _, EmptyString => false
  end.

Fixpoint drop (n : nat) (s : string) : string :=
  match n, s with
  | O, _ => s
  | S n', String _ s' => drop n' s'
  | S _, EmptyString => EmptyString
  end.

Fixpoint take (n : nat) (s : string) : string :=
  match n, s with
  | O, _ => EmptyString
  | S n', String a s' => String a (take n' s')
  | S _, EmptyString => EmptyString
  end.

(** [p.startswith(q)]. *)
Definition startswith (s p : string) : bool := prefix p s.

(** [sub in s]. *)
Fixpoint contains (sub s : string) : bool :=
  prefix sub s ||
  match s with
  | EmptyString => false
  | String _ s' => contains sub s'
  end.

(** [s.index(sub)], [None] for the [ValueError] of a missing substring. *)
Fixpoint index (sub s : string) : option nat :=
  if prefix sub s then Some O
  else match s with
       | EmptyString => None
       | String _ s' => option_map S (index sub s')
       end.

(** [s.replace(old, new)] for a non-empty [old]: leftmost occurrences,
    not overlapping. [skip] counts the characters of an occurrence that
    is being jumped over. *)
Fixpoint replace_from (skip : nat) (old new s : string) : string :=
  match s with
  | EmptyString => EmptyString
  | String a s' =>
      match skip with
      | S k => replace_from k old new s'
      | O =>
          if prefix old s
          then new ++ replace_from (Nat.pred (String.length old)) old new s'
          else String a (replace_from O old new s')
      end
  end.

Definition replace (old new s : string) : string :=
  replace_from O old new s.

(** [any(c in chars for c in s)]. *)
Definition any_char_in (cs : list ascii) (s : string) : bool :=
  existsb (fun c => existsb (Ascii.eqb c) cs) (chars s).

Definition is_digit (c : ascii) : bool :=
  let n := nat_of_ascii c in (48 <=? n)%nat && (n <=? 57)%nat.

(** [\w] on ASCII text. *)
Definition is_word (c : ascii) : bool :=
  let n := nat_of_ascii c in
  is_digit c
  || ((65 <=? n)%nat && (n <=? 90)%nat)
  || ((97 <=? n)%nat && (n <=? 122)%nat)
  || (n =? 95)%nat.

(** *** Decimal numbers *)

Definition digit_char (d : Z) : ascii := ascii_of_nat (48 + Z.to_nat d).

Fixpoint digits_fuel (fuel : nat) (n : Z) (acc : string) : string :=
  match fuel with
  | O => acc
  | S f =>
      let acc' := String (digit_char (n mod 10)) acc in
      if n <? 10 then acc' else digits_fuel f (n / 10) acc'
  end.

(** [str(n)] for an integer [n >= 0]. *)
Definition str_of_int (n : Z) : string :=
  digits_fuel (S (Z.to_nat (Z.log2 n))) n EmptyString.

Fixpoint zeros (n : nat) : string :=
  match n with
  | O => EmptyString
  | S n' => String "0" (zeros n')
  end.

(** ["{:0wd}".format(n)] for an integer [n >= 0]. *)
Definition zero_pad (w : nat) (n : Z) : string :=
  let s := str_of_int n in
  zeros (w - String.length s) ++ s.

(** [s[-2:]]. *)
Definition last2 (s : string) : string :=
  drop (String.length s - 2) s.

Fixpoint int_of_digits (cs : list ascii) (acc : Z) : option Z :=
  match cs with
  | [] => Some acc
  | c :: cs' =>
      if is_digit c
      then int_of_digits cs' (10 * acc + Z.of_nat (nat_of_ascii c - 48))
      else None
  end.

(** [int(s)] on a string of decimal digits; anything else is outside the
    model (the regular expressions of the time placeholders only capture
    digits). *)
Definition int (s : string) : result Z :=
  match s with
  | EmptyString => Err ValueError
  | _ => match int_of_digits (chars s) 0 with
         | Some n => Ok n
         | None => Err ValueError
         end
  end.

End Py.

(** ** The proleptic Gregorian calendar of [datetime.py] *)

Module Cal.

Definition MINYEAR : Z := 1.
Definition MAXYEAR : Z := 9999.
Definition MAXORDINAL : Z := 3652059.

Definition DI400Y : Z := 146097.
Definition DI100Y : Z := 36524.
Definition DI4Y : Z := 1461.

(** [_DAYS_IN_MONTH]. *)
Definition DAYS_IN_MONTH (m : Z) : Z :=
  match m with
  | 1 => 31 | 2 => 28 | 3 => 31 | 4 => 30 | 5 => 31 | 6 => 30
  | 7 => 31 | 8 => 31 | 9 => 30 | 10 => 31 | 11 => 30 | 12 => 31
  | _ => -1
  end.

(** [_DAYS_BEFORE_MONTH]. *)
Definition DAYS_BEFORE_MONTH (m : Z) : Z :=
  match m with
  | 1 => 0 | 2 => 31 | 3 => 59 | 4 => 90 | 5 => 120 | 6 => 151
  | 7 => 181 | 8 => 212 | 9 => 243 | 10 => 273 | 11 => 304 | 12 => 334
  | _ => -1
  end.

Definition is_leap (year : Z) : bool :=
  (year mod 4 =? 0) && (negb (year mod 100 =? 0) || (year mod 400 =? 0)).

Definition days_before_year (year : Z) : Z :=
  let y := year - 1 in
  y * 365 + y / 4 - y / 100 + y / 400.

Definition days_in_month (year month : Z) : Z :=
  if (month =? 2) && is_leap year then 29 else DAYS_IN_MONTH month.

Definition days_before_month (year month : Z) : Z :=
  DAYS_BEFORE_MONTH month + (if (2 <? month) && is_leap year then 1 else 0).

Definition ymd2ord (year month day : Z) : Z :=
  days_before_year year + days_before_month year month + day.

Definition ord2ymd (n0 : Z) : Z * Z * Z :=
  let n := n0 - 1 in
  let n400 := n / DI400Y in
  let n := n mod DI400Y in
  let year := n400 * 400 + 1 in
  let n100 := n / DI100Y in
  let n := n mod DI100Y in
  let n4 := n / DI4Y in
  let n := n mod DI4Y in
  let n1 := n / 365 in
  let n := n mod 365 in
  let year := year + (n100 * 100 + n4 * 4 + n1) in
  if (n1 =? 4) || (n100 =? 4) then (year - 1, 12, 31)
  else
    let leapyear := (n1 =? 3) && (negb (n4 =? 24) || (n100 =? 3)) in
    let month := Z.shiftr (n + 50) 5 in
    let preceding :=
      DAYS_BEFORE_MONTH month
      + (if (2 <? month) && leapyear then 1 else 0) in
    if n <? preceding then
      let month := month - 1 in
      let preceding :=
        preceding
        - (DAYS_IN_MONTH month
           + (if (month =? 2) && leapyear then 1 else 0)) in
      (year, month, n - preceding + 1)
    else (year, month, n - preceding + 1).

(** [_check_date_fields]. *)
Definition valid_date (year month day : Z) : bool :=
  (MINYEAR <=? year) && (year <=? MAXYEAR)
  && (1 <=? month) && (month <=? 12)
  && (1 <=? day) && (day <=? days_in_month year month).

End Cal.

(** ** [datetime.datetime] and [datetime.timedelta] *)

Definition datetime : Type := Z.
Definition timedelta : Type := Z.

Module DT.

Definition US_PER_SECOND : Z := 1000000.
Definition US_PER_MINUTE : Z := 60 * US_PER_SECOND.
Definition US_PER_HOUR : Z := 60 * US_PER_MINUTE.
Definition US_PER_DAY : Z := 24 * US_PER_HOUR.

(** [datetime.min] and [datetime.max]. *)
Definition min : datetime := 0.
Definition max : datetime := Cal.MAXORDINAL * US_PER_DAY - 1.

Definition in_range (t : Z) : bool := (min <=? t) && (t <=? max).

(** [timedelta(days=, hours=, minutes=, seconds=, microseconds=)]. *)
Definition days (n : Z) : timedelta := n * US_PER_DAY.
Definition hours (n : Z) : timedelta := n * US_PER_HOUR.
Definition minutes (n : Z) : timedelta := n * US_PER_MINUTE.
Definition seconds (n : Z) : timedelta := n * US_PER_SECOND.
Definition microseconds (n : Z) : timedelta := n.

(** [td.days]. *)
Definition td_days (d : timedelta) : Z := d / US_PER_DAY.

(** [t + d] and [t - d]: [OverflowError] outside [min .. max]. *)
Definition add (t : datetime) (d : timedelta) : result datetime :=
  if in_range (t + d) then Ok (t + d) else Err OverflowError.

Definition sub (t : datetime) (d : timedelta) : result datetime :=
  if in_range (t - d) then Ok (t - d) else Err OverflowError.

(** [t - u] for two datetimes. *)
Definition diff (t u : datetime) : timedelta := t - u.

Definition toordinal (t : datetime) : Z := t / US_PER_DAY + 1.

Definition year (t : datetime) : Z := fst (fst (Cal.ord2ymd (toordinal t))).
Definition month (t : datetime) : Z := snd (fst (Cal.ord2ymd (toordinal t))).
Definition day (t : datetime) : Z := snd (Cal.ord2ymd (toordinal t)).
Definition hour (t : datetime) : Z := (t mod US_PER_DAY) / US_PER_HOUR.
Definition minute (t : datetime) : Z := (t mod US_PER_HOUR) / US_PER_MINUTE.
Definition second (t : datetime) : Z := (t mod US_PER_MINUTE) / US_PER_SECOND.
Definition microsecond (t : datetime) : Z := t mod US_PER_SECOND.

(** [datetime(year, month, day, hour, minute, second, microsecond)]:
    [ValueError] when a field is out of range. *)
Definition make (y m d H M S us : Z) : result datetime :=
  if Cal.valid_date y m d
     && (0 <=? H) && (H <=? 23) && (0 <=? M) && (M <=? 59)
     && (0 <=? S) && (S <=? 59) && (0 <=? us) && (us <=? 999999)
  then Ok ((Cal.ymd2ord y m d - 1) * US_PER_DAY
           + H * US_PER_HOUR + M * US_PER_MINUTE + S * US_PER_SECOND + us)
  else Err ValueError.

Definition kwargs : list string :=
  ["year"; "month"; "day"; "hour"; "minute"; "second"; "microsecond"].

Definition opt0 (o : option Z) : Z :=
  match o with Some v => v | None => 0 end.

(** [datetime( **args )]: [TypeError] for an unexpected keyword or a
    missing [year], [month] or [day]. *)
Definition of_kwargs (args : Py.dict Z) : result datetime :=
  if negb (forallb (fun k => existsb (String.eqb k) kwargs) (Py.keys args))
  then Err TypeError
  else
    match Py.get args "year", Py.get args "month", Py.get args "day" with
    | Some y, Some m, Some d =>
        make y m d (opt0 (Py.get args "hour")) (opt0 (Py.get args "minute"))
             (opt0 (Py.get args "second")) (opt0 (Py.get args "microsecond"))
    | _, _, _ => Err TypeError
    end.

End DT.

(** ** [str.format] and [re.findall] on templates *)

Module Fmt.

Definition lbrace : ascii := "{"%char.
Definition rbrace : ascii := "}"%char.

Definition push (acc : string) (c : ascii) : string :=
  acc ++ String c EmptyString.

(** *** [re.findall("\{(\w+)\}", s)]

    The scan is one pass: a match can only start at an opening brace, and
    a failed attempt has read word characters only. *)
Inductive scan : Type :=
| Outside
| Inside (name : string).

Fixpoint findall_from (st : scan) (s : string) : list string :=
  match s with
  | EmptyString => []
  | String c s' =>
      match st with
      | Outside =>
          if Ascii.eqb c lbrace then findall_from (Inside EmptyString) s'
          else findall_from Outside s'
      | Inside name =>
          if Py.is_word c then findall_from (Inside (push name c)) s'
          else if Ascii.eqb c rbrace then
            match name with
            | EmptyString => findall_from Outside s'
            | _ => name :: findall_from Outside s'
            end
          else if Ascii.eqb c lbrace then findall_from (Inside EmptyString) s'
          else findall_from Outside s'
      end
  end.

Definition findall (s : string) : list string := findall_from Outside s.

(** *** [template.format( **kw )]

    Replacement fields [{name}] and the escapes [{{] and [}}]. A field
    with a conversion, a format specification, an attribute or an index
    is outside the model. *)
Inductive fstate : Type :=
| Text
| Open
| Field (name : string)
| Close.

Definition is_field_syntax (c : ascii) : bool :=
  existsb (Ascii.eqb c) ["!"; ":"; "."; "["]%char.

Definition all_digits (s : string) : bool :=
  forallb Py.is_digit (Py.chars s).

Definition lookup (kw : Py.dict string) (name : string) : result string :=
  if all_digits name then Err IndexError
  else match Py.get kw name with
       | Some v => Ok v
       | None => Err KeyError
       end.

Fixpoint format_from (st : fstate) (s : string) (kw : Py.dict string)
  : result string :=
  match s with
  | EmptyString =>
      match st with
      | Text => Ok EmptyString
      | _ => Err ValueError
      end
  | String c s' =>
      match st with
      | Text =>
          if Ascii.eqb c lbrace then format_from Open s' kw
          else if Ascii.eqb c rbrace then format_from Close s' kw
          else r <- format_from Text s' kw ;; Ok (String c r)
      | Open =>
          if Ascii.eqb c lbrace then
            r <- format_from Text s' kw ;; Ok (String lbrace r)
          else if Ascii.eqb c rbrace then Err IndexError
          else if is_field_syntax c then Err Unsupported
          else format_from (Field (String c EmptyString)) s' kw
      | Field name =>
          if Ascii.eqb c rbrace then
            v <- lookup kw name ;;
            r <- format_from Text s' kw ;;
            Ok (v ++ r)
          else if Ascii.eqb c lbrace then Err ValueError
          else if is_field_syntax c then Err Unsupported
          else format_from (Field (push name c)) s' kw
      | Close =>
          if Ascii.eqb c rbrace then
            r <- format_from Text s' kw ;; Ok (String rbrace r)
          else Err ValueError
      end
  end.

Definition format (s : string) (kw : Py.dict string) : result string :=
  format_from Text s kw.

End Fmt.

(** ** Regular expressions: the fragment of [re] that templates use *)

Module Re.

Inductive atom : Type :=
| AChar (c : ascii)
| ADigit
| AAny.

(** A compiled pattern is a sequence of items. [a{n}] is [n] copies of
    [IAtom a]; [a+?] is [IAtom a] followed by [ILazy a]. *)
Inductive item : Type :=
| IAtom (a : atom)
| ILazy (a : atom)
| IGreedy (a : atom)
| IOpt (a : atom)
| IOpen (name : string)
| IClose
| IBol
| IEol.

Definition pattern : Type := list item.

Definition newline : ascii := ascii_of_nat 10.

Definition atom_ok (a : atom) (c : ascii) : bool :=
  match a with
  | AChar c' => Ascii.eqb c c'
  | ADigit => Py.is_digit c
  | AAny => negb (Ascii.eqb c newline)
  end.

(** *** [re.compile] *)

Inductive pending : Type :=
| PNone
| PAtom (a : atom)
| PStar (a : atom)
| PPlus (a : atom)
| POpt (a : atom)
| PRep (a : atom) (n : nat).

Inductive mode : Type :=
| Normal
| Escape
| Paren
| ParenQ
| ParenP
| Name (name : string)
| Count (a : atom) (digits : string).

Record pstate : Type := {
  out : list item;        (* the items read so far, last first *)
  pend : pending;
  depth : nat;
  names : list string
}.

Definition flush_items (p : pending) : list item :=
  match p with
  | PNone => []
  | PAtom a => [IAtom a]
  | PStar a => [IGreedy a]
  | PPlus a => [IGreedy a; IAtom a]
  | POpt a => [IOpt a]
  | PRep a n => repeat (IAtom a) n
  end.

Definition flush (st : pstate) : pstate :=
  {| out := flush_items (pend st) ++ out st; pend := PNone;
     depth := depth st; names := names st |}.

Definition emit (i : item) (st : pstate) : pstate :=
  let st := flush st in
  {| out := i :: out st; pend := PNone;
     depth := depth st; names := names st |}.

Definition with_pend (p : pending) (st : pstate) : pstate :=
  {| out := out st; pend := p; depth := depth st; names := names st |}.

Definition new_atom (a : atom) (st : pstate) : pstate :=
  with_pend (PAtom a) (flush st).

Definition valid_group_name (name : string) : bool :=
  match name with
  | EmptyString => false
  | String c _ => negb (Py.is_digit c) && forallb Py.is_word (Py.chars name)
  end.

Definition is_alnum (c : ascii) : bool :=
  Py.is_word c && negb (Ascii.eqb c "_"%char).

(** A quantifier where no atom is pending. After a closing parenthesis it
    repeats the group, which [re] accepts and which is outside the model;
    anywhere else [re] finds nothing to repeat, or a second quantifier. *)
Definition nothing_pending (st : pstate) : exn :=
  match out st with
  | IClose :: _ => Unsupported
  | _ => ReError
  end.

Fixpoint parse (m : mode) (st : pstate) (s : string) : result pattern :=
  match s with
  | EmptyString =>
      match m with
      | Normal =>
          if (depth st =? 0)%nat then Ok (rev (out (flush st)))
          else Err ReError
      | Count _ _ => Err Unsupported
      | _ => Err ReError
      end
  | String c s' =>
      match m with
      | Normal =>
          match c with
          | "\"%char => parse Escape st s'
          | "."%char => parse Normal (new_atom AAny st) s'
          | "^"%char => parse Normal (emit IBol st) s'
          | "$"%char => parse Normal (emit IEol st) s'
          | "("%char => parse Paren (flush st) s'
          | ")"%char =>
              match depth st with
              | O => Err ReError
              | S d =>
                  let st := emit IClose st in
                  parse Normal
                    {| out := out st; pend := PNone; depth := d;
                       names := names st |} s'
              end
          | "*"%char =>
              match pend st with
              | PAtom a => parse Normal (with_pend (PStar a) st) s'
              | PNone => Err (nothing_pending st)
              | _ => Err ReError
              end
          | "+"%char =>
              match pend st with
              | PAtom a => parse Normal (with_pend (PPlus a) st) s'
              | PNone => Err (nothing_pending st)
              (* a possessive quantifier from Python 3.11 on, an error
                 before *)
              | _ => Err Unsupported
              end
          | "?"%char =>
              match pend st with
              | PAtom a => parse Normal (with_pend (POpt a) st) s'
              | PStar a =>
                  parse Normal (emit (ILazy a) (with_pend PNone st)) s'
              | PPlus a =>
                  parse Normal
                    (emit (ILazy a) (with_pend (PAtom a) st)) s'
              | PRep a n => parse Normal (flush st) s'
              | POpt _ => Err Unsupported
              | PNone => Err (nothing_pending st)
              end
          | "{"%char =>
              match pend st with
              | PAtom a => parse (Count a EmptyString) st s'
              | _ => Err Unsupported
              end
          | "["%char => Err Unsupported
          | "|"%char => Err Unsupported
          | _ => parse Normal (new_atom (AChar c) st) s'
          end
      | Escape =>
          if Ascii.eqb c "d"%char then parse Normal (new_atom ADigit st) s'
          else if is_alnum c then Err Unsupported
          else parse Normal (new_atom (AChar c) st) s'
      | Paren =>
          if Ascii.eqb c "?"%char then parse ParenQ st s' else Err Unsupported
      | ParenQ =>
          if Ascii.eqb c "P"%char then parse ParenP st s' else Err Unsupported
      | ParenP =>
          if Ascii.eqb c "<"%char then parse (Name EmptyString) st s'
          else Err Unsupported
      | Name name =>
          if Ascii.eqb c ">"%char then
            if negb (valid_group_name name) then Err ReError
            else if existsb (String.eqb name) (names st) then Err ReError
            else
              parse Normal
                {| out := IOpen name :: out st; pend := PNone;
                   depth := S (depth st); names := name :: names st |} s'
          else parse (Name (Fmt.push name c)) st s'
      | Count a digits =>
          if Py.is_digit c then parse (Count a (Fmt.push digits c)) st s'
          else if Ascii.eqb c "}"%char then
            match Py.int digits with
            | Ok n => parse Normal (with_pend (PRep a (Z.to_nat n)) st) s'
            | Err _ => Err Unsupported
            end
          else Err Unsupported
      end
  end.

Definition compile (regex : string) : result pattern :=
  parse Normal {| out := []; pend := PNone; depth := O; names := [] |} regex.

(** *** [pattern.match(s)]

    Backtracking in the order of [re]: a lazy repetition first tries to
    stop, a greedy one first tries to go on. The state keeps the text of
    the groups that are open and the groups that are closed. *)
Record mstate : Type := {
  opened : list (string * string);
  groups : Py.dict string;
  at_start : bool
}.

Definition consume (c : ascii) (st : mstate) : mstate :=
  {| opened := map (fun g => (fst g, Fmt.push (snd g) c)) (opened st);
     groups := groups st; at_start := false |}.

Definition open_group (name : string) (st : mstate) : mstate :=
  {| opened := (name, EmptyString) :: opened st;
     groups := Py.set (groups st) name EmptyString;
     at_start := at_start st |}.

Definition close_group (st : mstate) : mstate :=
  match opened st with
  | [] => st
  | (name, text) :: rest =>
      {| opened := rest; groups := Py.set (groups st) name text;
         at_start := at_start st |}
  end.

Definition orelse {A : Type} (x y : option A) : option A :=
  match x with Some _ => x | None => y end.

Fixpoint lazy_star (a : atom) (k : string -> mstate -> option (Py.dict string))
  (s : string) (st : mstate) : option (Py.dict string) :=
  orelse (k s st)
    (match s with
     | EmptyString => None
     | String c s' =>
         if atom_ok a c then lazy_star a k s' (consume c st) else None
     end).

Fixpoint greedy_star (a : atom) (k : string -> mstate -> option (Py.dict string))
  (s : string) (st : mstate) : option (Py.dict string) :=
  orelse
    (match s with
     | EmptyString => None
     | String c s' =>
         if atom_ok a c then greedy_star a k s' (consume c st) else None
     end)
    (k s st).

Fixpoint run (p : pattern) (s : string) (st : mstate)
  : option (Py.dict string) :=
  match p with
  | [] => Some (groups st)
  | i :: p' =>
      match i with
      | IAtom a =>
          match s with
          | EmptyString => None
          | String c s' =>
              if atom_ok a c then run p' s' (consume c st) else None
          end
      | ILazy a => lazy_star a (run p') s st
      | IGreedy a => greedy_star a (run p') s st
      | IOpt a =>
          orelse
            (match s with
             | EmptyString => None
             | String c s' =>
                 if atom_ok a c then run p' s' (consume c st) else None
             end)
            (run p' s st)
      | IOpen name => run p' s (open_group name st)
      | IClose => run p' s (close_group st)
      | IBol => if at_start st then run p' s st else None
      | IEol =>
          match s with
          | EmptyString => run p' s st
          | String c EmptyString =>
              if Ascii.eqb c newline then run p' s st else None
          | _ => None
          end
      end
  end.

(** [pattern.match(s)] followed by [.groupdict()]; [None] when the
    pattern does not match. *)
Definition match_ (p : pattern) (s : string) : option (Py.dict string) :=
  run p s {| opened := []; groups := []; at_start := true |}.

End Re.

(** ** [FileInfo] and the interval tests

    The classes [FileInfo] (typhon.spareice.handlers) and [IntervalTree]
    (typhon.trees) are not part of the sources at hand. *)

Module FileInfo.

Record t : Type := {
  path : string;
  times : option datetime * option datetime;
  attr : Py.dict string
}.

(** Modelled from the spec: [FileInfo.update] is missing from the sources.
    "update(other) (merges times then attrs, later overrides earlier)";
    a time that the other record does not know is kept. *)
Definition update (self other : t) : t :=
  let pick (mine theirs : option datetime) :=
    match theirs with Some _ => theirs | None => mine end in
  {| path := path self;
     times := (pick (fst (times self)) (fst (times other)),
               pick (snd (times self)) (snd (times other)));
     attr := Py.update (attr self) (attr other) |}.

(** [FileInfo(path)]. *)
Definition of_path (p : string) : t :=
  {| path := p; times := (None, None); attr := [] |}.

End FileInfo.

Module IntervalTree.

Definition interval : Type := datetime * datetime.

(** Modelled from the spec: [IntervalTree.interval_overlaps] is missing
    from the sources. "overlaps(a, b)", "both endpoints are inclusive". *)
Definition interval_overlaps (a b : interval) : bool :=
  (fst a <=? snd b) && (fst b <=? snd a).

(** Modelled from the spec: [IntervalTree.interval_contains] is missing
    from the sources. "contains((a,b), p) iff a <= p <= b". *)
Definition interval_contains (a : interval) (p : datetime) : bool :=
  (fst a <=? p) && (p <=? snd a).

(** The tree holds "(start, end) pairs". *)
Definition t : Type := list interval.

(** Modelled from the spec: [period in tree] ([IntervalTree.__contains__])
    is missing from the sources. "any file whose times lie inside any
    excluded interval is filtered out": both times of the period lie in
    one of the stored intervals. *)
Definition contains (tree : t) (period : interval) : bool :=
  existsb
    (fun iv => interval_contains iv (fst period)
               && interval_contains iv (snd period))
    tree.

End IntervalTree.

(** ** The class [Dataset] *)

(** The attributes of the class object. [_user_placeholder] is one more
    class attribute, a dictionary that the methods change in place; it is
    passed to the methods that read it and returned by those that change
    it. *)
Module DatasetClass.

Definition _time_placeholder : Py.dict string :=
  [ ("year", "\d{4}"); ("year2", "\d{2}"); ("month", "\d{2}");
    ("day", "\d{2}"); ("doy", "\d{3}"); ("hour", "\d{2}");
    ("minute", "\d{2}"); ("second", "\d{2}"); ("millisecond", "\d{3}");
    ("end_year", "\d{4}"); ("end_year2", "\d{2}"); ("end_month", "\d{2}");
    ("end_day", "\d{2}"); ("end_doy", "\d{3}"); ("end_hour", "\d{2}");
    ("end_minute", "\d{2}"); ("end_second", "\d{2}");
    ("end_millisecond", "\d{3}") ].

(** An [OrderedDict]. *)
Definition _temporal_resolution : Py.dict timedelta :=
  [ ("year", DT.days 366); ("month", DT.days 31); ("day", DT.days 1);
    ("hour", DT.hours 1); ("minute", DT.minutes 1);
    ("second", DT.seconds 1); ("millisecond", DT.microseconds 1000) ].

Definition year2_threshold : Z := 65.

Definition _special_chars : list ascii :=
  ["{"; "*"; "["; "\"; "<"; "("; "?"; "!"; "|"]%char.

End DatasetClass.

Inductive info_via_t : Type :=
| via_filename
| via_handler
| via_both.

(** [time_coverage]: nothing, the duration of every file (multi-file
    dataset) or the coverage of the single file. *)
Inductive coverage : Type :=
| no_coverage
| relative (d : timedelta)
| absolute (t0 t1 : datetime).

(** The file handler, as far as the dataset calls it. *)
Record Handler : Type := {
  handler_get_info : FileInfo.t -> result FileInfo.t
}.

(** The attributes of an instance. [path] holds the value that the
    property returns, the absolute path. *)
Record Dataset : Type := {
  name : string;
  path : string;
  _time_placeholder : Py.dict string;
  _path_placeholders : list string;
  _end_time_superior : option timedelta;
  _path_regex : Re.pattern;
  _base_dir : string;
  _sub_dir : string;
  _sub_dir_chunks : list string;
  _sub_dir_time_resolution : option timedelta;
  single_file : bool;
  handler : option Handler;
  info_via : info_via_t;
  exclude : option IntervalTree.t;
  time_coverage : coverage
}.

Definition has_special_chars (s : string) : bool :=
  Py.any_char_in DatasetClass._special_chars s.

(** The value of a placeholder or of a filter: a regular expression or a
    list of alternatives. *)
Inductive pvalue : Type :=
| str_value (value : string)
| seq_value (values : list string).

Fixpoint join (sep_ : string) (l : list string) : string :=
  match l with
  | [] => EmptyString
  | [x] => x
  | x :: l' => x ++ sep_ ++ join sep_ l'
  end.

(** [_add_group_capturing], for a value that is not [None]. *)
Definition _add_group_capturing (placeholder : string) (value : pvalue)
  : string :=
  match value with
  | seq_value values => "(?P<" ++ placeholder ++ ">" ++ join "|" values ++ ")"
  | str_value value => "(?P<" ++ placeholder ++ ">" ++ value ++ ")"
  end.

Definition _complete_placeholders_regex (placeholder : Py.dict pvalue)
  : Py.dict string :=
  Py.of_list
    (map (fun kv => (fst kv, _add_group_capturing (fst kv) (snd kv)))
         placeholder).

Definition _remove_group_capturing (placeholder value : string) : string :=
  let opening := "(?P<" ++ placeholder ++ ">" in
  if negb (Py.contains opening value) then value
  else
    let rest := Py.drop (String.length opening) value in
    Py.take (String.length rest - 1) rest.

Definition count_str (l : list string) (p : string) : nat :=
  List.length (filter (String.eqb p) l).

Definition field (p : string) : string := "{" ++ p ++ "}".

(** One round of the loop over [duplicated_placeholders]: every occurrence
    of [{p}] after the first is replaced by the regex without its group. *)
Definition cover_duplicate (path : string) (pv : string * string)
  : result string :=
  let (p, v) := pv in
  match Py.index (field p) path with
  | None => Err ValueError
  | Some i =>
      let split_index := (i + String.length p + 2)%nat in
      let v := Py.replace "}" "}}" (Py.replace "{" "{{" v) in
      let changed_part := Py.replace (field p) v (Py.drop split_index path) in
      Ok (Py.take split_index path ++ changed_part)
  end.

Fixpoint foldM {A B : Type} (f : A -> B -> result A) (l : list B) (a : A)
  : result A :=
  match l with
  | [] => Ok a
  | b :: l' => a' <- f a b ;; foldM f l' a'
  end.

Definition _fill_placeholders_with_regexes
  (_user_placeholder : Py.dict string) (self : Dataset) (path : string)
  (extra_placeholder : option (Py.dict string)) : result Re.pattern :=
  let extra_placeholder :=
    match extra_placeholder with Some e => e | None => [] end in
  let placeholder :=
    Py.merge (Py.merge (_time_placeholder self) _user_placeholder)
             extra_placeholder in
  let path := Py.replace "*" ".*?" (Py.replace "." "\." path) in
  let path_placeholders := Fmt.findall path in
  duplicated_placeholders <-
    mapM (fun p => match Py.get placeholder p with
                   | Some v => Ok (p, _remove_group_capturing p v)
                   | None => Err KeyError
                   end)
         (filter (fun p => (1 <? count_str path_placeholders p)%nat)
                 path_placeholders) ;;
  path <- foldM cover_duplicate (Py.of_list duplicated_placeholders) path ;;
  match Fmt.format path placeholder with
  | Ok body => Re.compile ("^" ++ body ++ "$")
  | Err KeyError => Err UnknownPlaceholderError
  | Err ValueError => Err PlaceholderRegexError
  | Err e => Err e
  end.

Definition with_path_regex (self : Dataset) (regex : Re.pattern) : Dataset :=
  {| name := name self; path := path self;
     _time_placeholder := _time_placeholder self;
     _path_placeholders := _path_placeholders self;
     _end_time_superior := _end_time_superior self;
     _path_regex := regex;
     _base_dir := _base_dir self; _sub_dir := _sub_dir self;
     _sub_dir_chunks := _sub_dir_chunks self;
     _sub_dir_time_resolution := _sub_dir_time_resolution self;
     single_file := single_file self; handler := handler self;
     info_via := info_via self; exclude := exclude self;
     time_coverage := time_coverage self |}.

(** [set_placeholders]: the update goes to the dictionary of the class,
    which is returned first; it is kept when the compilation of the path
    fails afterwards. *)
Definition set_placeholders
  (_user_placeholder : Py.dict string) (self : Dataset)
  (placeholders : Py.dict pvalue) : Py.dict string * result Dataset :=
  let _user_placeholder :=
    Py.update _user_placeholder (_complete_placeholders_regex placeholders) in
  (_user_placeholder,
   regex <- _fill_placeholders_with_regexes
              _user_placeholder self (path self) None ;;
   Ok (with_path_regex self regex)).

(** Position of a value in a list, [list.index]. *)
Fixpoint list_index (l : list timedelta) (v : timedelta) : option nat :=
  match l with
  | [] => None
  | x :: l' => if x =? v then Some O else option_map S (list_index l' v)
  end.

Definition known_resolutions (placeholders : list string) : list string :=
  filter (Py.mem DatasetClass._temporal_resolution) placeholders.

Definition resolution_of (p : string) : timedelta :=
  match Py.get DatasetClass._temporal_resolution p with
  | Some d => d
  | None => 0
  end.

Definition _get_superior_time_resolution (placeholders : list string)
  : option timedelta :=
  match known_resolutions placeholders with
  | [] => None
  | p :: ps =>
      let highest_resolution :=
        fold_left Z.max (map resolution_of ps) (resolution_of p) in
      let resolutions := Py.values DatasetClass._temporal_resolution in
      match list_index resolutions highest_resolution with
      | None => None
      | Some O => None
      | Some (S i) => nth_error resolutions i
      end
  end.

(** [min(placeholders, key=...)] and [max(placeholders, key=...)]: the
    first of the best ones. *)
Definition best_by (better : Z -> Z -> bool) (p : string) (ps : list string)
  : string :=
  fold_left
    (fun best q =>
       if better (resolution_of q) (resolution_of best) then q else best)
    ps p.

Fixpoint dedup (l : list string) : list string :=
  match l with
  | [] => []
  | x :: l' => x :: filter (fun y => negb (String.eqb x y)) (dedup l')
  end.

(** [_get_time_resolution] for a path. *)
Definition _get_time_resolution (path : string) (highest : bool)
  : string * timedelta :=
  let placeholders := dedup (Fmt.findall path) in
  let placeholders :=
    map (fun p => if String.eqb p "doy" then "day"
                  else if String.eqb p "year2" then "year" else p)
        placeholders in
  match known_resolutions placeholders with
  | [] => ("year", resolution_of "year")
  | p :: ps =>
      let placeholder :=
        if highest then best_by Z.ltb p ps else best_by Z.gtb p ps in
      (placeholder, resolution_of placeholder)
  end.

(** [os.path.dirname] and [str.split(os.path.sep)] on POSIX paths. *)
Module Path.

Definition sep : ascii := "/"%char.

(** The text up to and including the last separator, and the rest. *)
Fixpoint split_last (s : string) : string * string :=
  match s with
  | EmptyString => (EmptyString, EmptyString)
  | String c s' =>
      let (head, tail) := split_last s' in
      if Ascii.eqb c sep then
        match head with
        | EmptyString => (String c EmptyString, s')
        | _ => (String c head, tail)
        end
      else
        match head with
        | EmptyString => (EmptyString, String c tail)
        | _ => (String c head, tail)
        end
  end.

Fixpoint rstrip_sep (s : string) : string :=
  match s with
  | EmptyString => EmptyString
  | String c s' =>
      match rstrip_sep s' with
      | EmptyString => if Ascii.eqb c sep then EmptyString else String c EmptyString
      | r => String c r
      end
  end.

Definition dirname (p : string) : string :=
  let head := fst (split_last p) in
  match rstrip_sep head with
  | EmptyString => head
  | stripped => stripped
  end.

Fixpoint split_from (cur : string) (s : string) : list string :=
  match s with
  | EmptyString => [cur]
  | String c s' =>
      if Ascii.eqb c sep then cur :: split_from EmptyString s'
      else split_from (Fmt.push cur c) s'
  end.

Definition split (s : string) : list string := split_from EmptyString s.

(** [os.path.join(a, b)]. *)
Definition join (a b : string) : string :=
  if Py.prefix "/" b then b
  else
    match a with
    | EmptyString => b
    | _ => if Py.prefix "/" (Py.drop (String.length a - 1) a)
           then a ++ b else a ++ "/" ++ b
    end.

End Path.

Fixpoint first_special (s : string) : option nat :=
  match s with
  | EmptyString => None
  | String c s' =>
      if existsb (Ascii.eqb c) DatasetClass._special_chars then Some O
      else option_map S (first_special s')
  end.

(** The setter of [path]. The getter returns [os.path.abspath] of what is
    stored, and the setter reads the path through the getter: [value] is
    the absolute, normalised path, on which [abspath] changes nothing. A
    relative path stands for the path that [abspath] makes of it. *)
Definition set_path
  (_user_placeholder : Py.dict string) (self : Dataset) (value : string)
  : Py.dict string * result Dataset :=
  let directory := Path.dirname value in
  let '(base_dir, sub_dir, chunks, resolution) :=
    match first_special directory with
    | None =>
        (directory, _sub_dir self, _sub_dir_chunks self,
         _sub_dir_time_resolution self)
    | Some i =>
        let sub := Py.drop i directory in
        (Py.take i directory, sub, Path.split sub,
         Some (snd (_get_time_resolution sub true)))
    end in
  let path_placeholders := dedup (Fmt.findall value) in
  let self :=
    {| name := name self; path := value;
       _time_placeholder := _time_placeholder self;
       _path_placeholders := path_placeholders;
       _end_time_superior := _end_time_superior self;
       _path_regex := _path_regex self;
       _base_dir := base_dir; _sub_dir := sub_dir;
       _sub_dir_chunks := chunks;
       _sub_dir_time_resolution := resolution;
       single_file := single_file self; handler := handler self;
       info_via := info_via self; exclude := exclude self;
       time_coverage := time_coverage self |} in
  let '(_user_placeholder, r) :=
    set_placeholders _user_placeholder self
      (map (fun p => (p, str_value ".+?"))
           (filter (fun p => negb (Py.mem (_time_placeholder self) p))
                   path_placeholders)) in
  (_user_placeholder,
   self <- r ;;
   let end_time_placeholders :=
     map (Py.drop 4)
         (filter (fun p => Py.startswith p "end"
                           && Py.mem (_time_placeholder self) p)
                 path_placeholders) in
   Ok {| name := name self; path := path self;
         _time_placeholder := _time_placeholder self;
         _path_placeholders := _path_placeholders self;
         _end_time_superior :=
           _get_superior_time_resolution end_time_placeholders;
         _path_regex := _path_regex self;
         _base_dir := _base_dir self; _sub_dir := _sub_dir self;
         _sub_dir_chunks := _sub_dir_chunks self;
         _sub_dir_time_resolution := _sub_dir_time_resolution self;
         single_file := negb (has_special_chars (path self));
         handler := handler self;
         info_via := info_via self; exclude := exclude self;
         time_coverage := time_coverage self |}).

(** The argument [times] of [generate_filename]: one timestamp or a pair. *)
Inductive times_arg : Type :=
| one_time (t : datetime)
| two_times (start_time end_time : datetime).

(** The keyword arguments that [generate_filename] passes to [format] for
    one of the two times; [prefix] is empty or ["end_"]. *)
Definition time_fillings (prefix : string) (t : datetime) : Py.dict string :=
  [ (prefix ++ "year", Py.str_of_int (DT.year t));
    (prefix ++ "year2", Py.last2 (Py.str_of_int (DT.year t)));
    (prefix ++ "month", Py.zero_pad 2 (DT.month t));
    (prefix ++ "day", Py.zero_pad 2 (DT.day t));
    (prefix ++ "doy",
      match DT.make (DT.year t) 1 1 0 0 0 0 with
      | Ok jan1 => Py.zero_pad 3 (DT.td_days (DT.diff t jan1) + 1)
      | Err _ => EmptyString
      end);
    (prefix ++ "hour", Py.zero_pad 2 (DT.hour t));
    (prefix ++ "minute", Py.zero_pad 2 (DT.minute t));
    (prefix ++ "second", Py.zero_pad 2 (DT.second t));
    (prefix ++ "millisecond", Py.zero_pad 3 (DT.microsecond t / 1000)) ].

Definition generate_filename
  (_user_placeholder : Py.dict string) (self : Dataset)
  (times : times_arg) (template : option string)
  (fill : option (Py.dict string)) : result string :=
  let '(start_time, end_time) :=
    match times with
    | one_time t => (t, t)
    | two_times t0 t1 => (t0, t1)
    end in
  let template :=
    match template with Some t => t | None => path self end in
  let default_fill :=
    Py.of_list
      (map (fun pv => (fst pv, _remove_group_capturing (fst pv) (snd pv)))
           _user_placeholder) in
  let fill :=
    match fill with
    | None => default_fill
    | Some f => Py.merge default_fill f
    end in
  let fixed :=
    (time_fillings "" start_time ++ time_fillings "end_" end_time)%list in
  (* a keyword that is given twice *)
  if existsb (Py.mem fixed) (Py.keys fill) then Err TypeError
  else
    match Fmt.format template (fixed ++ fill)%list with
    | Ok filename =>
        if has_special_chars filename then Err UnfilledPlaceholderError
        else Ok filename
    | Err KeyError => Err UnknownPlaceholderError
    | Err e => Err e
    end.

(** The argument [template] of [parse_filename]. *)
Inductive template_arg : Type :=
| default_template
| template_string (template : string)
| template_regex (regex : Re.pattern).

Definition parse_filename
  (_user_placeholder : Py.dict string) (self : Dataset)
  (filename : string) (template : template_arg) : result (Py.dict string) :=
  regex <-
    match template with
    | default_template => Ok (_path_regex self)
    | template_string t =>
        _fill_placeholders_with_regexes _user_placeholder self t None
    | template_regex r => Ok r
    end ;;
  match Re.match_ regex filename with
  | None => Err ValueError
  | Some groupdict => Ok groupdict
  end.

Definition _standardise_datetime_args (args : Py.dict Z)
  : result (Py.dict Z) :=
  let year2 := Py.get args "year2" in
  let args := Py.remove args "year2" in
  let args :=
    match year2 with
    | Some year2 =>
        if year2 <? DatasetClass.year2_threshold
        then Py.set args "year" (2000 + year2)
        else Py.set args "year" (1900 + year2)
    | None => args
    end in
  let millisecond := Py.get args "millisecond" in
  let args := Py.remove args "millisecond" in
  let args :=
    match millisecond with
    | Some millisecond => Py.set args "microsecond" (millisecond * 1000)
    | None => args
    end in
  let doy := Py.get args "doy" in
  let args := Py.remove args "doy" in
  match doy with
  | Some doy =>
      match Py.get args "year" with
      | None => Err KeyError
      | Some year =>
          jan1 <- DT.make year 1 1 0 0 0 0 ;;
          date <- DT.add jan1 (DT.days (doy - 1)) ;;
          Ok (Py.set (Py.set args "month" (DT.month date))
                     "day" (DT.day date))
      end
  | None => Ok args
  end.

Definition _to_datetime_args (self : Dataset) (placeholder : Py.dict string)
  : result (Py.dict Z * Py.dict Z) :=
  start_args <-
    mapM (fun pv => v <- Py.int (snd pv) ;; Ok (fst pv, v))
         (filter (fun pv => negb (Py.startswith (fst pv) "end_")
                            && Py.mem (_time_placeholder self) (fst pv))
                 placeholder) ;;
  end_args <-
    mapM (fun pv => v <- Py.int (snd pv) ;; Ok (Py.drop 4 (fst pv), v))
         (filter (fun pv => Py.startswith (fst pv) "end_"
                            && Py.mem (_time_placeholder self) (fst pv))
                 placeholder) ;;
  start_args <- _standardise_datetime_args (Py.of_list start_args) ;;
  end_args <- _standardise_datetime_args (Py.of_list end_args) ;;
  Ok (start_args, end_args).

Definition is_empty {A : Type} (l : list A) : bool :=
  match l with [] => true | _ => false end.

(** [_retrieve_time_coverage]: [None], or the pair of the start and the
    end, each of which may be [None]. *)
Definition _retrieve_time_coverage
  (self : Dataset) (filled_placeholder : Py.dict string)
  : result (option (option datetime * option datetime)) :=
  if is_empty filled_placeholder then Ok None
  else
    '(start_args, end_args) <- _to_datetime_args self filled_placeholder ;;
    start_date <-
      (if is_empty start_args then Ok None
       else d <- DT.of_kwargs start_args ;; Ok (Some d)) ;;
    if is_empty end_args then Ok (Some (start_date, None))
    else
      let end_args := Py.merge start_args end_args in
      end_date <- DT.of_kwargs end_args ;;
      match start_date with
      | None => Err TypeError
      | Some start =>
          if end_date <? start then
            match _end_time_superior self with
            | None => Err TypeError
            | Some superior =>
                end_date <- DT.add end_date superior ;;
                Ok (Some (start_date, Some end_date))
            end
          else Ok (Some (start_date, Some end_date))
      end.

(** The setter of [time_coverage]. The conversions [to_datetime] and
    [to_timedelta] (typhon.utils.time) are not part of the sources at hand:
    the value arrives converted, and a value of the wrong kind is outside
    the model. *)
Definition set_time_coverage (self : Dataset) (value : coverage)
  : result coverage :=
  if single_file self then
    match value with
    | no_coverage => Ok (absolute DT.min DT.max)
    | absolute t0 t1 => Ok (absolute t0 t1)
    | relative _ => Err Unsupported
    end
  else
    match value with
    | no_coverage => Ok no_coverage
    | relative d => Ok (relative d)
    | absolute _ _ => Err Unsupported
    end.

(** [Dataset.__init__], without the information cache, which is threaded
    through the methods that use it. The first component is the dictionary
    [_user_placeholder] of the class after the call. *)
Definition init
  (_user_placeholder : Py.dict string)
  (path_ : string) (handler_ : option Handler) (name_ : string)
  (info_via_ : option info_via_t) (time_coverage_ : coverage)
  (exclude_ : option (list IntervalTree.interval))
  (placeholder : option (Py.dict pvalue))
  : Py.dict string * result Dataset :=
  let self :=
    {| name := name_; path := EmptyString;
       _time_placeholder :=
         _complete_placeholders_regex
           (map (fun kv => (fst kv, str_value (snd kv)))
                DatasetClass._time_placeholder);
       _path_placeholders := [];
       _end_time_superior := None;
       _path_regex := [];
       _base_dir := EmptyString; _sub_dir := EmptyString;
       _sub_dir_chunks := [];
       _sub_dir_time_resolution := None;
       single_file := false; handler := handler_;
       info_via := via_filename; exclude := None;
       time_coverage := no_coverage |} in
  let '(_user_placeholder, r) := set_path _user_placeholder self path_ in
  match r with
  | Err e => (_user_placeholder, Err e)
  | Ok self =>
      let '(_user_placeholder, r) :=
        match placeholder with
        | Some p => set_placeholders _user_placeholder self p
        | None => (_user_placeholder, Ok self)
        end in
      (_user_placeholder,
       self <- r ;;
       via <-
         match info_via_ with
         | None | Some via_filename => Ok via_filename
         | Some via =>
             match handler self with
             | None => Err NoHandlerError
             | Some _ => Ok via
             end
         end ;;
       coverage_ <- set_time_coverage self time_coverage_ ;;
       Ok {| name := name self; path := path self;
             _time_placeholder := _time_placeholder self;
             _path_placeholders := _path_placeholders self;
             _end_time_superior := _end_time_superior self;
             _path_regex := _path_regex self;
             _base_dir := _base_dir self; _sub_dir := _sub_dir self;
             _sub_dir_chunks := _sub_dir_chunks self;
             _sub_dir_time_resolution := _sub_dir_time_resolution self;
             single_file := single_file self; handler := handler self;
             info_via := via; exclude := exclude_;
             time_coverage := coverage_ |})
  end.

(** ** File discovery *)

(** What the dataset asks of its surroundings: the file system ([os.path],
    [glob]), and the functions of typhon.utils.time, typhon.files and pandas
    that are not part of the sources at hand. *)
Record Env : Type := {
  isfile : string -> bool;
  (** [glob.iglob(pattern)] *)
  iglob : string -> list string;
  (** [set_time_resolution(t, resolution)] *)
  set_time_resolution : datetime -> string -> datetime;
  (** the path that [typhon.files.decompress] hands out *)
  decompress : string -> string;
  (** the bin of a timestamp under a pandas frequency, [None] for a string
      that is no frequency *)
  freq_bin : string -> option (datetime -> Z)
}.

Definition cache_t : Type := Py.dict FileInfo.t.

Definition with_times (info : FileInfo.t)
  (ts : option datetime * option datetime) : FileInfo.t :=
  {| FileInfo.path := FileInfo.path info; FileInfo.times := ts;
     FileInfo.attr := FileInfo.attr info |}.

Definition with_path (info : FileInfo.t) (p : string) : FileInfo.t :=
  {| FileInfo.path := p; FileInfo.times := FileInfo.times info;
     FileInfo.attr := FileInfo.attr info |}.

Definition uses_filename (via : info_via_t) : bool :=
  match via with via_filename | via_both => true | via_handler => false end.

Definition uses_handler (via : info_via_t) : bool :=
  match via with via_handler | via_both => true | via_filename => false end.

(** [get_info]: the record of the file and the cache after the call. *)
Definition get_info
  (env : Env) (_user_placeholder : Py.dict string) (self : Dataset)
  (info_cache : cache_t) (file_info : FileInfo.t)
  (retrieve_via : option info_via_t) : result (FileInfo.t * cache_t) :=
  match Py.get info_cache (FileInfo.path file_info) with
  | Some cached => Ok (cached, info_cache)
  | None =>
      let info := file_info in
      let info :=
        if single_file self then
          match time_coverage self with
          | absolute t0 t1 => with_times info (Some t0, Some t1)
          | _ => with_times info (None, None)
          end
        else info in
      let retrieve_via :=
        match retrieve_via with Some v => v | None => info_via self end in
      info <-
        (if uses_filename retrieve_via then
           filled_placeholder <-
             parse_filename _user_placeholder self (FileInfo.path info)
                            default_template ;;
           coverage_ <- _retrieve_time_coverage self filled_placeholder ;;
           let filename_info :=
             {| FileInfo.path := FileInfo.path info;
                FileInfo.times :=
                  match coverage_ with Some ts => ts | None => (None, None) end;
                FileInfo.attr :=
                  filter (fun kv => Py.mem _user_placeholder (fst kv))
                         filled_placeholder |} in
           Ok (FileInfo.update info filename_info)
         else Ok info) ;;
      info <-
        (if uses_handler retrieve_via then
           match handler self with
           | None => Err AttributeError
           | Some h =>
               let decompressed_file :=
                 with_path info (decompress env (FileInfo.path info)) in
               handler_info <- handler_get_info h decompressed_file ;;
               Ok (FileInfo.update info handler_info)
           end
         else Ok info) ;;
      info <-
        match FileInfo.times info with
        | (None, None) => Ok (with_times info (Some DT.min, Some DT.max))
        | (None, Some _) => Err ValueError
        | (Some t0, None) =>
            match time_coverage self with
            | relative d =>
                t1 <- DT.add t0 d ;; Ok (with_times info (Some t0, Some t1))
            | _ => Ok (with_times info (Some t0, Some t0))
            end
        | (Some _, Some _) => Ok info
        end ;;
      Ok (info, Py.set info_cache (FileInfo.path info) info)
  end.

Definition is_excluded (self : Dataset) (period : IntervalTree.interval)
  : bool :=
  match exclude self with
  | None => false
  | Some tree => IntervalTree.contains tree period
  end.

(** The times of a record as an interval; comparing [None] with a
    timestamp raises [TypeError]. *)
Definition period_of (info : FileInfo.t) : result IntervalTree.interval :=
  match FileInfo.times info with
  | (Some t0, Some t1) => Ok (t0, t1)
  | _ => Err TypeError
  end.

(** The loop of [_get_matching_files] over the names that [iglob] lists. *)
Fixpoint matching_files_loop
  (env : Env) (_user_placeholder : Py.dict string) (self : Dataset)
  (regex : Re.pattern) (start end_ : datetime)
  (filenames : list string) (info_cache : cache_t)
  : result (list FileInfo.t * cache_t) :=
  match filenames with
  | [] => Ok ([], info_cache)
  | filename :: rest =>
      match Re.match_ regex filename with
      | Some _ =>
          '(file_info, info_cache) <-
            get_info env _user_placeholder self info_cache
                     (FileInfo.of_path filename) None ;;
          period <- period_of file_info ;;
          '(found, info_cache) <-
            matching_files_loop env _user_placeholder self regex start end_
                                rest info_cache ;;
          if IntervalTree.interval_overlaps period (start, end_)
             && negb (is_excluded self period)
          then Ok (file_info :: found, info_cache)
          else Ok (found, info_cache)
      | None =>
          matching_files_loop env _user_placeholder self regex start end_
                              rest info_cache
      end
  end.

Definition _get_matching_files
  (env : Env) (_user_placeholder : Py.dict string) (self : Dataset)
  (path_ : string) (regex : Re.pattern) (start end_ : datetime)
  (info_cache : cache_t) : result (list FileInfo.t * cache_t) :=
  matching_files_loop env _user_placeholder self regex start end_
                      (iglob env (Path.join path_ "*")) info_cache.

(** [_check_file]: the black list maps a placeholder to a compiled regex. *)
Fixpoint _check_file (black_list : Py.dict Re.pattern)
  (placeholders : Py.dict string) : bool :=
  match black_list with
  | [] => true
  | (placeholder, forbidden) :: rest =>
      match Py.get placeholders placeholder with
      | None => _check_file rest placeholders
      | Some value =>
          match Re.match_ forbidden value with
          | Some _ => false
          | None => _check_file rest placeholders
          end
      end
  end.

Definition _check_placeholders
  (self : Dataset) (attr_ : Py.dict string) (start end_ : datetime)
  : result bool :=
  '(attr_start, attr_end) <- _to_datetime_args self attr_ ;;
  let attr_end := Py.merge attr_start attr_end in
  match Py.get attr_start "year" with
  | Some year =>
      match DT.of_kwargs attr_start, DT.of_kwargs attr_end with
      | Ok s, Ok e => Ok ((start <=? s) && (e <=? end_))
      | Ok s, Err _ =>
          if start <=? s then
            Ok ((DT.year start <=? year)
                && (DT.opt0 (Py.get attr_end "year") <=? DT.year end_))
          else Ok false
      | Err _, _ =>
          Ok ((DT.year start <=? year)
              && (DT.opt0 (Py.get attr_end "year") <=? DT.year end_))
      end
  | None => Ok true
  end.

Fixpoint flat_mapM {A B : Type} (f : A -> result (list B)) (l : list A)
  : result (list B) :=
  match l with
  | [] => Ok []
  | a :: l' => bs <- f a ;; more <- flat_mapM f l' ;; Ok (bs ++ more)%list
  end.

Fixpoint filterM {A : Type} (f : A -> result bool) (l : list A)
  : result (list A) :=
  match l with
  | [] => Ok []
  | a :: l' =>
      keep <- f a ;; more <- filterM f l' ;;
      Ok (if keep then a :: more else more)
  end.

Definition _get_matching_dirs
  (env : Env) (_user_placeholder : Py.dict string) (self : Dataset)
  (dir_with_attrs : string * Py.dict string) (regex : Re.pattern)
  : result (list (string * Py.dict string)) :=
  let (base_dir, dir_attr) := dir_with_attrs in
  flat_mapM
    (fun new_dir =>
       let basename :=
         Path.rstrip_sep (Py.drop (String.length base_dir) new_dir) in
       match parse_filename _user_placeholder self basename
                            (template_regex regex) with
       | Ok parsed => Ok [(new_dir, Py.merge dir_attr parsed)]
       | Err ValueError => Ok []
       | Err e => Err e
       end)
    (iglob env (Path.join (base_dir ++ "*") EmptyString)).

(** One round of the loop of [_get_search_dirs] over the chunks. *)
Definition search_dirs_step
  (env : Env) (_user_placeholder : Py.dict string) (self : Dataset)
  (start end_ : datetime) (white_list : Py.dict string)
  (search_dirs : list (string * Py.dict string)) (subdir_chunk : string)
  : result (list (string * Py.dict string)) :=
  if negb (has_special_chars subdir_chunk) then
    Ok (map (fun da => (Path.join (fst da) subdir_chunk, snd da)) search_dirs)
  else
    let resolution := fst (_get_time_resolution subdir_chunk true) in
    let start_check := set_time_resolution env start resolution in
    let end_check := set_time_resolution env end_ resolution in
    regex <- _fill_placeholders_with_regexes
               _user_placeholder self subdir_chunk (Some white_list) ;;
    candidates <-
      flat_mapM
        (fun search_dir =>
           _get_matching_dirs env _user_placeholder self search_dir regex)
        search_dirs ;;
    filterM
      (fun da => _check_placeholders self (snd da) start_check end_check)
      candidates.

Definition _get_search_dirs
  (env : Env) (_user_placeholder : Py.dict string) (self : Dataset)
  (start end_ : datetime) (white_list : Py.dict string)
  : result (list (string * Py.dict string)) :=
  let search_dirs := [(_base_dir self, [])] in
  match _sub_dir self with
  | EmptyString => Ok search_dirs
  | _ =>
      foldM (search_dirs_step env _user_placeholder self start end_ white_list)
            (_sub_dir_chunks self) search_dirs
  end.

(** *** Ordering and bundling *)

(** What [find] yields: a file, or a bundle of files. *)
Inductive found : Type :=
| file (info : FileInfo.t)
| bundle (infos : list FileInfo.t).

(** The argument [bundle] of [find]. *)
Inductive bundle_arg : Type :=
| no_bundle
| bundle_size (n : Z)
| bundle_freq (freq : string)
| bundle_other.

(** The key [x.times[0]], for records whose start is known. *)
Definition start_time (info : FileInfo.t) : datetime :=
  match fst (FileInfo.times info) with Some t => t | None => 0 end.

(** [sorted(l, key=key)]: the result of a stable sort, built by insertion
    from the right, an element going in front of the equal ones that come
    after it. *)
Fixpoint insert_sorted {A : Type} (key : A -> Z) (x : A) (l : list A)
  : list A :=
  match l with
  | [] => [x]
  | y :: l' =>
      if key x <=? key y then x :: y :: l'
      else y :: insert_sorted key x l'
  end.

Fixpoint sorted {A : Type} (key : A -> Z) (l : list A) : list A :=
  match l with
  | [] => []
  | x :: l' => insert_sorted key x (sorted key l')
  end.

Definition has_start (info : FileInfo.t) : bool :=
  match fst (FileInfo.times info) with Some _ => true | None => false end.

(** [sorted(files, key=lambda x: x.times[0])]: a comparison with [None]
    raises [TypeError]. *)
Definition sorted_by_start (files : list FileInfo.t)
  : result (list FileInfo.t) :=
  match files with
  | [] | [_] => Ok files
  | _ =>
      if forallb has_start files then Ok (sorted start_time files)
      else Err TypeError
  end.

(** [files[i:j]]. *)
Definition slice {A : Type} (l : list A) (i j : nat) : list A :=
  firstn (j - i) (skipn i l).

(** [range(0, stop, step)] for [step > 0]. *)
Definition range0 (stop step : nat) : list nat :=
  map (fun k => (k * step)%nat) (seq 0 ((stop + step - 1) / step)).

(** Consecutive elements with the same key. *)
Fixpoint group_by_key {A : Type} (key : A -> Z) (l : list A)
  : list (list A) :=
  match l with
  | [] => []
  | x :: l' =>
      match group_by_key key l' with
      | (y :: g) :: gs =>
          if key x =? key y then (x :: y :: g) :: gs
          else [x] :: (y :: g) :: gs
      | gs => [x] :: gs
      end
  end.

(** [time_series.groupby(pd.Grouper(freq=...))], the empty groups left out:
    a time grouper of pandas sorts the series by its index with a stable
    sort and cuts it into the bins of the frequency. *)
Definition groupby_freq (bin : datetime -> Z) (files : list FileInfo.t)
  : list (list FileInfo.t) :=
  group_by_key (fun info => bin (start_time info)) (sorted start_time files).

Definition _prepare_find_files_return
  (env : Env) (file_iterator : list FileInfo.t) (sort : bool)
  (bundle_size_ : bundle_arg) : result (list found) :=
  file_iterator <-
    (if sort || match bundle_size_ with bundle_size _ => true | _ => false end
     then sorted_by_start file_iterator
     else Ok file_iterator) ;;
  match bundle_size_ with
  | no_bundle => Ok (map file file_iterator)
  | bundle_size n =>
      let files := file_iterator in
      if n =? 0 then Err ValueError
      else if n <? 0 then Ok []
      else
        let step := Z.to_nat n in
        Ok (map (fun i => bundle (slice files i (i + step)))
                (range0 (List.length files) step))
  | bundle_freq freq =>
      let files := file_iterator in
      match freq_bin env freq with
      | None => Err ValueError
      | Some bin =>
          if forallb has_start files
          then Ok (map bundle (groupby_freq bin files))
          else Err TypeError
      end
  | bundle_other => Err ValueError
  end.

(** *** [find] and [find_closest] *)

(** The loop of the generator [file_finder] over the search directories. *)
Fixpoint file_finder
  (env : Env) (_user_placeholder : Py.dict string) (self : Dataset)
  (regex : Re.pattern) (black_list : Py.dict Re.pattern)
  (start end_ : datetime) (search_dirs : list (string * Py.dict string))
  (info_cache : cache_t) : result (list FileInfo.t * cache_t) :=
  match search_dirs with
  | [] => Ok ([], info_cache)
  | (path_, _) :: rest =>
      '(files, info_cache) <-
        _get_matching_files env _user_placeholder self path_ regex
                            start end_ info_cache ;;
      let files :=
        filter (fun file_info =>
                  is_empty black_list
                  || _check_file black_list (FileInfo.attr file_info))
               files in
      '(more, info_cache) <-
        file_finder env _user_placeholder self regex black_list start end_
                    rest info_cache ;;
      Ok ((files ++ more)%list, info_cache)
  end.

Fixpoint lstrip_bang (s : string) : string :=
  match s with
  | String "!"%char s' => lstrip_bang s'
  | _ => s
  end.

(** [convert] inside [find]. *)
Definition convert (value : pvalue) : result Re.pattern :=
  match value with
  | seq_value values => Re.compile (join "|" values)
  | str_value value => Re.compile value
  end.

(** The first statements of [find]: the defaults of the bounds, the
    half-open interval and the test of the bounds. *)
Definition find_window (start end_ : option datetime)
  : result (datetime * datetime) :=
  let start := match start with Some t => t | None => DT.min end in
  let end_ := match end_ with Some t => t | None => DT.max end in
  end_ <- DT.sub end_ (DT.microseconds 1) ;;
  if end_ <? start then Err ValueError else Ok (start, end_).

(** The statements of [find] for a dataset of many files, up to the
    generator [file_finder], which is run to its end. *)
Definition find_files
  (env : Env) (_user_placeholder : Py.dict string) (self : Dataset)
  (info_cache : cache_t) (start end_ : datetime)
  (filters : option (Py.dict pvalue)) : result (list FileInfo.t * cache_t) :=
  dir_start <-
    match _sub_dir_time_resolution self with
    | None => Ok start
    | Some resolution =>
        if start =? DT.min then Ok start else DT.sub start resolution
    end ;;
  '(regex, white_list, black_list) <-
    match filters with
    | None => Ok (_path_regex self, [], [])
    | Some filters =>
        let white_list :=
          _complete_placeholders_regex
            (filter (fun fv => negb (Py.startswith (fst fv) "!")) filters) in
        regex <- _fill_placeholders_with_regexes
                   _user_placeholder self (path self) (Some white_list) ;;
        black_list <-
          mapM (fun fv => r <- convert (snd fv) ;;
                          Ok (lstrip_bang (fst fv), r))
               (filter (fun fv => Py.startswith (fst fv) "!") filters) ;;
        Ok (regex, white_list, Py.of_list black_list)
    end ;;
  search_dirs <-
    _get_search_dirs env _user_placeholder self dir_start end_ white_list ;;
  file_finder env _user_placeholder self regex black_list start end_
              search_dirs info_cache.

Definition find
  (env : Env) (_user_placeholder : Py.dict string) (self : Dataset)
  (info_cache : cache_t) (start end_ : option datetime) (sort : bool)
  (bundle_ : bundle_arg) (filters : option (Py.dict pvalue))
  (no_files_error : bool) : result (list found * cache_t) :=
  '(start, end_) <- find_window start end_ ;;
  if single_file self then
    if isfile env (path self) then
      '(file_info, info_cache) <-
        get_info env _user_placeholder self info_cache
                 (FileInfo.of_path (path self)) None ;;
      period <- period_of file_info ;;
      if IntervalTree.interval_overlaps period (start, end_)
      then Ok ([file file_info], info_cache)
      else if no_files_error then Err NoFilesError
      else Ok ([], info_cache)
    else Err ValueError
  else
    '(files, info_cache) <-
      find_files env _user_placeholder self info_cache start end_ filters ;;
    if negb no_files_error then
      out <- _prepare_find_files_return env files sort bundle_ ;;
      Ok (out, info_cache)
    else
      match files with
      | [] => Err NoFilesError
      | _ =>
          out <- _prepare_find_files_return env files sort bundle_ ;;
          Ok (out, info_cache)
      end.

(** What [find_closest] returns: the path of a single-file dataset, a
    record, or [None]. *)
Inductive closest : Type :=
| closest_path (p : string)
| closest_file (info : FileInfo.t)
| closest_none.

Definition files_of (out : list found) : list FileInfo.t :=
  flat_map (fun y => match y with file f => [f] | bundle fs => fs end) out.

(** The distance of a timestamp to the nearer end of a file. *)
Definition distance (timestamp : datetime) (info : FileInfo.t) : Z :=
  match FileInfo.times info with
  | (Some t0, Some t1) =>
      Z.min (Z.abs (t0 - timestamp)) (Z.abs (t1 - timestamp))
  | _ => 0
  end.

(** [files[np.argmin(intervals)]]: the first of the nearest files. *)
Fixpoint nearest (timestamp : datetime) (best : FileInfo.t)
  (files : list FileInfo.t) : FileInfo.t :=
  match files with
  | [] => best
  | f :: rest =>
      if distance timestamp f <? distance timestamp best
      then nearest timestamp f rest
      else nearest timestamp best rest
  end.

Definition covers (timestamp : datetime) (info : FileInfo.t) : bool :=
  match FileInfo.times info with
  | (Some t0, Some t1) => IntervalTree.interval_contains (t0, t1) timestamp
  | _ => false
  end.

Definition find_closest
  (env : Env) (_user_placeholder : Py.dict string) (self : Dataset)
  (info_cache : cache_t) (timestamp : datetime)
  (filters : option (Py.dict pvalue)) : result (closest * cache_t) :=
  if single_file self then
    if isfile env (path self) then Ok (closest_path (path self), info_cache)
    else Err ValueError
  else
    direct <-
      match
        path_ <- generate_filename _user_placeholder self
                                   (one_time timestamp) None None ;;
        if isfile env path_ then
          r <- get_info env _user_placeholder self info_cache
                        (FileInfo.of_path path_) None ;;
          Ok (Some r)
        else Ok None
      with
      | Ok r => Ok r
      | Err UnknownPlaceholderError | Err UnfilledPlaceholderError => Ok None
      | Err e => Err e
      end ;;
    match direct with
    | Some (info, info_cache) => Ok (closest_file info, info_cache)
    | None =>
        '(start, end_) <-
          match _sub_dir_time_resolution self with
          | None => Ok (DT.min, DT.max)
          | Some resolution =>
              start <- DT.sub timestamp resolution ;;
              end_ <- DT.add timestamp resolution ;;
              Ok (start, end_)
          end ;;
        '(out, info_cache) <-
          find env _user_placeholder self info_cache (Some start) (Some end_)
               false no_bundle filters true ;;
        match files_of out with
        | [] => Ok (closest_none, info_cache)
        | f :: rest =>
            match List.find (covers timestamp) (f :: rest) with
            | Some hit => Ok (closest_file hit, info_cache)
            | None => Ok (closest_file (nearest timestamp f rest), info_cache)
            end
        end
    end.

(** ** The information cache on disk *)

(** Modelled from the spec: [FileInfo.to_json_dict] and
    [FileInfo.from_json_dict] are missing from the sources. "Serialized form
    is {path, times: [iso8601|null, iso8601|null], attrs}". *)
Record json_dict : Type := {
  json_path : string;
  json_times : option string * option string;
  json_attrs : Py.dict string
}.

(** The two conversions of [FileInfo]. *)
Record Codec : Type := {
  to_json_dict : FileInfo.t -> json_dict;
  from_json_dict : json_dict -> result FileInfo.t
}.

(** The text of a JSON document that is a list of objects, cut into the
    pieces that [json.dump] writes one after the other. *)
Inductive token : Type :=
| list_begin
| object (d : json_dict)
| list_end.

Definition json_dump (records : list json_dict) : list token :=
  (list_begin :: map object records ++ [list_end])%list.

Fixpoint json_objects (ts : list token) : result (list json_dict) :=
  match ts with
  | [list_end] => Ok []
  | object d :: ts' => ds <- json_objects ts' ;; Ok (d :: ds)
  | _ => Err ValueError
  end.

(** [json.load]: a text that is no complete document raises an error. *)
Definition json_load (ts : list token) : result (list json_dict) :=
  match ts with
  | list_begin :: ts' => json_objects ts'
  | _ => Err ValueError
  end.

(** The files on disk and their contents. *)
Definition disk : Type := Py.dict (list token).

(** What [save_info_cache] does to the disk, one step after the other. *)
Inductive step : Type :=
| open_w (f : string)                (* [open(f, 'w')]: the file is emptied *)
| write (f : string) (t : token)
| move (src dst : string).           (* [shutil.move] *)

Definition exec (d : disk) (s : step) : disk :=
  match s with
  | open_w f => Py.set d f []
  | write f t =>
      match Py.get d f with
      | Some ts => Py.set d f (ts ++ [t])%list
      | None => d
      end
  | move src dst =>
      match Py.get d src with
      | Some ts => Py.remove (Py.set d dst ts) src
      | None => d
      end
  end.

Definition run (steps : list step) (d : disk) : disk := fold_left exec steps d.

Definition save_info_cache_steps
  (codec : Codec) (info_cache : cache_t) (filename : option string)
  : list step :=
  match filename with
  | None => []
  | Some filename =>
      let backup := filename ++ ".backup" in
      let info_cache_ :=
        map (to_json_dict codec) (Py.values info_cache) in
      (open_w backup :: map (write backup) (json_dump info_cache_)
       ++ [move backup filename])%list
  end.

Definition save_info_cache
  (codec : Codec) (info_cache : cache_t) (filename : option string)
  (d : disk) : disk :=
  run (save_info_cache_steps codec info_cache filename) d.

(** A save that stops after [n] steps. *)
Definition interrupted_save
  (n : nat) (codec : Codec) (info_cache : cache_t) (filename : option string)
  (d : disk) : disk :=
  run (firstn n (save_info_cache_steps codec info_cache filename)) d.

(** [load_info_cache]: an error is turned into a warning and the cache is
    left as it is. *)
Definition load_info_cache
  (codec : Codec) (d : disk) (info_cache : cache_t) (filename : option string)
  : cache_t :=
  match filename with
  | None => info_cache
  | Some filename =>
      match Py.get d filename with
      | None => info_cache
      | Some text =>
          match
            json_info_cache <- json_load text ;;
            mapM (fun json_dict_ =>
                    info <- from_json_dict codec json_dict_ ;;
                    Ok (json_path json_dict_, info))
                 json_info_cache
          with
          | Ok loaded => Py.update info_cache (Py.of_list loaded)
          | Err _ => info_cache
          end
      end
  end.

(** ** Objects: the class and its instances *)

(** The state of a program that holds several datasets: the dictionary
    [Dataset._user_placeholder], which belongs to the class, and the
    instances in the order of their creation. An instance has no attribute
    [_user_placeholder] of its own, so [self._user_placeholder] is the
    dictionary of the class. *)
Record World : Type := {
  class_user_placeholder : Py.dict string;
  instances : list Dataset
}.

Definition empty_world : World :=
  {| class_user_placeholder := []; instances := [] |}.

(** [obj._user_placeholder] for the instance number [i]. *)
Definition user_placeholder_of (w : World) (i : nat)
  : option (Py.dict string) :=
  match nth_error (instances w) i with
  | Some _ => Some (class_user_placeholder w)
  | None => None
  end.

Definition path_regex_of (w : World) (i : nat) : option Re.pattern :=
  option_map _path_regex (nth_error (instances w) i).

Fixpoint replace_nth {A : Type} (l : list A) (i : nat) (x : A) : list A :=
  match l, i with
  | [], _ => []
  | _ :: l', O => x :: l'
  | y :: l', S i' => y :: replace_nth l' i' x
  end.

(** [Dataset(path, placeholder=placeholder)]: the new instance is the last
    one. When the constructor raises, the class keeps what was written. *)
Definition new_dataset
  (w : World) (path_ : string) (placeholder : option (Py.dict pvalue))
  : World * option exn :=
  match init (class_user_placeholder w) path_ None EmptyString None
             no_coverage None placeholder with
  | (up, Ok self) =>
      ({| class_user_placeholder := up;
          instances := (instances w ++ [self])%list |}, None)
  | (up, Err e) =>
      ({| class_user_placeholder := up; instances := instances w |}, Some e)
  end.

(** [obj.set_placeholders( **placeholders )] for the instance number [i]. *)
Definition call_set_placeholders
  (w : World) (i : nat) (placeholders : Py.dict pvalue)
  : World * option exn :=
  match nth_error (instances w) i with
  | None => (w, Some IndexError)
  | Some self =>
      match set_placeholders (class_user_placeholder w) self placeholders with
      | (up, Ok self') =>
          ({| class_user_placeholder := up;
              instances := replace_nth (instances w) i self' |}, None)
      | (up, Err e) =>
          ({| class_user_placeholder := up; instances := instances w |},
           Some e)
      end
  end.

(** * Properties *)

(** ** Tools: decidable equality and checks over a range *)

Class Eqb (A : Type) : Type := {
  eqb : A -> A -> bool;
  eqb_eq : forall x y, eqb x y = true -> x = y
}.

#[export] Instance Eqb_Z : Eqb Z :=
  {| eqb := Z.eqb; eqb_eq := fun x y H => proj1 (Z.eqb_eq x y) H |}.

#[export] Instance Eqb_nat : Eqb nat :=
  {| eqb := Nat.eqb; eqb_eq := fun x y H => proj1 (Nat.eqb_eq x y) H |}.

#[export] Instance Eqb_string : Eqb string :=
  {| eqb := String.eqb; eqb_eq := fun x y H => proj1 (String.eqb_eq x y) H |}.

Definition exn_eqb (x y : exn) : bool :=
  match x, y with
  | ValueError, ValueError | TypeError, TypeError | KeyError, KeyError
  | IndexError, IndexError | AttributeError, AttributeError
  | OverflowError, OverflowError | ReError, ReError
  | NoFilesError, NoFilesError | NoHandlerError, NoHandlerError
  | UnknownPlaceholderError, UnknownPlaceholderError
  | UnfilledPlaceholderError, UnfilledPlaceholderError
  | PlaceholderRegexError, PlaceholderRegexError
  | Unsupported, Unsupported => true
  | _, _ => false
  end.

Lemma exn_eqb_eq (x y : exn) : exn_eqb x y = true -> x = y.
Proof. destruct x, y; simpl; congruence. Qed.

#[export] Instance Eqb_exn : Eqb exn :=
  {| eqb := exn_eqb; eqb_eq := exn_eqb_eq |}.

Definition prod_eqb {A B : Type} `{Eqb A} `{Eqb B} (x y : A * B) : bool :=
  eqb (fst x) (fst y) && eqb (snd x) (snd y).

Lemma prod_eqb_eq {A B : Type} `{Eqb A} `{Eqb B} (x y : A * B) :
  prod_eqb x y = true -> x = y.
Proof.
  destruct x, y; unfold prod_eqb; simpl.
  intros E. apply andb_prop in E as [E1 E2].
  apply eqb_eq in E1, E2. congruence.
Qed.

#[export] Instance Eqb_prod {A B : Type} `{Eqb A} `{Eqb B} : Eqb (A * B) :=
  {| eqb := prod_eqb; eqb_eq := prod_eqb_eq |}.

Fixpoint list_eqb {A : Type} `{Eqb A} (x y : list A) : bool :=
  match x, y with
  | [], [] => true
  | a :: x', b :: y' => eqb a b && list_eqb x' y'
  | _, _ => false
  end.

Lemma list_eqb_eq {A : Type} `{Eqb A} (x y : list A) :
  list_eqb x y = true -> x = y.
Proof.
  revert y; induction x as [|a x IH]; intros [|b y]; simpl; try congruence.
  intros E. apply andb_prop in E as [E1 E2].
  apply eqb_eq in E1. apply IH in E2. congruence.
Qed.

#[export] Instance Eqb_list {A : Type} `{Eqb A} : Eqb (list A) :=
  {| eqb := list_eqb; eqb_eq := list_eqb_eq |}.

Definition option_eqb {A : Type} `{Eqb A} (x y : option A) : bool :=
  match x, y with
  | Some a, Some b => eqb a b
  | None, None => true
  | _, _ => false
  end.

Lemma option_eqb_eq {A : Type} `{Eqb A} (x y : option A) :
  option_eqb x y = true -> x = y.
Proof.
  destruct x, y; simpl; try congruence.
  intros E. apply eqb_eq in E. congruence.
Qed.

#[export] Instance Eqb_option {A : Type} `{Eqb A} : Eqb (option A) :=
  {| eqb := option_eqb; eqb_eq := option_eqb_eq |}.

Definition result_eqb {A : Type} `{Eqb A} (x y : result A) : bool :=
  match x, y with
  | Ok a, Ok b => eqb a b
  | Err e, Err f => eqb e f
  | _, _ => false
  end.

Lemma result_eqb_eq {A : Type} `{Eqb A} (x y : result A) :
  result_eqb x y = true -> x = y.
Proof.
  destruct x as [a|e], y as [b|f]; simpl; try congruence; intros E.
  - apply eqb_eq in E. congruence.
  - apply exn_eqb_eq in E. congruence.
Qed.

#[export] Instance Eqb_result {A : Type} `{Eqb A} : Eqb (result A) :=
  {| eqb := result_eqb; eqb_eq := result_eqb_eq |}.

(** [P] holds on the [n] integers from [lo] on. *)
Fixpoint all_from (n : nat) (lo : Z) (P : Z -> bool) : bool :=
  match n with
  | O => true
  | S n' => P lo && all_from n' (lo + 1) P
  end.

Lemma all_from_spec (n : nat) (lo : Z) (P : Z -> bool) :
  all_from n lo P = true ->
  forall v, lo <= v < lo + Z.of_nat n -> P v = true.
Proof.
  revert lo; induction n as [|n IH]; intros lo H v Hv.
  - lia.
  - simpl in H. apply andb_prop in H as [H0 H1].
    destruct (Z.eq_dec v lo) as [->|Hne]; [assumption|].
    apply (IH (lo + 1) H1). lia.
Qed.

(** ** The threshold of two-digit years *)

(** The dataset of the path ["/{year2}.bin"], built in a program that has
    set no placeholder before. *)
Definition year2_dataset : result Dataset :=
  snd (init [] "/{year2}.bin" None "d" None no_coverage None None).

(** What parsing makes of the file name for the two-digit year [v]: the
    captures of [parse_filename], turned into the arguments for [datetime]
    by [_to_datetime_args]. *)
Definition year2_parsed (v : Z) : result (Py.dict Z * Py.dict Z) :=
  self <- year2_dataset ;;
  filled <- parse_filename [] self ("/" ++ Py.zero_pad 2 v ++ ".bin")
                           default_template ;;
  _to_datetime_args self filled.

Lemma standardise_year2 (v : Z) :
  _standardise_datetime_args [("year2", v)] =
  Ok [("year", if v <? DatasetClass.year2_threshold
               then 2000 + v else 1900 + v)].
Proof.
  unfold _standardise_datetime_args; simpl.
  destruct (v <? DatasetClass.year2_threshold); reflexivity.
Qed.

(** C3. For every two-digit year [v] (0 <= v <= 99), parsing a file name
    of the template [{year2}.bin] reads [v] as the year [1900 + v] when
    [v >= 65] and as [2000 + v] when [v < 65]. *)
Theorem year2_threshold_parsing (v : Z) :
  0 <= v <= 99 ->
  year2_parsed v =
  Ok ([("year", if 65 <=? v then 1900 + v else 2000 + v)], []).
Proof.
  intros Hv.
  apply eqb_eq.
  apply (all_from_spec 100 0
           (fun v => eqb (year2_parsed v)
                         (Ok ([("year", if 65 <=? v then 1900 + v
                                        else 2000 + v)], [])))).
  - vm_compute. reflexivity.
  - lia.
Qed.

Lemma year2_threshold_64_65 :
  year2_parsed 64 = Ok ([("year", 2064)], [])
  /\ year2_parsed 65 = Ok ([("year", 1965)], []).
Proof.
  split.
  - apply (year2_threshold_parsing 64). lia.
  - apply (year2_threshold_parsing 65). lia.
Defined.

(** ** Examples: an empty file system and the dataset of a path *)

Definition no_files : Env :=
  {| isfile := fun _ => false;
     iglob := fun _ => [];
     set_time_resolution := fun t _ => t;
     decompress := fun p => p;
     freq_bin := fun _ => None |}.

Definition blank : Dataset :=
  {| name := EmptyString; path := EmptyString;
     _time_placeholder := []; _path_placeholders := [];
     _end_time_superior := None; _path_regex := [];
     _base_dir := EmptyString; _sub_dir := EmptyString;
     _sub_dir_chunks := []; _sub_dir_time_resolution := None;
     single_file := false; handler := None; info_via := via_filename;
     exclude := None; time_coverage := no_coverage |}.

(** [Dataset(path_)] in a program that has set no placeholder before. *)
Definition dataset (path_ : string) : Dataset :=
  match snd (init [] path_ None "d" None no_coverage None None) with
  | Ok self => self
  | Err _ => blank
  end.

(** [datetime(y, m, d, H, M, S)] for fields that are in range. *)
Definition at_ (y m d H M S : Z) : datetime :=
  match DT.make y m d H M S 0 with
  | Ok t => t
  | Err _ => 0
  end.

(** ** The test of the bounds in [find] *)

Lemma find_window_eq (start end_ : datetime) :
  find_window (Some start) (Some end_) =
  if DT.in_range (end_ - 1) then
    if end_ - 1 <? start then Err ValueError else Ok (start, end_ - 1)
  else Err OverflowError.
Proof.
  unfold find_window, DT.sub, DT.microseconds. simpl.
  destruct (DT.in_range (end_ - 1)); reflexivity.
Qed.

Lemma in_range_iff (t : Z) : DT.in_range t = true <-> DT.min <= t <= DT.max.
Proof. unfold DT.in_range. rewrite andb_true_iff, !Z.leb_le. tauto. Qed.

Lemma find_window_error
  (env : Env) (up : Py.dict string) (self : Dataset) (cache : cache_t)
  (start end_ : option datetime) (sort : bool) (bundle_ : bundle_arg)
  (filters : option (Py.dict pvalue)) (no_files_error : bool) (e : exn) :
  find_window start end_ = Err e ->
  find env up self cache start end_ sort bundle_ filters no_files_error
  = Err e.
Proof. intros H. unfold find. rewrite H. reflexivity. Qed.

(** C9, as the code has it. [find] takes one microsecond from the end
    bound. For bounds [start] and [end_] with [end_] later than
    [datetime.min], the test of the bounds raises [ValueError] exactly when
    the end so adjusted is earlier than the start: [find(t, t)] raises
    [ValueError], and bounds with [start < end_] pass the test. *)
Theorem find_window_validation
  (env : Env) (up : Py.dict string) (self : Dataset) (cache : cache_t)
  (sort : bool) (bundle_ : bundle_arg) (filters : option (Py.dict pvalue))
  (no_files_error : bool) (start end_ : datetime) :
  DT.min <= start <= DT.max ->
  DT.min < end_ <= DT.max ->
  (find_window (Some start) (Some end_) = Err ValueError <-> end_ - 1 < start)
  /\ (start < end_ ->
      find_window (Some start) (Some end_) = Ok (start, end_ - 1))
  /\ find env up self cache (Some end_) (Some end_) sort bundle_ filters
          no_files_error = Err ValueError.
Proof.
  intros Hs He.
  assert (R : DT.in_range (end_ - 1) = true) by (apply in_range_iff; lia).
  repeat split.
  - rewrite find_window_eq, R.
    destruct (Z.ltb_spec (end_ - 1) start); [lia | discriminate].
  - intros H. rewrite find_window_eq, R.
    destruct (Z.ltb_spec (end_ - 1) start); [reflexivity | lia].
  - intros H. rewrite find_window_eq, R.
    destruct (Z.ltb_spec (end_ - 1) start); [lia | reflexivity].
  - apply find_window_error. rewrite find_window_eq, R.
    destruct (Z.ltb_spec (end_ - 1) end_); [reflexivity | lia].
Qed.

Lemma find_window_validation_2017 :
  (find_window (Some (at_ 2017 1 1 0 0 0)) (Some (at_ 2017 1 2 0 0 0))
   = Err ValueError <-> at_ 2017 1 2 0 0 0 - 1 < at_ 2017 1 1 0 0 0)
  /\ (at_ 2017 1 1 0 0 0 < at_ 2017 1 2 0 0 0 ->
      find_window (Some (at_ 2017 1 1 0 0 0)) (Some (at_ 2017 1 2 0 0 0))
      = Ok (at_ 2017 1 1 0 0 0, at_ 2017 1 2 0 0 0 - 1))
  /\ find no_files [] (dataset "/data/{year}/{month}{day}.nc") []
          (Some (at_ 2017 1 2 0 0 0)) (Some (at_ 2017 1 2 0 0 0))
          true no_bundle None true = Err ValueError.
Proof.
  apply (find_window_validation no_files [] (dataset "/data/{year}/{month}{day}.nc")
           [] true no_bundle None true
           (at_ 2017 1 1 0 0 0) (at_ 2017 1 2 0 0 0)).
  - vm_compute. split; discriminate.
  - vm_compute. split; [reflexivity | discriminate].
Defined.

(** C9, where the claim fails: at [datetime.min] the subtraction of the
    microsecond itself raises [OverflowError], so [find(t, t)] does not
    raise [ValueError] for every [t]. *)
Lemma find_at_datetime_min_overflows :
  find no_files [] (dataset "/data/{year}/{month}{day}.nc") []
       (Some DT.min) (Some DT.min) true no_bundle None true
  = Err OverflowError.
Proof. vm_compute. reflexivity. Qed.

(** ** Sorting: [sorted] is the stable sort *)

Section Sorting.

Context {A : Type} (key : A -> Z).

Definition ascending (l : list A) : Prop :=
  Sorted (fun a b => key a <= key b) l.

(** The elements with the key [t], in their order. *)
Definition with_key (t : Z) (l : list A) : list A :=
  filter (fun x => key x =? t) l.

Lemma insert_sorted_perm (x : A) (l : list A) :
  Permutation (insert_sorted key x l) (x :: l).
Proof.
  induction l as [|y l IH]; simpl.
  - apply Permutation_refl.
  - destruct (key x <=? key y).
    + apply Permutation_refl.
    + eapply perm_trans; [apply perm_skip, IH | apply perm_swap].
Qed.

Lemma sorted_perm (l : list A) : Permutation (sorted key l) l.
Proof.
  induction l as [|x l IH]; simpl.
  - apply perm_nil.
  - eapply perm_trans; [apply insert_sorted_perm | apply perm_skip, IH].
Qed.

Lemma insert_sorted_hd (x y : A) (l : list A) :
  key y <= key x ->
  HdRel (fun a b => key a <= key b) y l ->
  HdRel (fun a b => key a <= key b) y (insert_sorted key x l).
Proof.
  intros Hyx H. destruct l as [|z l]; simpl.
  - constructor. exact Hyx.
  - destruct (key x <=? key z); constructor.
    + exact Hyx.
    + inversion H; assumption.
Qed.

Lemma insert_sorted_ascending (x : A) (l : list A) :
  ascending l -> ascending (insert_sorted key x l).
Proof.
  unfold ascending. induction l as [|y l IH]; intros H; simpl.
  - repeat constructor.
  - inversion H as [|? ? Hl Hy]; subst.
    destruct (Z.leb_spec (key x) (key y)) as [Hle|Hgt].
    + constructor; [exact H | constructor; exact Hle].
    + constructor; [apply IH, Hl | apply insert_sorted_hd; [lia | exact Hy]].
Qed.

Lemma sorted_ascending (l : list A) : ascending (sorted key l).
Proof.
  induction l as [|x l IH]; simpl.
  - constructor.
  - apply insert_sorted_ascending, IH.
Qed.

Lemma with_key_insert_sorted (t : Z) (x : A) (l : list A) :
  with_key t (insert_sorted key x l) = with_key t (x :: l).
Proof.
  unfold with_key. induction l as [|y l IH]; simpl.
  - reflexivity.
  - destruct (Z.leb_spec (key x) (key y)) as [Hle|Hgt]; simpl.
    + reflexivity.
    + rewrite IH. simpl.
      destruct (Z.eqb_spec (key x) t), (Z.eqb_spec (key y) t);
        try reflexivity; lia.
Qed.

(** Stability: elements with equal keys keep their order. *)
Lemma sorted_stable (t : Z) (l : list A) :
  with_key t (sorted key l) = with_key t l.
Proof.
  induction l as [|x l IH]; simpl.
  - reflexivity.
  - rewrite with_key_insert_sorted. unfold with_key in *. simpl.
    rewrite IH. reflexivity.
Qed.

Lemma concat_group_by_key (l : list A) : List.concat (group_by_key key l) = l.
Proof.
  induction l as [|x l IH]; simpl.
  - reflexivity.
  - destruct (group_by_key key l) as [|[|y g] gs] eqn:E; simpl in *.
    + rewrite <- IH. reflexivity.
    + rewrite <- IH. reflexivity.
    + destruct (key x =? key y); simpl; rewrite <- IH; reflexivity.
Qed.

End Sorting.

(** ** Slices of a fixed size *)

Section Chunks.

Context {A : Type}.

(** The slices [l[k*n : k*n + n]] for [k] below [m]. *)
Definition slices (n m : nat) (l : list A) : list (list A) :=
  map (fun i => slice l i (i + n)) (map (fun k => (k * n)%nat) (seq 0 m)).

Lemma slice_step (l : list A) (i n : nat) :
  slice l i (i + n) = firstn n (skipn i l).
Proof. unfold slice. f_equal. lia. Qed.

Lemma skipn_skipn (i j : nat) (l : list A) :
  skipn i (skipn j l) = skipn (j + i) l.
Proof.
  revert l; induction j as [|j IH]; intros l; simpl.
  - reflexivity.
  - destruct l as [|x l]; [now rewrite skipn_nil | apply IH].
Qed.

Lemma slices_succ (n m : nat) (l : list A) :
  slices n (S m) l = firstn n l :: slices n m (skipn n l).
Proof.
  unfold slices. cbn [seq map]. f_equal.
  - unfold slice. simpl. rewrite Nat.sub_0_r. reflexivity.
  - rewrite <- seq_shift, !map_map. apply map_ext. intros k.
    rewrite !slice_step, skipn_skipn. reflexivity.
Qed.

Lemma firstn_plus (n k : nat) (l : list A) :
  firstn (n + k) l = (firstn n l ++ firstn k (skipn n l))%list.
Proof.
  revert l; induction n as [|n IH]; intros l; simpl.
  - reflexivity.
  - destruct l as [|x l]; simpl.
    + now rewrite firstn_nil.
    + now rewrite IH.
Qed.

Lemma concat_slices (n m : nat) (l : list A) :
  List.concat (slices n m l) = firstn (m * n) l.
Proof.
  revert l; induction m as [|m IH]; intros l.
  - reflexivity.
  - rewrite slices_succ. simpl. rewrite IH, firstn_plus. reflexivity.
Qed.

Lemma slices_full (n m : nat) (l : list A) :
  (m * n <= List.length l)%nat ->
  Forall (fun g => List.length g = n) (slices n m l).
Proof.
  revert l; induction m as [|m IH]; intros l H.
  - constructor.
  - rewrite slices_succ. simpl in H. constructor.
    + rewrite length_firstn. lia.
    + apply IH. rewrite length_skipn. lia.
Qed.

Lemma slices_app (n m k : nat) (l : list A) :
  slices n (m + k) l = (slices n m l ++ slices n k (skipn (m * n) l))%list.
Proof.
  revert l; induction m as [|m IH]; intros l.
  - reflexivity.
  - simpl Nat.add. rewrite !slices_succ, IH. simpl. do 2 f_equal.
    rewrite skipn_skipn. reflexivity.
Qed.

End Chunks.

Lemma slices_one {A : Type} (n : nat) (l : list A) :
  slices n 1 l = [firstn n l].
Proof. unfold slices. simpl. unfold slice. now rewrite Nat.sub_0_r. Qed.

Lemma range0_slices {A : Type} (l : list A) (n : nat) :
  map (fun i => slice l i (i + n)) (range0 (List.length l) n)
  = slices n ((List.length l + n - 1) / n) l.
Proof. reflexivity. Qed.

(** The number of bundles and the size of the last one. *)
Lemma bundle_count (K n : nat) :
  (0 < n)%nat -> (0 < K)%nat ->
  exists m r, ((K + n - 1) / n = S m /\ K = m * n + r /\ 1 <= r <= n)%nat.
Proof.
  intros Hn HK.
  pose proof (Nat.div_mod_eq (K + n - 1) n) as E.
  pose proof (Nat.mod_upper_bound (K + n - 1) n ltac:(lia)) as B.
  destruct ((K + n - 1) / n)%nat as [|m] eqn:Q.
  - exfalso. lia.
  - exists m, (S ((K + n - 1) mod n))%nat. split; [reflexivity|]. nia.
Qed.

(** The bundles of size [n] of a list that is not empty: nothing is lost,
    all bundles but the last are full, and the last has between one and [n]
    elements. *)
Lemma slices_bundles {A : Type} (l : list A) (n : nat) :
  (0 < n)%nat -> l <> [] ->
  let gs := map (fun i => slice l i (i + n)) (range0 (List.length l) n) in
  List.concat gs = l
  /\ Forall (fun g => List.length g = n) (removelast gs)
  /\ (1 <= List.length (last gs []) <= n)%nat.
Proof.
  intros Hn Hl gs. subst gs. rewrite range0_slices.
  assert (HK : (0 < List.length l)%nat)
    by (destruct l; [congruence | simpl; lia]).
  destruct (bundle_count (List.length l) n Hn HK) as (m & r & Q & E & R).
  rewrite Q. replace (S m) with (m + 1)%nat by lia.
  rewrite slices_app, slices_one. split; [|split].
  - rewrite concat_app, concat_slices. simpl.
    rewrite app_nil_r. rewrite <- (firstn_skipn (m * n) l) at 3.
    f_equal. apply firstn_all2. rewrite length_skipn. lia.
  - rewrite removelast_last. apply slices_full. lia.
  - rewrite last_last, length_firstn, length_skipn. lia.
Qed.

(** ** What [find] yields *)

Definition has_times (info : FileInfo.t) : Prop :=
  exists t0 t1, FileInfo.times info = (Some t0, Some t1).

Lemma period_of_ok (info : FileInfo.t) (p : IntervalTree.interval) :
  period_of info = Ok p ->
  FileInfo.times info = (Some (fst p), Some (snd p)).
Proof.
  unfold period_of. destruct (FileInfo.times info) as [[t0|] [t1|]];
    intros H; inversion H; reflexivity.
Qed.

Lemma has_times_start (info : FileInfo.t) :
  has_times info -> has_start info = true.
Proof. intros (t0 & t1 & E). unfold has_start. now rewrite E. Qed.

Ltac bind_ok H x E :=
  match type of H with
  | bind ?c _ = Ok _ =>
      destruct c as [x|] eqn:E; simpl in H; [|discriminate H]
  end.

Lemma matching_files_loop_times
  (env : Env) (up : Py.dict string) (self : Dataset) (regex : Re.pattern)
  (start end_ : datetime) (filenames : list string) :
  forall (cache : cache_t) (found : list FileInfo.t) (cache' : cache_t),
  matching_files_loop env up self regex start end_ filenames cache
  = Ok (found, cache') ->
  Forall has_times found.
Proof.
  induction filenames as [|filename rest IH]; intros cache found cache' H;
    simpl in H.
  - inversion H. constructor.
  - destruct (Re.match_ regex filename).
    + bind_ok H r E. destruct r as [file_info cache1].
      bind_ok H period Ep. bind_ok H r2 E2. destruct r2 as [found2 cache2].
      apply IH in E2.
      destruct (IntervalTree.interval_overlaps period (start, end_)
                && negb (is_excluded self period)); inversion H; subst.
      * constructor; [|exact E2].
        apply period_of_ok in Ep. now exists (fst period), (snd period).
      * exact E2.
    + eapply IH, H.
Qed.

Lemma file_finder_times
  (env : Env) (up : Py.dict string) (self : Dataset) (regex : Re.pattern)
  (black_list : Py.dict Re.pattern) (start end_ : datetime)
  (search_dirs : list (string * Py.dict string)) :
  forall (cache : cache_t) (files : list FileInfo.t) (cache' : cache_t),
  file_finder env up self regex black_list start end_ search_dirs cache
  = Ok (files, cache') ->
  Forall has_times files.
Proof.
  induction search_dirs as [|[path_ a] rest IH]; intros cache files cache' H;
    simpl in H.
  - inversion H. constructor.
  - bind_ok H r E. destruct r as [found cache1].
    bind_ok H r2 E2. destruct r2 as [more cache2].
    inversion H; subst. apply Forall_app. split.
    + apply Forall_forall. intros f Hf. apply filter_In in Hf as [Hf _].
      unfold _get_matching_files in E.
      apply matching_files_loop_times in E.
      rewrite Forall_forall in E. now apply E.
    + eapply IH, E2.
Qed.

Lemma find_files_times
  (env : Env) (up : Py.dict string) (self : Dataset) (cache : cache_t)
  (start end_ : datetime) (filters : option (Py.dict pvalue))
  (files : list FileInfo.t) (cache' : cache_t) :
  find_files env up self cache start end_ filters = Ok (files, cache') ->
  Forall has_times files.
Proof.
  unfold find_files. intros H.
  bind_ok H dir_start E0. bind_ok H r E1. destruct r as [[regex wl] bl].
  bind_ok H dirs E2. eapply file_finder_times, H.
Qed.

Lemma sorted_ascending_id {A : Type} (key : A -> Z) (l : list A) :
  ascending key l -> sorted key l = l.
Proof.
  unfold ascending. induction l as [|x l IH]; intros H; simpl.
  - reflexivity.
  - inversion H as [|? ? Hl Hx]; subst. rewrite (IH Hl).
    destruct l as [|y l]; simpl; [reflexivity|].
    inversion Hx; subst.
    destruct (Z.leb_spec (key x) (key y)); [reflexivity | lia].
Qed.

Lemma sorted_by_start_ok (files l : list FileInfo.t) :
  sorted_by_start files = Ok l -> l = sorted start_time files.
Proof.
  unfold sorted_by_start. destruct files as [|x [|y rest]].
  - intros H; inversion H; reflexivity.
  - intros H; inversion H; reflexivity.
  - destruct (forallb has_start (x :: y :: rest)); intros H; inversion H.
    reflexivity.
Qed.

Lemma sorted_by_start_total (files : list FileInfo.t) :
  Forall has_times files ->
  sorted_by_start files = Ok (sorted start_time files).
Proof.
  intros H. unfold sorted_by_start. destruct files as [|x [|y rest]];
    try reflexivity.
  replace (forallb has_start (x :: y :: rest)) with true; [reflexivity|].
  symmetry. apply forallb_forall. intros f Hf.
  rewrite Forall_forall in H. apply has_times_start, H, Hf.
Qed.

Lemma files_of_file (l : list FileInfo.t) : files_of (map file l) = l.
Proof. induction l as [|x l IH]; simpl; [|rewrite IH]; reflexivity. Qed.

Lemma files_of_bundle (gs : list (list FileInfo.t)) :
  files_of (map bundle gs) = List.concat gs.
Proof.
  unfold files_of. induction gs as [|g gs IH]; simpl; [|rewrite IH];
    reflexivity.
Qed.

Definition is_sorting (sort : bool) (bundle_ : bundle_arg) : bool :=
  sort || match bundle_ with
          | bundle_size _ | bundle_freq _ => true
          | _ => false
          end.

(** The files that [_prepare_find_files_return] yields, bundles opened. *)
Definition prepared (files : list FileInfo.t) (sort : bool)
  (bundle_ : bundle_arg) : list FileInfo.t :=
  match bundle_ with
  | bundle_size n => if n <? 0 then [] else sorted start_time files
  | _ => if is_sorting sort bundle_ then sorted start_time files else files
  end.

Lemma prepare_files
  (env : Env) (files : list FileInfo.t) (sort : bool) (bundle_ : bundle_arg)
  (out : list found) :
  _prepare_find_files_return env files sort bundle_ = Ok out ->
  files_of out = prepared files sort bundle_.
Proof.
  unfold _prepare_find_files_return, prepared, is_sorting. intros H.
  bind_ok H l E.
  assert (L : l = if sort || match bundle_ with
                             | bundle_size _ => true | _ => false end
                  then sorted start_time files else files).
  { destruct (sort || match bundle_ with
                      | bundle_size _ => true | _ => false end).
    - now apply sorted_by_start_ok.
    - now inversion E. }
  clear E. destruct bundle_ as [|n|freq|].
  - inversion H; subst. rewrite files_of_file.
    now rewrite !orb_false_r.
  - rewrite orb_true_r in *. subst l.
    destruct (Z.eqb_spec n 0); [discriminate|].
    destruct (Z.ltb_spec n 0).
    + inversion H. reflexivity.
    + inversion H; subst. set (L := sorted start_time files).
      rewrite <- (map_map (fun i => slice L i (i + Z.to_nat n)) bundle).
      rewrite files_of_bundle.
      destruct files as [|x files'].
      { subst L. unfold range0. simpl.
        rewrite Nat.div_small by lia. reflexivity. }
      assert (N : L <> []).
      { intros C. pose proof (sorted_perm start_time (x :: files')) as P.
        fold L in P. rewrite C in P. apply Permutation_nil in P.
        discriminate. }
      apply (slices_bundles _ (Z.to_nat n)); [lia | exact N].
  - rewrite orb_true_r. destruct (freq_bin env freq) as [bin|]; [|discriminate].
    destruct (forallb has_start l); inversion H; subst.
    rewrite files_of_bundle. unfold groupby_freq.
    rewrite concat_group_by_key. rewrite orb_false_r.
    destruct sort; [|reflexivity].
    apply sorted_ascending_id, sorted_ascending.
  - discriminate.
Qed.

Lemma prepared_sorting (files : list FileInfo.t) (sort : bool)
  (bundle_ : bundle_arg) :
  is_sorting sort bundle_ = true ->
  prepared files sort bundle_ = []
  \/ prepared files sort bundle_ = sorted start_time files.
Proof.
  unfold prepared. intros S. destruct bundle_ as [|n|freq|];
    rewrite ?S; try (now right).
  destruct (n <? 0); [now left | now right].
Qed.

Lemma prepared_members (files : list FileInfo.t) (sort : bool)
  (bundle_ : bundle_arg) :
  (forall n, bundle_ = bundle_size n -> 0 < n) ->
  forall f, In f (prepared files sort bundle_) <-> In f files.
Proof.
  intros BN f.
  assert (S : In f (sorted start_time files) <-> In f files).
  { split; apply Permutation_in;
      [apply sorted_perm | apply Permutation_sym, sorted_perm]. }
  unfold prepared. destruct bundle_ as [|n|freq|].
  - destruct (is_sorting sort no_bundle); tauto.
  - specialize (BN n eq_refl). destruct (Z.ltb_spec n 0); [lia | exact S].
  - destruct (is_sorting sort (bundle_freq freq)); tauto.
  - destruct (is_sorting sort bundle_other); tauto.
Qed.

(** C5. Called with [sort=True], or with a bundle size or a bundle
    frequency, [find] yields the files (those inside consecutive bundles)
    in ascending order of their start times, and files with equal start
    times in the order in which they were found. *)
Theorem find_ordering
  (env : Env) (up : Py.dict string) (self : Dataset) (cache : cache_t)
  (start end_ : option datetime) (sort : bool) (bundle_ : bundle_arg)
  (filters : option (Py.dict pvalue)) (no_files_error : bool)
  (out : list found) (cache' : cache_t) :
  find env up self cache start end_ sort bundle_ filters no_files_error
  = Ok (out, cache') ->
  is_sorting sort bundle_ = true ->
  ascending start_time (files_of out)
  /\ (single_file self = false ->
      exists s e files,
        find_window start end_ = Ok (s, e)
        /\ find_files env up self cache s e filters = Ok (files, cache')
        /\ (files_of out = [] \/
            forall t, with_key start_time t (files_of out)
                      = with_key start_time t files)).
Proof.
  unfold find. intros H S.
  bind_ok H w Ew. destruct w as [s e].
  destruct (single_file self) eqn:SF.
  - split; [|discriminate].
    destruct (isfile env (path self)); [|discriminate].
    bind_ok H r E. destruct r as [file_info cache1]. bind_ok H p Ep.
    destruct (IntervalTree.interval_overlaps p (s, e)).
    + inversion H; subst. simpl. repeat constructor.
    + destruct no_files_error; inversion H; subst. simpl. constructor.
  - bind_ok H r E. destruct r as [files cache1].
    assert (P : exists o, _prepare_find_files_return env files sort bundle_
                          = Ok o /\ Ok (o, cache1) = Ok (out, cache')).
    { destruct (negb no_files_error).
      - bind_ok H o Eo. now exists o.
      - destruct files; [discriminate|]. bind_ok H o Eo. now exists o. }
    destruct P as (o & Eo & Eq). inversion Eq; subst o cache1. clear Eq H.
    apply prepare_files in Eo. rewrite Eo.
    split.
    + destruct (prepared_sorting files _ _ S) as [-> | ->];
        [constructor | apply sorted_ascending].
    + intros _. exists s, e, files. repeat split; try assumption.
      destruct (prepared_sorting files _ _ S) as [-> | ->];
        [now left | right].
      intros t. apply sorted_stable.
Qed.

(** ** Exclusion *)

(** The records that [get_info] returns to [_get_matching_files] for the
    names that match, whether they are yielded or not. *)
Fixpoint retrieved_loop
  (env : Env) (up : Py.dict string) (self : Dataset) (regex : Re.pattern)
  (filenames : list string) (info_cache : cache_t)
  : result (list FileInfo.t * cache_t) :=
  match filenames with
  | [] => Ok ([], info_cache)
  | filename :: rest =>
      match Re.match_ regex filename with
      | Some _ =>
          '(file_info, info_cache) <-
            get_info env up self info_cache (FileInfo.of_path filename) None ;;
          _ <- period_of file_info ;;
          '(more, info_cache) <-
            retrieved_loop env up self regex rest info_cache ;;
          Ok (file_info :: more, info_cache)
      | None => retrieved_loop env up self regex rest info_cache
      end
  end.

(** The same for all the directories of the search. *)
Fixpoint retrieved
  (env : Env) (up : Py.dict string) (self : Dataset) (regex : Re.pattern)
  (search_dirs : list (string * Py.dict string)) (info_cache : cache_t)
  : result (list FileInfo.t * cache_t) :=
  match search_dirs with
  | [] => Ok ([], info_cache)
  | (path_, _) :: rest =>
      '(files, info_cache) <-
        retrieved_loop env up self regex (iglob env (Path.join path_ "*"))
                       info_cache ;;
      '(more, info_cache) <- retrieved env up self regex rest info_cache ;;
      Ok ((files ++ more)%list, info_cache)
  end.

(** The test of [_get_matching_files] on a record. *)
Definition in_window (self : Dataset) (start end_ : datetime)
  (info : FileInfo.t) : bool :=
  match period_of info with
  | Ok period =>
      IntervalTree.interval_overlaps period (start, end_)
      && negb (is_excluded self period)
  | Err _ => false
  end.

(** The test of the generator [file_finder] on a record. *)
Definition allowed (black_list : Py.dict Re.pattern) (info : FileInfo.t)
  : bool :=
  is_empty black_list || _check_file black_list (FileInfo.attr info).

Lemma matching_files_loop_filter
  (env : Env) (up : Py.dict string) (self : Dataset) (regex : Re.pattern)
  (start end_ : datetime) (filenames : list string) :
  forall (cache : cache_t) (found : list FileInfo.t) (cache' : cache_t),
  matching_files_loop env up self regex start end_ filenames cache
  = Ok (found, cache') ->
  exists all,
    retrieved_loop env up self regex filenames cache = Ok (all, cache')
    /\ found = filter (in_window self start end_) all.
Proof.
  induction filenames as [|filename rest IH]; intros cache found cache' H;
    simpl in H |- *.
  - inversion H. now exists [].
  - destruct (Re.match_ regex filename).
    + bind_ok H r E. destruct r as [file_info cache1].
      bind_ok H period Ep. bind_ok H r2 E2. destruct r2 as [found2 cache2].
      destruct (IH _ _ _ E2) as (all & Eall & F).
      simpl. rewrite Ep. simpl. rewrite Eall. simpl.
      exists (file_info :: all).
      simpl. unfold in_window at 1. rewrite Ep.
      destruct (IntervalTree.interval_overlaps period (start, end_)
                && negb (is_excluded self period));
        inversion H; subst; split; reflexivity.
    + apply IH, H.
Qed.

Lemma file_finder_filter
  (env : Env) (up : Py.dict string) (self : Dataset) (regex : Re.pattern)
  (black_list : Py.dict Re.pattern) (start end_ : datetime)
  (search_dirs : list (string * Py.dict string)) :
  forall (cache : cache_t) (files : list FileInfo.t) (cache' : cache_t),
  file_finder env up self regex black_list start end_ search_dirs cache
  = Ok (files, cache') ->
  exists all,
    retrieved env up self regex search_dirs cache = Ok (all, cache')
    /\ files = filter (allowed black_list)
                      (filter (in_window self start end_) all).
Proof.
  induction search_dirs as [|[path_ a] rest IH]; intros cache files cache' H;
    simpl in H |- *.
  - inversion H. now exists [].
  - bind_ok H r E. destruct r as [found cache1].
    bind_ok H r2 E2. destruct r2 as [more cache2].
    inversion H; subst. clear H.
    unfold _get_matching_files in E.
    apply matching_files_loop_filter in E as (all1 & E1 & F1).
    destruct (IH _ _ _ E2) as (all2 & Eall2 & F2).
    rewrite E1. simpl. rewrite Eall2. simpl.
    exists (all1 ++ all2)%list. split; [reflexivity|].
    rewrite !filter_app. subst. reflexivity.
Qed.

(** The arguments of the walk inside [find_files]: the regex, the black
    list and the directories. *)
Definition walk_of
  (env : Env) (up : Py.dict string) (self : Dataset)
  (start end_ : datetime) (filters : option (Py.dict pvalue))
  : result (Re.pattern * Py.dict Re.pattern
            * list (string * Py.dict string)) :=
  dir_start <-
    match _sub_dir_time_resolution self with
    | None => Ok start
    | Some resolution =>
        if start =? DT.min then Ok start else DT.sub start resolution
    end ;;
  '(regex, white_list, black_list) <-
    match filters with
    | None => Ok (_path_regex self, [], [])
    | Some filters =>
        let white_list :=
          _complete_placeholders_regex
            (filter (fun fv => negb (Py.startswith (fst fv) "!")) filters) in
        regex <- _fill_placeholders_with_regexes
                   up self (path self) (Some white_list) ;;
        black_list <-
          mapM (fun fv => r <- convert (snd fv) ;;
                          Ok (lstrip_bang (fst fv), r))
               (filter (fun fv => Py.startswith (fst fv) "!") filters) ;;
        Ok (regex, white_list, Py.of_list black_list)
    end ;;
  search_dirs <- _get_search_dirs env up self dir_start end_ white_list ;;
  Ok (regex, black_list, search_dirs).

Lemma find_files_walk
  (env : Env) (up : Py.dict string) (self : Dataset) (cache : cache_t)
  (start end_ : datetime) (filters : option (Py.dict pvalue)) :
  find_files env up self cache start end_ filters =
  '(regex, black_list, search_dirs) <-
    walk_of env up self start end_ filters ;;
  file_finder env up self regex black_list start end_ search_dirs cache.
Proof.
  unfold find_files, walk_of.
  destruct (match _sub_dir_time_resolution self with
            | Some resolution =>
                if start =? DT.min then Ok start else DT.sub start resolution
            | None => Ok start
            end) as [dir_start|]; simpl; [|reflexivity].
  destruct filters as [filters|]; simpl.
  - destruct (_fill_placeholders_with_regexes _ _ _ _); simpl; [|reflexivity].
    destruct (mapM _ _); simpl; [|reflexivity].
    destruct (_get_search_dirs _ _ _ _ _ _); reflexivity.
  - destruct (_get_search_dirs _ _ _ _ _ _); reflexivity.
Qed.

(** A period lies inside one of the intervals. *)
Definition inside_one (tree : IntervalTree.t) (t0 t1 : datetime) : Prop :=
  exists a b, In (a, b) tree /\ a <= t0 <= b /\ a <= t1 <= b.

(** Both times of a period lie outside all the intervals. *)
Definition outside_all (tree : IntervalTree.t) (t0 t1 : datetime) : Prop :=
  forall a b, In (a, b) tree ->
              ~ (a <= t0 <= b) /\ ~ (a <= t1 <= b).

Lemma contains_inside (tree : IntervalTree.t) (t0 t1 : datetime) :
  IntervalTree.contains tree (t0, t1) = true <-> inside_one tree t0 t1.
Proof.
  unfold IntervalTree.contains, inside_one. rewrite existsb_exists.
  unfold IntervalTree.interval_contains. simpl. split.
  - intros ([a b] & Hin & H). exists a, b. simpl in H.
    rewrite !andb_true_iff, !Z.leb_le in H. tauto.
  - intros (a & b & Hin & H1 & H2). exists (a, b). split; [exact Hin|].
    simpl. rewrite !andb_true_iff, !Z.leb_le. tauto.
Qed.

Lemma outside_not_contained (tree : IntervalTree.t) (t0 t1 : datetime) :
  outside_all tree t0 t1 -> IntervalTree.contains tree (t0, t1) = false.
Proof.
  intros H. destruct (IntervalTree.contains tree (t0, t1)) eqn:E;
    [|reflexivity].
  apply contains_inside in E as (a & b & Hin & H0 & H1).
  destruct (H a b Hin) as [N _]. contradiction.
Qed.

(** X21. The search of a dataset of many files honours the exclusion set.
    For every bundle argument other than an integer below one, a
    successful [find] never yields a file whose two times lie inside an
    excluded interval, and yields every file of the walk that overlaps the
    window, whose times lie outside all excluded intervals and that the
    black list lets pass. *)
Theorem find_exclusion
  (env : Env) (up : Py.dict string) (self : Dataset) (cache : cache_t)
  (start end_ : option datetime) (sort : bool) (bundle_ : bundle_arg)
  (filters : option (Py.dict pvalue)) (no_files_error : bool)
  (tree : IntervalTree.t) (out : list found) (cache' : cache_t) :
  single_file self = false ->
  exclude self = Some tree ->
  (forall n, bundle_ = bundle_size n -> 0 < n) ->
  find env up self cache start end_ sort bundle_ filters no_files_error
  = Ok (out, cache') ->
  (forall f t0 t1,
      In f (files_of out) -> FileInfo.times f = (Some t0, Some t1) ->
      ~ inside_one tree t0 t1)
  /\ exists s e regex black_list search_dirs all,
       find_window start end_ = Ok (s, e)
       /\ walk_of env up self s e filters
          = Ok (regex, black_list, search_dirs)
       /\ retrieved env up self regex search_dirs cache = Ok (all, cache')
       /\ forall f t0 t1,
            In f all -> FileInfo.times f = (Some t0, Some t1) ->
            IntervalTree.interval_overlaps (t0, t1) (s, e) = true ->
            outside_all tree t0 t1 ->
            allowed black_list f = true ->
            In f (files_of out).
Proof.
  intros SF EX BN H. unfold find in H.
  bind_ok H w Ew. destruct w as [s e]. rewrite SF in H.
  bind_ok H r E. destruct r as [files cache1].
  assert (P : exists o, _prepare_find_files_return env files sort bundle_
                        = Ok o /\ Ok (o, cache1) = Ok (out, cache')).
  { destruct (negb no_files_error).
    - bind_ok H o Eo. now exists o.
    - destruct files; [discriminate|]. bind_ok H o Eo. now exists o. }
  destruct P as (o & Eo & Eq). inversion Eq; subst o cache1. clear Eq H.
  assert (M : forall f, In f (files_of out) <-> In f files).
  { intros f. rewrite (prepare_files _ _ _ _ _ Eo).
    now apply prepared_members. }
  clear Eo.
  rewrite find_files_walk in E. bind_ok E wk Ewk.
  destruct wk as [[regex black_list] search_dirs].
  apply file_finder_filter in E as (all & Eall & F).
  split.
  - intros f t0 t1 Hf Ht I. apply M in Hf. subst files.
    apply filter_In in Hf as [Hf _]. apply filter_In in Hf as [_ Hf].
    unfold in_window, period_of in Hf. rewrite Ht in Hf.
    apply andb_prop in Hf as [_ Hf]. unfold is_excluded in Hf.
    rewrite EX in Hf. apply contains_inside in I. rewrite I in Hf.
    discriminate.
  - exists s, e, regex, black_list, search_dirs, all.
    repeat split; try assumption.
    intros f t0 t1 Hf Ht O X A. apply M. subst files.
    apply filter_In. split; [|exact A].
    apply filter_In. split; [exact Hf|].
    unfold in_window, period_of. rewrite Ht, O. simpl.
    unfold is_excluded. rewrite EX, (outside_not_contained _ _ _ X).
    reflexivity.
Qed.

(** ** A directory of files of one day *)

Definition june_path : string :=
  "/data/{year}{month}{day}_{hour}{minute}-{end_hour}{end_minute}.nc".

Definition june_names : list string :=
  [ "/data/20180601_1305-1310.nc"; "/data/20180601_1230-1245.nc";
    "/data/20180601_0900-0930.nc"; "/data/notes.txt";
    "/data/20180601_1305-1320.nc"; "/data/20180601_0100-0200.nc" ].

Definition june : Env :=
  {| isfile := fun p => existsb (String.eqb p) june_names;
     iglob := fun p => if String.eqb p "/data/*" then june_names else [];
     set_time_resolution := fun t _ => t;
     decompress := fun p => p;
     freq_bin := fun _ => None |}.

Definition noon_hour : IntervalTree.t :=
  [(at_ 2018 6 1 12 0 0, at_ 2018 6 1 13 0 0)].

(** [Dataset(june_path, exclude=noon_hour)]. *)
Definition june_dataset : Dataset :=
  match snd (init [] june_path None "june" None no_coverage
                  (Some noon_hour) None) with
  | Ok self => self
  | Err _ => blank
  end.

Definition june_file (p : string) (t0 t1 : datetime) : FileInfo.t :=
  {| FileInfo.path := p; FileInfo.times := (Some t0, Some t1);
     FileInfo.attr := [] |}.

Definition file_1230 : FileInfo.t :=
  june_file "/data/20180601_1230-1245.nc"
            (at_ 2018 6 1 12 30 0) (at_ 2018 6 1 12 45 0).

Definition file_1305 : FileInfo.t :=
  june_file "/data/20180601_1305-1310.nc"
            (at_ 2018 6 1 13 5 0) (at_ 2018 6 1 13 10 0).

(** The search of the whole day, [find("2018-06-01", "2018-06-02")], and
    the same search in bundles of two. *)
Definition june_search (bundle_ : bundle_arg) : result (list found * cache_t) :=
  find june [] june_dataset [] (Some (at_ 2018 6 1 0 0 0))
       (Some (at_ 2018 6 2 0 0 0)) true bundle_ None true.

Definition yielded (r : result (list found * cache_t)) : list found :=
  match r with Ok (out, _) => out | Err _ => [] end.

Definition cache_after (r : result (list found * cache_t)) : cache_t :=
  match r with Ok (_, c) => c | Err _ => [] end.

Lemma june_search_ok (bundle_ : bundle_arg) :
  is_ok (june_search bundle_) = true ->
  june_search bundle_
  = Ok (yielded (june_search bundle_), cache_after (june_search bundle_)).
Proof.
  destruct (june_search bundle_) as [[out c]|]; [reflexivity | discriminate].
Qed.

(** S5: with the hour from 12:00 to 13:00 excluded, the file from 12:30 to
    12:45 is not yielded and the file from 13:05 to 13:10 is. *)
Lemma find_exclusion_june :
  ~ In file_1230 (files_of (yielded (june_search no_bundle)))
  /\ In file_1305 (files_of (yielded (june_search no_bundle))).
Proof.
  pose proof (find_exclusion june [] june_dataset []
                (Some (at_ 2018 6 1 0 0 0)) (Some (at_ 2018 6 2 0 0 0))
                true no_bundle None true noon_hour
                (yielded (june_search no_bundle))
                (cache_after (june_search no_bundle))
                eq_refl eq_refl
                ltac:(intros n N; discriminate N)
                (june_search_ok no_bundle eq_refl)) as [A B].
  split.
  - intros I. apply (A _ _ _ I eq_refl).
    exists (at_ 2018 6 1 12 0 0), (at_ 2018 6 1 13 0 0).
    split; [left; reflexivity | vm_compute; intuition discriminate].
  - destruct B as (s & e & regex & bl & dirs & all & Ew & Ewalk & Er & Y).
    vm_compute in Ew. inversion Ew; subst s e. clear Ew.
    vm_compute in Ewalk. inversion Ewalk; subst regex bl dirs. clear Ewalk.
    vm_compute in Er. inversion Er; subst all. clear Er.
    apply (Y file_1305 (at_ 2018 6 1 13 5 0) (at_ 2018 6 1 13 10 0)).
    + vm_compute. tauto.
    + reflexivity.
    + reflexivity.
    + intros a b [E|[]]. inversion E; subst a b.
      vm_compute. split; intros [C D]; [apply D | apply D]; reflexivity.
    + reflexivity.
Defined.

Lemma find_ordering_june :
  ascending start_time (files_of (yielded (june_search no_bundle)))
  /\ with_key start_time (at_ 2018 6 1 13 5 0)
              (files_of (yielded (june_search no_bundle)))
     = [ file_1305;
         june_file "/data/20180601_1305-1320.nc"
                   (at_ 2018 6 1 13 5 0) (at_ 2018 6 1 13 20 0) ].
Proof.
  pose proof (find_ordering june [] june_dataset []
                (Some (at_ 2018 6 1 0 0 0)) (Some (at_ 2018 6 2 0 0 0))
                true no_bundle None true
                (yielded (june_search no_bundle))
                (cache_after (june_search no_bundle))
                (june_search_ok no_bundle eq_refl) eq_refl) as [A B].
  split; [exact A|].
  destruct (B eq_refl) as (s & e & files & Ew & Ef & [N|S]).
  - vm_compute in N. discriminate N.
  - rewrite S. vm_compute in Ew. inversion Ew; subst s e.
    vm_compute in Ef. inversion Ef; subst files.
    vm_compute. reflexivity.
Defined.

(** A disk that holds the one file [/data/file.nc]. *)
Definition one_file : Env :=
  {| isfile := fun p => String.eqb p "/data/file.nc";
     iglob := fun _ => [];
     set_time_resolution := fun t _ => t;
     decompress := fun p => p;
     freq_bin := fun _ => None |}.

(** The dataset of that file, with its time coverage given and the hour
    from 12:00 to 13:00 excluded. *)
Definition one_file_dataset : Dataset :=
  match snd (init [] "/data/file.nc" None "one"
                  None (absolute (at_ 2018 6 1 12 30 0) (at_ 2018 6 1 12 45 0))
                  (Some noon_hour) None) with
  | Ok self => self
  | Err _ => blank
  end.

(** C4. The branch of [find] for a dataset of a single file tests the
    window only, although the docstring of [find] says that the search
    checks [Dataset.exclude] and the search of many files does so: the
    file whose coverage from 12:30 to 12:45 lies inside the excluded hour
    from 12:00 to 13:00 is yielded. *)
Lemma single_file_ignores_exclusion :
  single_file one_file_dataset = true
  /\ exclude one_file_dataset = Some noon_hour
  /\ inside_one noon_hour (at_ 2018 6 1 12 30 0) (at_ 2018 6 1 12 45 0)
  /\ files_of
       (yielded
          (find one_file [] one_file_dataset []
                (Some (at_ 2018 6 1 0 0 0)) (Some (at_ 2018 6 2 0 0 0))
                true no_bundle None true))
     = [ june_file "/data/file.nc"
                   (at_ 2018 6 1 12 30 0) (at_ 2018 6 1 12 45 0) ].
Proof.
  split; [reflexivity|]. split; [reflexivity|]. split.
  - exists (at_ 2018 6 1 12 0 0), (at_ 2018 6 1 13 0 0).
    split; [left; reflexivity | vm_compute; intuition discriminate].
  - vm_compute. reflexivity.
Qed.

(** ** Bundles of a fixed size *)

(** C6. For a bundle size [n >= 1] and a search that finds at least one
    file, [find] yields bundles that together hold the sorted files, none
    lost and none twice; every bundle but the last has [n] files, and the
    last has between one and [n]. *)
Theorem find_integer_bundles
  (env : Env) (up : Py.dict string) (self : Dataset) (cache : cache_t)
  (start end_ : option datetime) (sort : bool)
  (filters : option (Py.dict pvalue)) (no_files_error : bool) (n : Z)
  (s e : datetime) (files : list FileInfo.t) (cache' : cache_t) :
  1 <= n ->
  single_file self = false ->
  find_window start end_ = Ok (s, e) ->
  find_files env up self cache s e filters = Ok (files, cache') ->
  files <> [] ->
  exists groups,
    find env up self cache start end_ sort (bundle_size n) filters
         no_files_error
    = Ok (map bundle groups, cache')
    /\ List.concat groups = sorted start_time files
    /\ Permutation (List.concat groups) files
    /\ Forall (fun g => Z.of_nat (List.length g) = n) (removelast groups)
    /\ 1 <= Z.of_nat (List.length (last groups [])) <= n.
Proof.
  intros Hn SF Ew Ef NE.
  set (L := sorted start_time files).
  exists (map (fun i => slice L i (i + Z.to_nat n))
              (range0 (List.length L) (Z.to_nat n))).
  assert (N : L <> []).
  { intros C. pose proof (sorted_perm start_time files) as P.
    fold L in P. rewrite C in P. apply Permutation_nil in P.
    contradiction. }
  destruct (slices_bundles L (Z.to_nat n) ltac:(lia) N) as (C & F & B).
  split; [|split; [|split; [|split]]].
  - unfold find. rewrite Ew. simpl. rewrite SF, Ef. simpl.
    assert (P : _prepare_find_files_return env files sort (bundle_size n)
                = Ok (map bundle
                          (map (fun i => slice L i (i + Z.to_nat n))
                               (range0 (List.length L) (Z.to_nat n))))).
    { unfold _prepare_find_files_return. rewrite orb_true_r.
      rewrite (sorted_by_start_total files (find_files_times _ _ _ _ _ _ _ _ _ Ef)).
      simpl. fold L.
      destruct (Z.eqb_spec n 0); [lia|].
      destruct (Z.ltb_spec n 0); [lia|].
      now rewrite map_map. }
    destruct files as [|x files']; [contradiction|].
    destruct (negb no_files_error); rewrite P; reflexivity.
  - exact C.
  - rewrite C. apply sorted_perm.
  - eapply Forall_impl; [|exact F]. simpl. intros g Hg. lia.
  - lia.
Qed.

(** The files of the day in the order in which the walk finds them. *)
Definition june_files : list FileInfo.t :=
  match find_files june [] june_dataset [] (at_ 2018 6 1 0 0 0)
                   (at_ 2018 6 2 0 0 0 - 1) None with
  | Ok (files, _) => files
  | Err _ => []
  end.

Lemma find_integer_bundles_june :
  exists groups,
    june_search (bundle_size 3)
    = Ok (map bundle groups, cache_after (june_search no_bundle))
    /\ List.concat groups = sorted start_time june_files
    /\ Permutation (List.concat groups) june_files
    /\ Forall (fun g => Z.of_nat (List.length g) = 3) (removelast groups)
    /\ 1 <= Z.of_nat (List.length (last groups [])) <= 3.
Proof.
  apply (find_integer_bundles june [] june_dataset []
           (Some (at_ 2018 6 1 0 0 0)) (Some (at_ 2018 6 2 0 0 0))
           true None true 3
           (at_ 2018 6 1 0 0 0) (at_ 2018 6 2 0 0 0 - 1)
           june_files (cache_after (june_search no_bundle))).
  - lia.
  - reflexivity.
  - vm_compute. reflexivity.
  - vm_compute. reflexivity.
  - vm_compute. discriminate.
Defined.

(** ** [find_closest] when nothing is found *)

(** The file name that [find_closest] renders for the timestamp is no file:
    it cannot be rendered, or no file has that name. *)
Definition no_direct_hit
  (env : Env) (up : Py.dict string) (self : Dataset) (timestamp : datetime)
  : Prop :=
  generate_filename up self (one_time timestamp) None None
  = Err UnknownPlaceholderError
  \/ generate_filename up self (one_time timestamp) None None
     = Err UnfilledPlaceholderError
  \/ exists p,
       generate_filename up self (one_time timestamp) None None = Ok p
       /\ isfile env p = false.

(** The bounds of the search of [find_closest]. *)
Definition closest_bounds (self : Dataset) (timestamp : datetime)
  : result (datetime * datetime) :=
  match _sub_dir_time_resolution self with
  | None => Ok (DT.min, DT.max)
  | Some resolution =>
      start <- DT.sub timestamp resolution ;;
      end_ <- DT.add timestamp resolution ;;
      Ok (start, end_)
  end.

(** C8, as the code has it. For a dataset of many files, when the file
    name rendered for the timestamp is no file and the search between the
    bounds finds nothing, [find_closest] raises [NoFilesError]: it calls
    [find] with [no_files_error] left at its default. *)
Theorem find_closest_nothing_found
  (env : Env) (up : Py.dict string) (self : Dataset) (cache : cache_t)
  (timestamp : datetime) (filters : option (Py.dict pvalue))
  (start end_ s e : datetime) (cache' : cache_t) :
  single_file self = false ->
  no_direct_hit env up self timestamp ->
  closest_bounds self timestamp = Ok (start, end_) ->
  find_window (Some start) (Some end_) = Ok (s, e) ->
  find_files env up self cache s e filters = Ok ([], cache') ->
  find_closest env up self cache timestamp filters = Err NoFilesError.
Proof.
  intros SF D B W F. unfold find_closest. rewrite SF.
  assert (N : match
                path_ <- generate_filename up self (one_time timestamp)
                                           None None ;;
                (if isfile env path_ then
                   r <- get_info env up self cache (FileInfo.of_path path_)
                                 None ;;
                   Ok (Some r)
                 else Ok None)
              with
              | Ok r => Ok r
              | Err UnknownPlaceholderError
              | Err UnfilledPlaceholderError => Ok None
              | Err e => Err e
              end = Ok None).
  { destruct D as [D|[D|(p & D & I)]]; rewrite D; simpl;
      [reflexivity | reflexivity | rewrite I; reflexivity]. }
  rewrite N. simpl. unfold closest_bounds in B. rewrite B. simpl.
  unfold find. rewrite W. simpl. rewrite SF, F. reflexivity.
Qed.

Lemma find_closest_nothing_found_2017 :
  find_closest no_files [] (dataset "/data/{year}/{month}{day}.nc") []
               (at_ 2017 1 1 0 0 0) None
  = Err NoFilesError.
Proof.
  apply (find_closest_nothing_found
           no_files [] (dataset "/data/{year}/{month}{day}.nc") []
           (at_ 2017 1 1 0 0 0) None
           (at_ 2016 1 1 0 0 0) (at_ 2018 1 2 0 0 0)
           (at_ 2016 1 1 0 0 0) (at_ 2018 1 2 0 0 0 - 1) []).
  - reflexivity.
  - right. right. exists "/data/2017/0101.nc". split; reflexivity.
  - vm_compute. reflexivity.
  - vm_compute. reflexivity.
  - vm_compute. reflexivity.
Defined.

(** C8, where the claim fails: nothing rendered, nothing found, and the
    result is an error, not [None]. *)
Lemma find_closest_raises_no_files_error :
  no_direct_hit no_files [] (dataset "/data/{year}/{month}{day}.nc")
                (at_ 2017 1 1 0 0 0)
  /\ find_files no_files [] (dataset "/data/{year}/{month}{day}.nc") []
                (at_ 2016 1 1 0 0 0) (at_ 2018 1 2 0 0 0 - 1) None
     = Ok ([], [])
  /\ find_closest no_files [] (dataset "/data/{year}/{month}{day}.nc") []
                  (at_ 2017 1 1 0 0 0) None
     <> Ok (closest_none, []).
Proof.
  split; [|split].
  - right. right. exists "/data/2017/0101.nc". split; reflexivity.
  - vm_compute. reflexivity.
  - vm_compute. discriminate.
Qed.

(** ** Dictionaries *)

Section Dict.

Context {V : Type}.

Lemma get_set_same (d : Py.dict V) (k : string) (v : V) :
  Py.get (Py.set d k v) k = Some v.
Proof.
  induction d as [|[k' v'] d IH]; simpl.
  - now rewrite String.eqb_refl.
  - destruct (String.eqb k k') eqn:E; simpl.
    + now rewrite String.eqb_refl.
    + now rewrite E.
Qed.

Lemma get_set_other (d : Py.dict V) (k k' : string) (v : V) :
  k <> k' -> Py.get (Py.set d k v) k' = Py.get d k'.
Proof.
  intros N. induction d as [|[k0 v0] d IH]; simpl.
  - apply String.eqb_neq in N. rewrite String.eqb_sym, N. reflexivity.
  - destruct (String.eqb k k0) eqn:E; simpl.
    + apply String.eqb_eq in E. subst k0.
      apply String.eqb_neq in N. rewrite String.eqb_sym, N. reflexivity.
    + destruct (String.eqb k' k0); [reflexivity | exact IH].
Qed.

Lemma get_remove_other (d : Py.dict V) (k k' : string) :
  k <> k' -> Py.get (Py.remove d k) k' = Py.get d k'.
Proof.
  intros N. induction d as [|[k0 v0] d IH]; simpl.
  - reflexivity.
  - destruct (String.eqb k k0) eqn:E; simpl.
    + apply String.eqb_eq in E. subst k0.
      apply String.eqb_neq in N. rewrite String.eqb_sym, N. reflexivity.
    + destruct (String.eqb k' k0); [reflexivity | exact IH].
Qed.

End Dict.

(** ** The information cache on disk *)

Lemma length_append (a b : string) :
  String.length (a ++ b) = (String.length a + String.length b)%nat.
Proof. induction a as [|c a IH]; simpl; [|rewrite IH]; reflexivity. Qed.

Lemma backup_differs (filename : string) : filename ++ ".backup" <> filename.
Proof.
  intros E. apply (f_equal String.length) in E.
  rewrite length_append in E. simpl in E. lia.
Qed.

Lemma json_objects_dump (records : list json_dict) :
  json_objects (map object records ++ [list_end]) = Ok records.
Proof.
  induction records as [|r records IH]; simpl.
  - reflexivity.
  - rewrite IH. reflexivity.
Qed.

Lemma json_load_dump (records : list json_dict) :
  json_load (json_dump records) = Ok records.
Proof. apply json_objects_dump. Qed.

(** Writing a text to an empty file leaves the text and touches no other
    file. *)
Lemma run_writes (f : string) (ts written : list token) (d : disk) :
  Py.get d f = Some written ->
  Py.get (run (map (write f) ts) d) f = Some (written ++ ts)%list
  /\ forall g, g <> f -> Py.get (run (map (write f) ts) d) g = Py.get d g.
Proof.
  revert written d. induction ts as [|t ts IH]; intros written d H.
  - simpl. rewrite app_nil_r. split; [exact H | reflexivity].
  - change (run (map (write f) (t :: ts)) d)
      with (run (map (write f) ts) (exec d (write f t))).
    simpl exec. rewrite H.
    destruct (IH (written ++ [t])%list (Py.set d f (written ++ [t])%list)
                 (get_set_same _ _ _)) as [A B].
    split.
    + rewrite A, <- app_assoc. reflexivity.
    + intros g N. rewrite (B g N).
      apply get_set_other. congruence.
Qed.

Lemma run_app (s1 s2 : list step) (d : disk) :
  run (s1 ++ s2) d = run s2 (run s1 d).
Proof. apply fold_left_app. Qed.

(** The steps before the renaming touch the backup file only. *)
Lemma run_backup_only (f : string) (ts : list token) (n : nat) (d : disk) :
  forall g, g <> f ->
  Py.get (run (firstn n (open_w f :: map (write f) ts)) d) g = Py.get d g.
Proof.
  intros g N. destruct n as [|n]; [reflexivity|].
  simpl firstn. change (run (open_w f :: ?s) d) with (run s (Py.set d f [])).
  rewrite firstn_map.
  rewrite (proj2 (run_writes f (firstn n ts) [] (Py.set d f [])
                             (get_set_same _ _ _)) g N).
  apply get_set_other. congruence.
Qed.

(** C7. [save_info_cache] writes the records to the backup file and then
    renames it: after a save that has run to its end the file holds the
    serialized records, and [load_info_cache] reads exactly them; a save
    that stops before the renaming leaves the file as it was. *)
Theorem info_cache_persistence
  (codec : Codec) (info_cache other_cache : cache_t) (filename : string)
  (d : disk) (n : nat) :
  (n < List.length (save_info_cache_steps codec info_cache (Some filename)))%nat ->
  last (save_info_cache_steps codec info_cache (Some filename))
       (open_w filename)
  = move (filename ++ ".backup") filename
  /\ Py.get (save_info_cache codec info_cache (Some filename) d) filename
     = Some (json_dump (map (to_json_dict codec) (Py.values info_cache)))
  /\ load_info_cache codec
       (save_info_cache codec info_cache (Some filename) d)
       other_cache (Some filename)
     = match mapM (fun json_dict_ =>
                     info <- from_json_dict codec json_dict_ ;;
                     Ok (json_path json_dict_, info))
                  (map (to_json_dict codec) (Py.values info_cache)) with
       | Ok loaded => Py.update other_cache (Py.of_list loaded)
       | Err _ => other_cache
       end
  /\ Py.get (interrupted_save n codec info_cache (Some filename) d) filename
     = Py.get d filename.
Proof.
  set (records := map (to_json_dict codec) (Py.values info_cache)).
  set (steps := save_info_cache_steps codec info_cache (Some filename)).
  intros Hn.
  pose proof (backup_differs filename) as N.
  set (backup := filename ++ ".backup") in *.
  assert (S : steps = ((open_w backup :: map (write backup) (json_dump records))
                       ++ [move backup filename])%list) by reflexivity.
  assert (G : Py.get (save_info_cache codec info_cache (Some filename) d)
                     filename = Some (json_dump records)).
  { unfold save_info_cache. fold steps. rewrite S, run_app.
    change (run (open_w backup :: ?s) d) with (run s (Py.set d backup [])).
    destruct (run_writes backup (json_dump records) [] (Py.set d backup [])
                         (get_set_same _ _ _)) as [A _].
    simpl app in A.
    set (d1 := run (map (write backup) (json_dump records))
                   (Py.set d backup [])) in *.
    change (run [move backup filename] d1)
      with (exec d1 (move backup filename)).
    unfold exec. rewrite A.
    rewrite get_remove_other by exact N. apply get_set_same. }
  split; [|split; [|split]].
  - rewrite S. apply last_last.
  - exact G.
  - unfold load_info_cache. rewrite G, json_load_dump. reflexivity.
  - unfold interrupted_save. fold steps. rewrite S.
    rewrite S, length_app in Hn. simpl in Hn.
    rewrite firstn_app.
    replace (n - List.length (open_w backup
                              :: map (write backup) (json_dump records)))%nat
      with O by (simpl; lia).
    simpl firstn at 2. rewrite app_nil_r.
    apply run_backup_only. congruence.
Qed.

(** A codec that writes a time as its number of microseconds. *)
Definition plain_codec : Codec :=
  {| to_json_dict := fun info =>
       {| json_path := FileInfo.path info;
          json_times :=
            (option_map Py.str_of_int (fst (FileInfo.times info)),
             option_map Py.str_of_int (snd (FileInfo.times info)));
          json_attrs := FileInfo.attr info |};
     from_json_dict := fun json_dict_ =>
       let time_of (o : option string) : result (option datetime) :=
         match o with
         | Some text => t <- Py.int text ;; Ok (Some t)
         | None => Ok None
         end in
       t0 <- time_of (fst (json_times json_dict_)) ;;
       t1 <- time_of (snd (json_times json_dict_)) ;;
       Ok {| FileInfo.path := json_path json_dict_;
             FileInfo.times := (t0, t1);
             FileInfo.attr := json_attrs json_dict_ |} |}.

(** The cache of the search of the day is saved over an older, empty
    cache file; a second program loads it. *)
Definition june_cache : cache_t := cache_after (june_search no_bundle).

Definition old_disk : disk := [("/cache.json", json_dump [])].

Lemma info_cache_persistence_june :
  load_info_cache plain_codec
    (save_info_cache plain_codec june_cache (Some "/cache.json") old_disk)
    [] (Some "/cache.json")
  = june_cache
  /\ Py.get (interrupted_save 4 plain_codec june_cache (Some "/cache.json")
                              old_disk) "/cache.json"
     = Some (json_dump []).
Proof.
  destruct (info_cache_persistence plain_codec june_cache [] "/cache.json"
              old_disk 4) as (_ & _ & L & I).
  - vm_compute. lia.
  - split.
    + rewrite L. vm_compute. reflexivity.
    + rewrite I. reflexivity.
Defined.

(** ** Placeholders and instances *)

Lemma nth_error_replace_other {A : Type} (l : list A) (i j : nat) (x : A) :
  i <> j -> nth_error (replace_nth l i x) j = nth_error l j.
Proof.
  revert i j. induction l as [|y l IH]; intros [|i] [|j] N; simpl;
    try reflexivity; try congruence.
  apply IH. congruence.
Qed.

(** The compiled regex of an instance is its own: a call of
    [set_placeholders] on another instance leaves it as it is. *)
Lemma set_placeholders_keeps_other_regex
  (w : World) (i j : nat) (placeholders : Py.dict pvalue) :
  i <> j ->
  path_regex_of (fst (call_set_placeholders w i placeholders)) j
  = path_regex_of w j.
Proof.
  intros N. unfold call_set_placeholders, path_regex_of.
  destruct (nth_error (instances w) i) as [self|]; [|reflexivity].
  destruct (set_placeholders (class_user_placeholder w) self placeholders)
    as [up [self'|e]]; simpl; [|reflexivity].
  now rewrite nth_error_replace_other.
Qed.

(** The dictionary of the user placeholders is not: every instance reads
    the one of the class, which [set_placeholders] changes. *)
Lemma set_placeholders_reaches_all
  (w : World) (i j : nat) (placeholders : Py.dict pvalue) (self other : Dataset) :
  nth_error (instances w) i = Some self ->
  nth_error (instances w) j = Some other ->
  user_placeholder_of (fst (call_set_placeholders w i placeholders)) j
  = Some (Py.update (class_user_placeholder w)
                    (_complete_placeholders_regex placeholders)).
Proof.
  intros Hi Hj. unfold call_set_placeholders, user_placeholder_of.
  rewrite Hi. unfold set_placeholders.
  destruct (_fill_placeholders_with_regexes _ _ _ _) as [regex|e]; simpl.
  - destruct (Nat.eq_dec i j) as [->|N].
    + assert (L : (j < List.length (instances w))%nat)
        by (apply nth_error_Some; congruence).
      clear Hi Hj. revert j L.
      induction (instances w) as [|y l IH]; intros [|j] L; simpl in *;
        try lia; try reflexivity.
      apply IH. lia.
    + rewrite nth_error_replace_other by exact N. now rewrite Hj.
  - now rewrite Hj.
Qed.

(** A program with two datasets: [b = Dataset("/b/{year}/{id}.nc")], then
    [a = Dataset("/a/{site}.nc")], then [a.set_placeholders(id="\d+")]. *)
Definition world_b : World :=
  fst (new_dataset empty_world "/b/{year}/{id}.nc" None).

Definition world_ba : World :=
  fst (new_dataset world_b "/a/{site}.nc" None).

Definition world_ba_set : World :=
  fst (call_set_placeholders world_ba 1 [("id", str_value "\d+")]).

(** What [b.parse_filename(filename, template=b.path)] returns. *)
Definition b_parses (w : World) (filename : string)
  : option (result (Py.dict string)) :=
  match nth_error (instances w) 0 with
  | Some b =>
      Some (parse_filename (class_user_placeholder w) b filename
                           (template_string (path b)))
  | None => None
  end.

(** C10 at work. The placeholders that the dataset [a] registers, first
    through its path and then through [set_placeholders], show up in the
    dataset [b]: its user placeholders change, and with them what [b]
    parses with its own path as the template, although its compiled regex
    stays the same. *)
Theorem placeholders_leak_between_datasets :
  user_placeholder_of world_b 0 = Some [("id", "(?P<id>.+?)")]
  /\ user_placeholder_of world_ba 0
     = Some [("id", "(?P<id>.+?)"); ("site", "(?P<site>.+?)")]
  /\ user_placeholder_of world_ba_set 0
     = Some [("id", "(?P<id>\d+)"); ("site", "(?P<site>.+?)")]
  /\ path_regex_of world_ba_set 0 = path_regex_of world_b 0
  /\ b_parses world_b "/b/2017/abc.nc"
     = Some (Ok [("year", "2017"); ("id", "abc")])
  /\ b_parses world_ba_set "/b/2017/abc.nc" = Some (Err ValueError).
Proof. vm_compute. repeat split. Qed.


(** ** The end of the time coverage *)

(** The units of the end placeholders of a path, as the setter of [path]
    collects them. *)
Definition end_units (self : Dataset) (path_ : string) : list string :=
  map (Py.drop 4)
      (filter (fun p => Py.startswith p "end" && Py.mem (_time_placeholder self) p)
              (dedup (Fmt.findall path_))).

(** The coarsest of the units that [_temporal_resolution] knows. *)
Definition coarsest (units : list string) : option string :=
  match known_resolutions units with
  | [] => None
  | p :: ps => Some (best_by Z.gtb p ps)
  end.

(** One unit of the resolution that is next-coarser than a unit, a year
    being 366 days and a month 31 days; nothing is coarser than a year. *)
Definition next_coarser (unit : string) : option timedelta :=
  if String.eqb unit "month" then Some (DT.days 366)
  else if String.eqb unit "day" then Some (DT.days 31)
  else if String.eqb unit "hour" then Some (DT.days 1)
  else if String.eqb unit "minute" then Some (DT.hours 1)
  else if String.eqb unit "second" then Some (DT.minutes 1)
  else if String.eqb unit "millisecond" then Some (DT.seconds 1)
  else None.

Definition advance (units : list string) : option timedelta :=
  match coarsest units with
  | Some unit => next_coarser unit
  | None => None
  end.

Lemma known_unit (p : string) :
  Py.mem DatasetClass._temporal_resolution p = true ->
  In p ["year"; "month"; "day"; "hour"; "minute"; "second"; "millisecond"].
Proof.
  unfold Py.mem. simpl.
  repeat match goal with
         | |- context [String.eqb p ?k] =>
             destruct (String.eqb_spec p k) as [->|_]; [simpl; tauto|]
         end.
  discriminate.
Qed.

Lemma best_by_max (p : string) (ps : list string) :
  fold_left Z.max (map resolution_of ps) (resolution_of p)
  = resolution_of (best_by Z.gtb p ps).
Proof.
  unfold best_by. revert p. induction ps as [|q ps IH]; intros p; simpl.
  - reflexivity.
  - destruct (Z.gtb_spec (resolution_of q) (resolution_of p)) as [G|G].
    + rewrite <- IH. f_equal. lia.
    + rewrite <- IH. f_equal. lia.
Qed.

Lemma best_by_in (better : Z -> Z -> bool) (p : string) (ps : list string) :
  In (best_by better p ps) (p :: ps).
Proof.
  unfold best_by. revert p. induction ps as [|q ps IH]; intros p; simpl.
  - now left.
  - destruct (better (resolution_of q) (resolution_of p)).
    + destruct (IH q) as [E|I]; [right; left; exact E | right; right; exact I].
    + destruct (IH p) as [E|I]; [left; exact E | right; right; exact I].
Qed.

(** [_get_superior_time_resolution] is the next-coarser unit of the
    coarsest placeholder. *)
Lemma superior_is_next_coarser (units : list string) :
  _get_superior_time_resolution units = advance units.
Proof.
  unfold _get_superior_time_resolution, advance, coarsest.
  destruct (known_resolutions units) as [|p ps] eqn:K; [reflexivity|].
  rewrite best_by_max.
  assert (I : In (best_by Z.gtb p ps) (known_resolutions units))
    by (rewrite K; apply best_by_in).
  apply filter_In in I as [_ I]. apply known_unit in I.
  simpl in I.
  repeat (destruct I as [<-|I]; [reflexivity|]). contradiction.
Qed.

Lemma set_placeholders_superior
  (up : Py.dict string) (self self' : Dataset) (ph : Py.dict pvalue) :
  snd (set_placeholders up self ph) = Ok self' ->
  _end_time_superior self' = _end_time_superior self
  /\ _time_placeholder self' = _time_placeholder self.
Proof.
  unfold set_placeholders. simpl.
  destruct (_fill_placeholders_with_regexes _ _ _ _); simpl; [|discriminate].
  intros E. inversion E. split; reflexivity.
Qed.

Lemma set_path_superior
  (up : Py.dict string) (self self' : Dataset) (value : string) :
  snd (set_path up self value) = Ok self' ->
  _end_time_superior self' = advance (end_units self value)
  /\ _time_placeholder self' = _time_placeholder self.
Proof.
  unfold set_path.
  destruct (match first_special (Path.dirname value) with
            | Some i => _
            | None => _
            end) as [[[base_dir sub_dir] chunks] resolution].
  match goal with
  | |- context [set_placeholders up ?s ?ph] =>
      pose proof (set_placeholders_superior up s) as P;
      destruct (set_placeholders up s ph) as [up1 [s1|e]] eqn:E
  end; cbn [snd bind]; [|discriminate].
  intros H. inversion H; subst self'. cbn [_end_time_superior _time_placeholder].
  specialize (P s1 _ ltac:(rewrite E; reflexivity)) as [_ T].
  cbn [_time_placeholder] in T.
  split; [|exact T].
  rewrite superior_is_next_coarser. unfold end_units. rewrite T.
  reflexivity.
Qed.

Lemma init_superior
  (up : Py.dict string) (path_ : string) (h : option Handler) (nm : string)
  (via : option info_via_t) (cov : coverage)
  (ex : option (list IntervalTree.interval))
  (ph : option (Py.dict pvalue)) (self : Dataset) :
  snd (init up path_ h nm via cov ex ph) = Ok self ->
  _end_time_superior self = advance (end_units self path_).
Proof.
  unfold init.
  match goal with
  | |- context [set_path up ?s path_] =>
      pose proof (set_path_superior up s) as P;
      destruct (set_path up s path_) as [up1 [s1|e]] eqn:E
  end; simpl; [|discriminate].
  specialize (P s1 path_ ltac:(rewrite E; reflexivity)) as [P T].
  destruct ph as [ph|].
  - pose proof (set_placeholders_superior up1 s1) as Q.
    destruct (set_placeholders up1 s1 ph) as [up2 [s2|e]] eqn:E2; simpl;
      [|discriminate].
    specialize (Q s2 ph ltac:(rewrite E2; reflexivity)) as [Q T2].
    intros H. bind_ok H v Ev. bind_ok H c Ec. inversion H; subst self.
    cbn [_end_time_superior]. rewrite Q, P. unfold end_units.
    cbn [_time_placeholder]. rewrite T2, T. reflexivity.
  - simpl. intros H. bind_ok H v Ev. bind_ok H c Ec. inversion H; subst self.
    cbn [_end_time_superior]. rewrite P. unfold end_units.
    cbn [_time_placeholder]. rewrite T. reflexivity.
Qed.

(** C2, as the code has it. When the start and the end can be built from
    the captures and the end is earlier than the start, the end is advanced
    by one unit of the resolution next-coarser than the coarsest end
    placeholder of the path (a month being 31 days and a year 366); there
    is nothing to add when that placeholder is a year or unknown, and the
    sum may leave the range of [datetime]. *)
Theorem end_time_advanced
  (up : Py.dict string) (path_ : string) (h : option Handler) (nm : string)
  (via : option info_via_t) (cov : coverage)
  (ex : option (list IntervalTree.interval))
  (ph : option (Py.dict pvalue)) (self : Dataset)
  (filled : Py.dict string) (start_args end_args : Py.dict Z)
  (s e : datetime) :
  snd (init up path_ h nm via cov ex ph) = Ok self ->
  _to_datetime_args self filled = Ok (start_args, end_args) ->
  start_args <> [] -> end_args <> [] ->
  DT.of_kwargs start_args = Ok s ->
  DT.of_kwargs (Py.merge start_args end_args) = Ok e ->
  e < s ->
  _retrieve_time_coverage self filled =
  match advance (end_units self path_) with
  | Some d =>
      if DT.in_range (e + d) then Ok (Some (Some s, Some (e + d)))
      else Err OverflowError
  | None => Err TypeError
  end.
Proof.
  intros I A NS NE S E L.
  rewrite <- (init_superior _ _ _ _ _ _ _ _ _ I).
  unfold _retrieve_time_coverage.
  destruct filled as [|kv filled].
  - simpl in A. inversion A. congruence.
  - cbn [is_empty]. rewrite A. cbn [bind].
    assert (ES : is_empty start_args = false)
      by (destruct start_args; [congruence | reflexivity]).
    assert (EE : is_empty end_args = false)
      by (destruct end_args; [congruence | reflexivity]).
    rewrite ES, EE, S. cbn [bind]. rewrite E. cbn [bind].
    destruct (Z.ltb_spec e s); [|lia].
    destruct (_end_time_superior self) as [d|]; [|reflexivity].
    unfold DT.add. destruct (DT.in_range (e + d)); reflexivity.
Qed.

Definition dated_path : string :=
  "/{year}{month}{day}{hour}{minute}-{end_hour}{end_minute}.dat".

(** S3 with a date in the name: ["201701012330-0015.dat"] starts at 23:30,
    and its end, 00:15, is moved to the next day. *)
Lemma end_time_advanced_by_a_day :
  _retrieve_time_coverage (dataset dated_path)
    [("year", "2017"); ("month", "01"); ("day", "01");
     ("hour", "23"); ("minute", "30");
     ("end_hour", "00"); ("end_minute", "15")]
  = Ok (Some (Some (at_ 2017 1 1 23 30 0), Some (at_ 2017 1 2 0 15 0)))
  /\ parse_filename [] (dataset dated_path) "/201701012330-0015.dat"
                    default_template
     = Ok [("year", "2017"); ("month", "01"); ("day", "01");
           ("hour", "23"); ("minute", "30");
           ("end_hour", "00"); ("end_minute", "15")]
  /\ at_ 2017 1 2 0 15 0 = at_ 2017 1 1 0 15 0 + DT.days 1.
Proof.
  split; [|split; vm_compute; reflexivity].
  rewrite (end_time_advanced [] dated_path None "d" None no_coverage
             None None (dataset dated_path)
             [("year", "2017"); ("month", "01"); ("day", "01");
              ("hour", "23"); ("minute", "30");
              ("end_hour", "00"); ("end_minute", "15")]
             [("year", 2017); ("month", 1); ("day", 1);
              ("hour", 23); ("minute", 30)]
             [("hour", 0); ("minute", 15)]
             (at_ 2017 1 1 23 30 0) (at_ 2017 1 1 0 15 0)).
  - vm_compute. reflexivity.
  - vm_compute. reflexivity.
  - vm_compute. reflexivity.
  - discriminate.
  - discriminate.
  - vm_compute. reflexivity.
  - vm_compute. reflexivity.
  - vm_compute. reflexivity.
Defined.

(** C2, where the claim fails: the template of S3 has no date, so the
    captures (start hour 23, end hour 0) do not make a [datetime], and
    [_retrieve_time_coverage] raises [TypeError] before any end is
    advanced. *)
Lemma end_time_without_date_fails :
  parse_filename [] (dataset "/{hour}{minute}-{end_hour}{end_minute}.dat")
                 "/2330-0015.dat" default_template
  = Ok [("hour", "23"); ("minute", "30");
        ("end_hour", "00"); ("end_minute", "15")]
  /\ _to_datetime_args
       (dataset "/{hour}{minute}-{end_hour}{end_minute}.dat")
       [("hour", "23"); ("minute", "30");
        ("end_hour", "00"); ("end_minute", "15")]
     = Ok ([("hour", 23); ("minute", 30)], [("hour", 0); ("minute", 15)])
  /\ _retrieve_time_coverage
       (dataset "/{hour}{minute}-{end_hour}{end_minute}.dat")
       [("hour", "23"); ("minute", "30");
        ("end_hour", "00"); ("end_minute", "15")]
     = Err TypeError.
Proof. vm_compute. repeat split. Qed.

(** ** Templates as pieces of text and fields *)

(** A template is cut into pieces of plain text and replacement fields;
    [format], [findall] and [replace] are followed piece by piece. *)
Inductive piece : Type :=
| text (s : string)
| hole (name : string).

Fixpoint pieces_string (ps : list piece) : string :=
  match ps with
  | [] => EmptyString
  | text s :: ps' => s ++ pieces_string ps'
  | hole name :: ps' => field name ++ pieces_string ps'
  end.

Definition hole_names (ps : list piece) : list string :=
  flat_map (fun p => match p with hole name => [name] | text _ => [] end) ps.

(** The text with every field replaced by its value. *)
Fixpoint fill_in (val : string -> string) (ps : list piece) : string :=
  match ps with
  | [] => EmptyString
  | text s :: ps' => s ++ fill_in val ps'
  | hole name :: ps' => val name ++ fill_in val ps'
  end.

Definition no_braces (s : string) : bool :=
  forallb (fun c => negb (Ascii.eqb c Fmt.lbrace) && negb (Ascii.eqb c Fmt.rbrace))
          (Py.chars s).

(** A name that [format] and [findall] both read as the name of a field:
    word characters, the first of them no digit. *)
Definition field_name (name : string) : bool :=
  match name with
  | EmptyString => false
  | String c _ => negb (Py.is_digit c) && forallb Py.is_word (Py.chars name)
  end.

Definition good_piece (p : piece) : bool :=
  match p with
  | text s => no_braces s
  | hole name => field_name name
  end.

Lemma append_assoc (a b c : string) : (a ++ b) ++ c = a ++ (b ++ c).
Proof. induction a as [|x a IH]; simpl; [|rewrite IH]; reflexivity. Qed.

Lemma append_nil_r (a : string) : a ++ EmptyString = a.
Proof. induction a as [|x a IH]; simpl; [|rewrite IH]; reflexivity. Qed.

Lemma push_append (acc : string) (c : ascii) (s : string) :
  Fmt.push acc c ++ s = acc ++ String c s.
Proof. unfold Fmt.push. rewrite append_assoc. reflexivity. Qed.

Lemma word_not_syntax (c : ascii) :
  Py.is_word c = true ->
  Ascii.eqb c Fmt.lbrace = false /\ Ascii.eqb c Fmt.rbrace = false
  /\ Fmt.is_field_syntax c = false.
Proof.
  destruct c as [[] [] [] [] [] [] [] []]; vm_compute; intros H;
    try discriminate H; repeat split.
Qed.

Lemma all_digits_first (c : ascii) (s : string) :
  Py.is_digit c = false -> Fmt.all_digits (String c s) = false.
Proof. intros H. unfold Fmt.all_digits. simpl. now rewrite H. Qed.

Lemma format_text (s rest : string) (kw : Py.dict string) :
  no_braces s = true ->
  Fmt.format_from Fmt.Text (s ++ rest) kw
  = r <- Fmt.format_from Fmt.Text rest kw ;; Ok (s ++ r).
Proof.
  unfold no_braces. induction s as [|c s IH]; simpl; intros H.
  - destruct (Fmt.format_from Fmt.Text rest kw); reflexivity.
  - apply andb_prop in H as [Hc H]. apply andb_prop in Hc as [H1 H2].
    apply negb_true_iff in H1, H2. rewrite H1, H2, (IH H).
    destruct (Fmt.format_from Fmt.Text rest kw); reflexivity.
Qed.

Lemma format_in_field (name acc rest : string) (kw : Py.dict string) :
  forallb Py.is_word (Py.chars name) = true ->
  Fmt.format_from (Fmt.Field acc) (name ++ String Fmt.rbrace rest) kw
  = v <- Fmt.lookup kw (acc ++ name) ;;
    r <- Fmt.format_from Fmt.Text rest kw ;;
    Ok (v ++ r).
Proof.
  revert acc. induction name as [|c name IH]; intros acc H.
  - simpl. rewrite append_nil_r. reflexivity.
  - simpl in H. apply andb_prop in H as [Hc H].
    destruct (word_not_syntax c Hc) as (L & R & F).
    simpl. rewrite R, L, F, (IH _ H), push_append. reflexivity.
Qed.

Lemma format_hole (name rest : string) (kw : Py.dict string) :
  field_name name = true ->
  Fmt.format_from Fmt.Text (field name ++ rest) kw
  = match Py.get kw name with
    | Some v => r <- Fmt.format_from Fmt.Text rest kw ;; Ok (v ++ r)
    | None => Err KeyError
    end.
Proof.
  unfold field_name, field. destruct name as [|c name]; [discriminate|].
  intros H. apply andb_prop in H as [D W]. apply negb_true_iff in D.
  pose proof W as W'. simpl in W'. apply andb_prop in W' as [Wc Wn].
  destruct (word_not_syntax c Wc) as (L & R & F).
  change (("{" ++ String c name ++ "}") ++ rest)
    with (String Fmt.lbrace (String c ((name ++ "}") ++ rest))).
  rewrite append_assoc. cbn [Fmt.format_from].
  replace (Ascii.eqb Fmt.lbrace Fmt.lbrace) with true by reflexivity.
  rewrite L, R, F.
  change ("}" ++ rest) with (String Fmt.rbrace rest).
  rewrite (format_in_field name _ rest kw Wn). simpl.
  unfold Fmt.lookup. rewrite (all_digits_first c name D).
  destruct (Py.get kw (String c name)); reflexivity.
Qed.

(** [format] fills the fields of a template and keeps its text. *)
Lemma format_pieces (ps : list piece) (kw : Py.dict string)
  (val : string -> string) :
  forallb good_piece ps = true ->
  (forall name, In name (hole_names ps) -> Py.get kw name = Some (val name)) ->
  Fmt.format (pieces_string ps) kw = Ok (fill_in val ps).
Proof.
  unfold Fmt.format. induction ps as [|[s|name] ps IH]; intros G H.
  - reflexivity.
  - simpl in G. apply andb_prop in G as [Gs G].
    cbn [pieces_string fill_in].
    rewrite (format_text _ _ _ Gs), (IH G H). reflexivity.
  - simpl in G. apply andb_prop in G as [Gn G].
    cbn [pieces_string fill_in].
    rewrite (format_hole _ _ _ Gn), (H name (or_introl eq_refl)).
    rewrite IH; [reflexivity | exact G |].
    intros n I. apply H. right. exact I.
Qed.

Lemma findall_text (s rest : string) :
  no_braces s = true ->
  Fmt.findall_from Fmt.Outside (s ++ rest)
  = Fmt.findall_from Fmt.Outside rest.
Proof.
  unfold no_braces. induction s as [|c s IH]; simpl; intros H.
  - reflexivity.
  - apply andb_prop in H as [Hc H]. apply andb_prop in Hc as [H1 _].
    apply negb_true_iff in H1. rewrite H1. apply IH, H.
Qed.

Lemma findall_in_field (name acc rest : string) :
  forallb Py.is_word (Py.chars name) = true ->
  acc ++ name <> EmptyString ->
  Fmt.findall_from (Fmt.Inside acc) (name ++ String Fmt.rbrace rest)
  = (acc ++ name) :: Fmt.findall_from Fmt.Outside rest.
Proof.
  revert acc. induction name as [|c name IH]; intros acc H N.
  - simpl. rewrite append_nil_r in *.
    destruct acc; [congruence | reflexivity].
  - simpl in H. apply andb_prop in H as [Hc H].
    simpl. rewrite Hc, (IH _ H), push_append; [reflexivity|].
    rewrite push_append. destruct acc; discriminate.
Qed.

Lemma findall_hole (name rest : string) :
  field_name name = true ->
  Fmt.findall_from Fmt.Outside (field name ++ rest)
  = name :: Fmt.findall_from Fmt.Outside rest.
Proof.
  unfold field_name, field. destruct name as [|c name]; [discriminate|].
  intros H. apply andb_prop in H as [_ W].
  change (("{" ++ String c name ++ "}") ++ rest)
    with (String Fmt.lbrace ((String c name ++ "}") ++ rest)).
  rewrite append_assoc. cbn [Fmt.findall_from].
  replace (Ascii.eqb Fmt.lbrace Fmt.lbrace) with true by reflexivity.
  change ("}" ++ rest) with (String Fmt.rbrace rest).
  rewrite (findall_in_field (String c name) EmptyString rest W);
    [reflexivity | discriminate].
Qed.

(** [findall] lists the names of the fields. *)
Lemma findall_pieces (ps : list piece) :
  forallb good_piece ps = true ->
  Fmt.findall (pieces_string ps) = hole_names ps.
Proof.
  unfold Fmt.findall. induction ps as [|[s|name] ps IH]; intros G.
  - reflexivity.
  - simpl in G. apply andb_prop in G as [Gs G].
    cbn [pieces_string]. rewrite (findall_text _ _ Gs). apply IH, G.
  - simpl in G. apply andb_prop in G as [Gn G].
    cbn [pieces_string]. rewrite (findall_hole _ _ Gn), (IH G). reflexivity.
Qed.

(** *** [replace] with a pattern of one character *)

Lemma replace_char_cons (c : ascii) (new : string) (a : ascii) (s : string) :
  Py.replace (String c EmptyString) new (String a s)
  = (if Ascii.eqb c a then new else String a EmptyString)
    ++ Py.replace (String c EmptyString) new s.
Proof.
  unfold Py.replace. simpl. destruct (Ascii.eqb c a); reflexivity.
Qed.

Lemma replace_char_app (c : ascii) (new a b : string) :
  Py.replace (String c EmptyString) new (a ++ b)
  = Py.replace (String c EmptyString) new a
    ++ Py.replace (String c EmptyString) new b.
Proof.
  induction a as [|x a IH].
  - reflexivity.
  - change (String x a ++ b) with (String x (a ++ b)).
    rewrite !replace_char_cons, IH, append_assoc. reflexivity.
Qed.

Lemma replace_char_absent (c : ascii) (new s : string) :
  forallb (fun x => negb (Ascii.eqb c x)) (Py.chars s) = true ->
  Py.replace (String c EmptyString) new s = s.
Proof.
  induction s as [|x s IH]; intros H.
  - reflexivity.
  - simpl in H. apply andb_prop in H as [Hx H].
    apply negb_true_iff in Hx.
    rewrite replace_char_cons, Hx, (IH H). reflexivity.
Qed.

Definition map_text (f : string -> string) (ps : list piece) : list piece :=
  map (fun p => match p with text s => text (f s) | hole _ => p end) ps.

Lemma word_not_char (c x : ascii) :
  Py.is_word c = false -> Py.is_word x = true -> Ascii.eqb c x = false.
Proof.
  intros Hc Hx. destruct (Ascii.eqb_spec c x) as [->|]; [congruence|reflexivity].
Qed.

Lemma replace_char_field (c : ascii) (new name : string) :
  Py.is_word c = false ->
  Ascii.eqb c Fmt.lbrace = false -> Ascii.eqb c Fmt.rbrace = false ->
  field_name name = true ->
  Py.replace (String c EmptyString) new (field name) = field name.
Proof.
  intros W L R F. apply replace_char_absent.
  unfold Fmt.lbrace, Fmt.rbrace in *.
  unfold field_name in F. destruct name as [|x name]; [discriminate|].
  apply andb_prop in F as [_ F].
  unfold field. simpl. rewrite L. simpl.
  simpl in F. apply andb_prop in F as [Fx F].
  rewrite (word_not_char c x W Fx). simpl.
  induction name as [|y name IH]; simpl.
  - now rewrite R.
  - simpl in F. apply andb_prop in F as [Fy F].
    rewrite (word_not_char c y W Fy). simpl. apply IH, F.
Qed.

(** Replacing a character that is no word character and no brace changes
    the text of a template and leaves its fields. *)
Lemma replace_char_pieces (c : ascii) (new : string) (ps : list piece) :
  Py.is_word c = false ->
  Ascii.eqb c Fmt.lbrace = false -> Ascii.eqb c Fmt.rbrace = false ->
  forallb good_piece ps = true ->
  Py.replace (String c EmptyString) new (pieces_string ps)
  = pieces_string (map_text (Py.replace (String c EmptyString) new) ps).
Proof.
  intros W L R. induction ps as [|[s|name] ps IH]; intros G.
  - reflexivity.
  - simpl in G. apply andb_prop in G as [_ G].
    cbn [pieces_string map_text map].
    rewrite replace_char_app, (IH G). reflexivity.
  - simpl in G. apply andb_prop in G as [Gn G].
    cbn [pieces_string map_text map].
    rewrite replace_char_app, (IH G), (replace_char_field c new name W L R Gn).
    reflexivity.
Qed.

(** ** Templates of plain text and time placeholders *)

Inductive tunit : Type :=
| Year | Year2 | Month | Day | Doy | Hour | Minute | Second | Millisecond.

Definition unit_name (u : tunit) : string :=
  match u with
  | Year => "year" | Year2 => "year2" | Month => "month" | Day => "day"
  | Doy => "doy" | Hour => "hour" | Minute => "minute" | Second => "second"
  | Millisecond => "millisecond"
  end.

(** The number of digits of a time placeholder. *)
Definition width (u : tunit) : nat :=
  match u with
  | Year => 4
  | Doy | Millisecond => 3
  | _ => 2
  end%nat.

(** A piece of a template: a character, or a time placeholder of the start
    ([is_end = false]) or of the end of the coverage. *)
Inductive tok : Type :=
| lit (c : ascii)
| ph (is_end : bool) (u : tunit).

Definition ph_name (is_end : bool) (u : tunit) : string :=
  (if is_end then "end_" else EmptyString) ++ unit_name u.

Definition piece_of (t : tok) : piece :=
  match t with
  | lit c => text (String c EmptyString)
  | ph e u => hole (ph_name e u)
  end.

(** The template as the string that is handed to [Dataset]. *)
Definition template_of (toks : list tok) : string :=
  pieces_string (map piece_of toks).

(** The characters that are text to [format], to [generate_filename] and
    to [re]: none of the special characters of the class, no closing brace
    and none of [^ $ + )]. *)
Definition plain (c : ascii) : bool :=
  negb (existsb (Ascii.eqb c)
          ("}" :: "^" :: "$" :: "+" :: ")" :: DatasetClass._special_chars)%char).

Definition plain_tok (t : tok) : bool :=
  match t with
  | lit c => plain c
  | ph _ _ => true
  end.

Definition phs (toks : list tok) : list (bool * tunit) :=
  flat_map (fun t => match t with ph e u => [(e, u)] | lit _ => [] end) toks.

Lemma ph_name_field (e : bool) (u : tunit) : field_name (ph_name e u) = true.
Proof. destruct e, u; reflexivity. Qed.

Lemma ph_name_inj (e e' : bool) (u u' : tunit) :
  ph_name e u = ph_name e' u' -> e = e' /\ u = u'.
Proof. destruct e, u, e', u'; simpl; intros H; try discriminate H; split; reflexivity. Qed.

Lemma plain_no_braces (c : ascii) :
  plain c = true -> no_braces (String c EmptyString) = true.
Proof.
  destruct c as [[] [] [] [] [] [] [] []]; vm_compute; intros H;
    try discriminate H; reflexivity.
Qed.

Lemma good_pieces_of (toks : list tok) :
  forallb plain_tok toks = true ->
  forallb good_piece (map piece_of toks) = true.
Proof.
  induction toks as [|[c|e u] toks IH]; simpl; intros H.
  - reflexivity.
  - apply andb_prop in H as [Hc H].
    rewrite (plain_no_braces c Hc). apply IH, H.
  - rewrite ph_name_field. apply IH, H.
Qed.

Lemma hole_names_of (toks : list tok) :
  hole_names (map piece_of toks) = map (fun p => ph_name (fst p) (snd p)) (phs toks).
Proof.
  induction toks as [|[c|e u] toks IH]; simpl; [|exact IH|rewrite IH];
    reflexivity.
Qed.

(** *** Rendering *)

(** The text that [generate_filename] produces for a unit of a time. *)
Definition unit_text (u : tunit) (t : datetime) : string :=
  match u with
  | Year => Py.str_of_int (DT.year t)
  | Year2 => Py.last2 (Py.str_of_int (DT.year t))
  | Month => Py.zero_pad 2 (DT.month t)
  | Day => Py.zero_pad 2 (DT.day t)
  | Doy =>
      match DT.make (DT.year t) 1 1 0 0 0 0 with
      | Ok jan1 => Py.zero_pad 3 (DT.td_days (DT.diff t jan1) + 1)
      | Err _ => EmptyString
      end
  | Hour => Py.zero_pad 2 (DT.hour t)
  | Minute => Py.zero_pad 2 (DT.minute t)
  | Second => Py.zero_pad 2 (DT.second t)
  | Millisecond => Py.zero_pad 3 (DT.microsecond t / 1000)
  end.

Definition ph_text (t0 t1 : datetime) (e : bool) (u : tunit) : string :=
  unit_text u (if e then t1 else t0).

(** The file name of a template for a start and an end. *)
Fixpoint render (toks : list tok) (t0 t1 : datetime) : string :=
  match toks with
  | [] => EmptyString
  | lit c :: toks' => String c (render toks' t0 t1)
  | ph e u :: toks' => ph_text t0 t1 e u ++ render toks' t0 t1
  end.

Definition fixed_fillings (t0 t1 : datetime) : Py.dict string :=
  (time_fillings "" t0 ++ time_fillings "end_" t1)%list.

Lemma get_app_l {V : Type} (a b : Py.dict V) (k : string) (v : V) :
  Py.get a k = Some v -> Py.get (a ++ b)%list k = Some v.
Proof.
  induction a as [|[k' v'] a IH]; simpl; [discriminate|].
  destruct (String.eqb k k'); [trivial | exact IH].
Qed.

Lemma time_fillings_eq (prefix : string) (t : datetime) :
  time_fillings prefix t
  = map (fun u => (prefix ++ unit_name u, unit_text u t))
        [Year; Year2; Month; Day; Doy; Hour; Minute; Second; Millisecond].
Proof. reflexivity. Qed.

Lemma get_fixed_fillings (t0 t1 : datetime) (e : bool) (u : tunit) :
  Py.get (fixed_fillings t0 t1) (ph_name e u) = Some (ph_text t0 t1 e u).
Proof.
  unfold fixed_fillings, ph_text. rewrite !time_fillings_eq.
  cbn [map app unit_name].
  destruct e, u; cbv beta iota;
  generalize (unit_text Year t0) (unit_text Year2 t0) (unit_text Month t0)
             (unit_text Day t0) (unit_text Doy t0) (unit_text Hour t0)
             (unit_text Minute t0) (unit_text Second t0)
             (unit_text Millisecond t0)
             (unit_text Year t1) (unit_text Year2 t1) (unit_text Month t1)
             (unit_text Day t1) (unit_text Doy t1) (unit_text Hour t1)
             (unit_text Minute t1) (unit_text Second t1)
             (unit_text Millisecond t1);
  intros; reflexivity.
Qed.

Definition val_of (kw : Py.dict string) (name : string) : string :=
  match Py.get kw name with Some v => v | None => EmptyString end.

Lemma fill_in_render (toks : list tok) (t0 t1 : datetime) (fill : Py.dict string) :
  fill_in (val_of (fixed_fillings t0 t1 ++ fill)%list) (map piece_of toks)
  = render toks t0 t1.
Proof.
  induction toks as [|[c|e u] toks IH];
    cbn [map piece_of fill_in render].
  - reflexivity.
  - rewrite IH. reflexivity.
  - rewrite IH. unfold val_of.
    rewrite (get_app_l _ _ _ _ (get_fixed_fillings t0 t1 e u)). reflexivity.
Qed.

(** *** Digits *)

Definition digits (s : string) : bool := forallb Py.is_digit (Py.chars s).

Lemma chars_app (a b : string) : Py.chars (a ++ b) = (Py.chars a ++ Py.chars b)%list.
Proof.
  unfold Py.chars. induction a as [|x a IH]; simpl; [|rewrite IH]; reflexivity.
Qed.

Lemma digits_app (a b : string) : digits (a ++ b) = digits a && digits b.
Proof. unfold digits. rewrite chars_app. apply forallb_app. Qed.

Lemma digit_char_digit (n : Z) : Py.is_digit (Py.digit_char (n mod 10)) = true.
Proof.
  pose proof (Z.mod_pos_bound n 10 ltac:(lia)) as B.
  assert (C : n mod 10 = 0 \/ n mod 10 = 1 \/ n mod 10 = 2 \/ n mod 10 = 3
              \/ n mod 10 = 4 \/ n mod 10 = 5 \/ n mod 10 = 6
              \/ n mod 10 = 7 \/ n mod 10 = 8 \/ n mod 10 = 9) by lia.
  repeat (destruct C as [->|C]; [reflexivity|]). rewrite C. reflexivity.
Qed.

Lemma digits_fuel_digits (fuel : nat) (n : Z) (acc : string) :
  digits acc = true -> digits (Py.digits_fuel fuel n acc) = true.
Proof.
  revert n acc. induction fuel as [|fuel IH]; intros n acc H;
    cbn [Py.digits_fuel].
  - exact H.
  - assert (D : digits (String (Py.digit_char (n mod 10)) acc) = true).
    { unfold digits in *. cbn [Py.chars list_ascii_of_string forallb].
      now rewrite digit_char_digit. }
    destruct (n <? 10); [exact D | apply IH, D].
Qed.

Lemma str_of_int_digits (n : Z) : digits (Py.str_of_int n) = true.
Proof. apply digits_fuel_digits. reflexivity. Qed.

Lemma zeros_digits (n : nat) : digits (Py.zeros n) = true.
Proof. induction n as [|n IH]; [reflexivity | exact IH]. Qed.

Lemma zero_pad_digits (w : nat) (n : Z) : digits (Py.zero_pad w n) = true.
Proof.
  unfold Py.zero_pad. now rewrite digits_app, zeros_digits, str_of_int_digits.
Qed.

Lemma drop_digits (k : nat) (s : string) :
  digits s = true -> digits (Py.drop k s) = true.
Proof.
  revert s. induction k as [|k IH]; intros s H; [exact H|].
  destruct s as [|c s]; [reflexivity|].
  simpl. apply IH. unfold digits in *. simpl in H.
  now apply andb_prop in H as [_ H].
Qed.

Lemma unit_text_digits (u : tunit) (t : datetime) : digits (unit_text u t) = true.
Proof.
  destruct u; unfold unit_text;
    try apply zero_pad_digits; try apply str_of_int_digits.
  - apply drop_digits, str_of_int_digits.
  - destruct (DT.make (DT.year t) 1 1 0 0 0 0);
      [apply zero_pad_digits | reflexivity].
Qed.

(** *** No special character is left *)

Definition harmless (s : string) : bool :=
  forallb (fun c => negb (existsb (Ascii.eqb c) DatasetClass._special_chars))
          (Py.chars s).

Lemma harmless_not_special (s : string) :
  harmless s = true -> has_special_chars s = false.
Proof.
  unfold harmless, has_special_chars, Py.any_char_in.
  induction (Py.chars s) as [|c l IH]; simpl; intros H; [reflexivity|].
  apply andb_prop in H as [Hc H]. apply negb_true_iff in Hc.
  rewrite Hc. apply IH, H.
Qed.

Lemma harmless_app (a b : string) : harmless (a ++ b) = harmless a && harmless b.
Proof. unfold harmless. rewrite chars_app. apply forallb_app. Qed.

Lemma digit_harmless (c : ascii) :
  Py.is_digit c = true ->
  negb (existsb (Ascii.eqb c) DatasetClass._special_chars) = true.
Proof.
  destruct c as [[] [] [] [] [] [] [] []]; vm_compute; intros H;
    try discriminate H; reflexivity.
Qed.

Lemma plain_harmless (c : ascii) :
  plain c = true ->
  negb (existsb (Ascii.eqb c) DatasetClass._special_chars) = true.
Proof.
  destruct c as [[] [] [] [] [] [] [] []]; vm_compute; intros H;
    try discriminate H; reflexivity.
Qed.

Lemma digits_harmless (s : string) : digits s = true -> harmless s = true.
Proof.
  unfold digits, harmless. induction (Py.chars s) as [|c l IH];
    cbn [forallb]; intros H; [reflexivity|].
  apply andb_prop in H as [Hc H]. now rewrite (digit_harmless c Hc), IH.
Qed.

Lemma render_harmless (toks : list tok) (t0 t1 : datetime) :
  forallb plain_tok toks = true -> harmless (render toks t0 t1) = true.
Proof.
  induction toks as [|[c|e u] toks IH]; simpl; intros H.
  - reflexivity.
  - apply andb_prop in H as [Hc H].
    change (String c (render toks t0 t1))
      with (String c EmptyString ++ render toks t0 t1).
    rewrite harmless_app, (IH H). unfold harmless.
    cbn [Py.chars list_ascii_of_string forallb].
    now rewrite (plain_harmless c Hc).
  - rewrite harmless_app, (IH H).
    unfold ph_text. now rewrite (digits_harmless _ (unit_text_digits _ _)).
Qed.

(** *** The keys of a dictionary *)

Lemma mem_keys {V : Type} (d : Py.dict V) (k : string) :
  Py.mem d k = true <-> In k (Py.keys d).
Proof.
  unfold Py.mem, Py.keys. induction d as [|[k' v] d IH]; simpl.
  - split; [discriminate | contradiction].
  - destruct (String.eqb_spec k k') as [->|N].
    + split; [now left | reflexivity].
    + rewrite IH. split; [now right | intros [E|I]; [congruence | exact I]].
Qed.

Lemma keys_set {V : Type} (d : Py.dict V) (k : string) (v : V) (x : string) :
  In x (Py.keys (Py.set d k v)) -> x = k \/ In x (Py.keys d).
Proof.
  unfold Py.keys. induction d as [|[k' v'] d IH]; simpl.
  - intros [E|[]]. now left.
  - destruct (String.eqb_spec k k') as [->|N]; simpl.
    + intros [E|I]; [now left | right; now right].
    + intros [E|I]; [right; now left|].
      destruct (IH I) as [E|I']; [now left | right; now right].
Qed.

Lemma keys_update {V : Type} (o d : Py.dict V) (x : string) :
  In x (Py.keys (Py.update d o)) -> In x (Py.keys d) \/ In x (Py.keys o).
Proof.
  unfold Py.update. revert d. induction o as [|[k v] o IH]; intros d; simpl.
  - now left.
  - intros I. destruct (IH _ I) as [I'|I'].
    + destruct (keys_set _ _ _ _ I') as [->|I'']; [right; now left | now left].
    + right. now right.
Qed.

(** The names of the time placeholders. *)
Definition time_names : list string := Py.keys DatasetClass._time_placeholder.

(** No user placeholder has the name of a time placeholder. *)
Definition no_time_names (up : Py.dict string) : bool :=
  forallb (fun k => negb (existsb (String.eqb k) time_names)) (Py.keys up).

Lemma keys_fixed_fillings (t0 t1 : datetime) (k : string) :
  In k (Py.keys (fixed_fillings t0 t1)) -> In k time_names.
Proof.
  unfold fixed_fillings, Py.keys. rewrite !time_fillings_eq.
  rewrite map_app, !map_map. cbn [map fst unit_name app In append].
  vm_compute. tauto.
Qed.

Lemma no_time_names_spec (up : Py.dict string) (k : string) :
  no_time_names up = true -> In k (Py.keys up) -> ~ In k time_names.
Proof.
  unfold no_time_names. rewrite forallb_forall. intros H I T.
  specialize (H k I). apply negb_true_iff in H.
  assert (X : existsb (String.eqb k) time_names = true).
  { apply existsb_exists. exists k. split; [exact T | apply String.eqb_refl]. }
  congruence.
Qed.

(** [generate_filename] renders a plain template. *)
Lemma generate_filename_render
  (up : Py.dict string) (self : Dataset) (toks : list tok)
  (t0 t1 : datetime) :
  no_time_names up = true ->
  forallb plain_tok toks = true ->
  generate_filename up self (two_times t0 t1) (Some (template_of toks)) None
  = Ok (render toks t0 t1).
Proof.
  intros U P. unfold generate_filename.
  fold (fixed_fillings t0 t1).
  set (fill := Py.of_list _).
  assert (X : existsb (Py.mem (fixed_fillings t0 t1)) (Py.keys fill) = false).
  { destruct (existsb _ _) eqn:E; [|reflexivity].
    apply existsb_exists in E as (k & I & M).
    apply mem_keys, keys_fixed_fillings in M.
    unfold fill, Py.of_list in I. apply keys_update in I as [[]|I].
    unfold Py.keys in I. rewrite map_map in I. simpl in I.
    exfalso. exact (no_time_names_spec up k U I M). }
  rewrite X. unfold template_of.
  rewrite (format_pieces _ _ (val_of (fixed_fillings t0 t1 ++ fill)%list)).
  - rewrite fill_in_render.
    now rewrite (harmless_not_special _ (render_harmless _ _ _ P)).
  - apply good_pieces_of, P.
  - intros name I. rewrite hole_names_of in I.
    apply in_map_iff in I as ([e u] & <- & _). cbn [fst snd].
    unfold val_of.
    now rewrite (get_app_l _ _ _ _ (get_fixed_fillings t0 t1 e u)).
Qed.

(** *** The regular expression of a template *)

Definition digit_string (n : nat) : string :=
  String (ascii_of_nat (48 + n)) EmptyString.

(** The regex of a time placeholder with its group. *)
Definition group_regex (e : bool) (u : tunit) : string :=
  "(?P<" ++ ph_name e u ++ ">\d{" ++ digit_string (width u) ++ "})".

Definition lit_regex (c : ascii) : string :=
  if Ascii.eqb c "."%char then "\." else String c EmptyString.

(** The text between [^] and [$] of the regex of a template. *)
Fixpoint regex_body (toks : list tok) : string :=
  match toks with
  | [] => EmptyString
  | lit c :: toks' => lit_regex c ++ regex_body toks'
  | ph e u :: toks' => group_regex e u ++ regex_body toks'
  end.

(** The items that [re.compile] makes of a piece. *)
Definition items_of (t : tok) : list Re.item :=
  match t with
  | lit c => [Re.IAtom (Re.AChar c)]
  | ph e u =>
      (Re.IOpen (ph_name e u) :: repeat (Re.IAtom Re.ADigit) (width u)
       ++ [Re.IClose])%list
  end.

Definition pattern_of (toks : list tok) : Re.pattern :=
  (Re.IBol :: flat_map items_of toks ++ [Re.IEol])%list.

Lemma parse_lit (c : ascii) (st : Re.pstate) (rest : string) :
  plain c = true ->
  Re.parse Re.Normal st (lit_regex c ++ rest)
  = Re.parse Re.Normal (Re.new_atom (Re.AChar c) st) rest.
Proof.
  destruct c as [[] [] [] [] [] [] [] []]; intros H;
    try discriminate H; reflexivity.
Qed.

Definition after_group (name : string) (n : nat) (st : Re.pstate) : Re.pstate :=
  {| Re.out := (Re.IClose :: repeat (Re.IAtom Re.ADigit) n
                ++ Re.IOpen name :: Re.out (Re.flush st))%list;
     Re.pend := Re.PNone;
     Re.depth := Re.depth st;
     Re.names := name :: Re.names st |}.

Lemma parse_group (e : bool) (u : tunit) (st : Re.pstate) (rest : string) :
  existsb (String.eqb (ph_name e u)) (Re.names st) = false ->
  Re.parse Re.Normal st (group_regex e u ++ rest)
  = Re.parse Re.Normal (after_group (ph_name e u) (width u) st) rest.
Proof.
  intros F. destruct e, u; cbn in F |- *; rewrite F; reflexivity.
Qed.

Definition parse_tok (st : Re.pstate) (t : tok) : Re.pstate :=
  match t with
  | lit c => Re.new_atom (Re.AChar c) st
  | ph e u => after_group (ph_name e u) (width u) st
  end.

Definition ph_names (toks : list tok) : list string :=
  map (fun p => ph_name (fst p) (snd p)) (phs toks).

Lemma not_in_existsb (name : string) (l : list string) :
  ~ In name l -> existsb (String.eqb name) l = false.
Proof.
  intros N. destruct (existsb (String.eqb name) l) eqn:E; [|reflexivity].
  apply existsb_exists in E as (x & I & E). apply String.eqb_eq in E.
  subst x. contradiction.
Qed.

Lemma parse_body (toks : list tok) :
  forall (st : Re.pstate) (rest : string),
  forallb plain_tok toks = true ->
  NoDup (ph_names toks) ->
  (forall n, In n (ph_names toks) -> ~ In n (Re.names st)) ->
  Re.parse Re.Normal st (regex_body toks ++ rest)
  = Re.parse Re.Normal (fold_left parse_tok toks st) rest.
Proof.
  unfold ph_names.
  induction toks as [|[c|e u] toks IH]; intros st rest P D F;
    cbn [regex_body fold_left parse_tok].
  - reflexivity.
  - simpl in P. apply andb_prop in P as [Pc P].
    rewrite append_assoc, (parse_lit c st _ Pc). apply IH; assumption.
  - simpl in P, D, F. inversion D as [|? ? Dn D']; subst.
    rewrite append_assoc, parse_group.
    + apply IH; [exact P | exact D' |].
      intros n I [E|I']; [subst n; contradiction|].
      apply (F n); [right; exact I | exact I'].
    + apply not_in_existsb, F. now left.
Qed.

Lemma parse_tok_out (toks : list tok) (st : Re.pstate) :
  Re.out (Re.flush (fold_left parse_tok toks st))
  = (rev (flat_map items_of toks) ++ Re.out (Re.flush st))%list
  /\ Re.depth (fold_left parse_tok toks st) = Re.depth st.
Proof.
  revert st. induction toks as [|[c|e u] toks IH]; intros st;
    cbn [fold_left flat_map].
  - split; reflexivity.
  - destruct (IH (parse_tok st (lit c))) as [O Dp]. rewrite O, Dp.
    split; [|reflexivity].
    cbn [items_of app rev]. rewrite <- app_assoc. reflexivity.
  - destruct (IH (parse_tok st (ph e u))) as [O Dp]. rewrite O, Dp.
    split; [|reflexivity].
    cbn [items_of parse_tok after_group Re.flush Re.out Re.pend
         Re.flush_items app rev].
    rewrite !rev_app_distr. cbn [rev app].
    rewrite rev_repeat, <- !app_assoc. reflexivity.
Qed.

(** [re.compile] on the regex of a plain template whose placeholders are
    all different. *)
Lemma compile_template (toks : list tok) :
  forallb plain_tok toks = true ->
  NoDup (ph_names toks) ->
  Re.compile ("^" ++ regex_body toks ++ "$") = Ok (pattern_of toks).
Proof.
  intros P D. unfold Re.compile.
  change (Re.parse Re.Normal ?st ("^" ++ ?s))
    with (Re.parse Re.Normal (Re.emit Re.IBol st) s).
  rewrite (parse_body toks _ _ P D) by (intros n _ []).
  cbn [Re.parse].
  destruct (parse_tok_out toks
              (Re.emit Re.IBol
                 {| Re.out := []; Re.pend := Re.PNone; Re.depth := 0;
                    Re.names := [] |})) as [O Dp].
  cbn [Re.emit Re.depth Re.flush Re.out Re.pend Re.flush_items app] in *.
  rewrite Dp. cbn [Nat.eqb]. rewrite O.
  unfold pattern_of. cbn [rev app].
  rewrite rev_app_distr, rev_involutive. reflexivity.
Qed.

(** *** Compiling the template *)

Definition regex_piece_of (t : tok) : piece :=
  match t with
  | lit c => text (lit_regex c)
  | ph e u => hole (ph_name e u)
  end.

Lemma lit_replace (c : ascii) :
  plain c = true ->
  Py.replace "*" ".*?" (Py.replace "." "\." (String c EmptyString))
  = lit_regex c
  /\ no_braces (lit_regex c) = true.
Proof.
  destruct c as [[] [] [] [] [] [] [] []]; intros H;
    try discriminate H; split; reflexivity.
Qed.

Lemma replace_template (toks : list tok) :
  forallb plain_tok toks = true ->
  Py.replace "*" ".*?" (Py.replace "." "\." (template_of toks))
  = pieces_string (map regex_piece_of toks)
  /\ forallb good_piece (map regex_piece_of toks) = true.
Proof.
  unfold template_of.
  induction toks as [|[c|e u] toks IH]; intros P;
    cbn [map piece_of regex_piece_of pieces_string forallb good_piece].
  - split; reflexivity.
  - simpl in P. apply andb_prop in P as [Pc P].
    destruct (IH P) as [R G]. destruct (lit_replace c Pc) as [L B].
    rewrite !replace_char_app, R, L, B, G. split; reflexivity.
  - simpl in P. destruct (IH P) as [R G].
    rewrite !replace_char_app, R, G, ph_name_field.
    rewrite !replace_char_field by (try reflexivity; apply ph_name_field).
    split; reflexivity.
Qed.

Lemma hole_names_regex (toks : list tok) :
  hole_names (map regex_piece_of toks) = ph_names toks.
Proof.
  unfold ph_names.
  induction toks as [|[c|e u] toks IH]; simpl; [|exact IH|rewrite IH];
    reflexivity.
Qed.

Lemma count_nodup (l : list string) (p : string) :
  NoDup l -> (count_str l p <= 1)%nat.
Proof.
  unfold count_str. induction 1 as [|x l N D IH]; simpl; [lia|].
  destruct (String.eqb_spec p x) as [->|]; [|exact IH].
  simpl. replace (filter (String.eqb x) l) with (@nil string); [simpl; lia|].
  symmetry. clear IH D. induction l as [|y l IH]; [reflexivity|].
  simpl. destruct (String.eqb_spec x y) as [->|].
  - exfalso. apply N. now left.
  - apply IH. intros I. apply N. now right.
Qed.

Lemma no_duplicates_in (l l' : list string) :
  NoDup l -> filter (fun p => (1 <? count_str l p)%nat) l' = [].
Proof.
  intros D. induction l' as [|x l' IH]; [reflexivity|]. cbn [filter].
  pose proof (count_nodup l x D).
  destruct (Nat.ltb_spec 1 (count_str l x)); [lia | exact IH].
Qed.

Lemma get_update_other {V : Type} (o d : Py.dict V) (k : string) :
  ~ In k (Py.keys o) -> Py.get (Py.update d o) k = Py.get d k.
Proof.
  unfold Py.update. revert d. induction o as [|[k' v] o IH]; intros d N.
  - reflexivity.
  - simpl. rewrite IH.
    + apply get_set_other. intros E. apply N. now left.
    + intros I. apply N. now right.
Qed.

(** The instance keeps the regexes of the class, each with its group. *)
Definition completed_time_placeholder : Py.dict string :=
  _complete_placeholders_regex
    (map (fun kv => (fst kv, str_value (snd kv)))
         DatasetClass._time_placeholder).

Lemma get_completed (e : bool) (u : tunit) :
  Py.get completed_time_placeholder (ph_name e u) = Some (group_regex e u).
Proof. destruct e, u; reflexivity. Qed.

Lemma ph_name_time (e : bool) (u : tunit) : In (ph_name e u) time_names.
Proof. destruct e, u; vm_compute; tauto. Qed.

Lemma fill_in_regex (kw : Py.dict string) (toks : list tok) :
  (forall e u, Py.get kw (ph_name e u) = Some (group_regex e u)) ->
  fill_in (val_of kw) (map regex_piece_of toks) = regex_body toks.
Proof.
  intros H. induction toks as [|[c|e u] toks IH];
    cbn [map regex_piece_of fill_in regex_body].
  - reflexivity.
  - now rewrite IH.
  - rewrite IH. unfold val_of. now rewrite H.
Qed.

(** [_fill_placeholders_with_regexes] on a plain template. *)
Lemma fill_template
  (up : Py.dict string) (self : Dataset) (toks : list tok) :
  no_time_names up = true ->
  _time_placeholder self = completed_time_placeholder ->
  forallb plain_tok toks = true ->
  NoDup (ph_names toks) ->
  _fill_placeholders_with_regexes up self (template_of toks) None
  = Ok (pattern_of toks).
Proof.
  intros U T P D. unfold _fill_placeholders_with_regexes.
  destruct (replace_template toks P) as [R G]. rewrite R.
  rewrite (findall_pieces _ G), hole_names_regex.
  rewrite (no_duplicates_in _ _ D). cbn [mapM bind Py.of_list Py.update fold_left foldM].
  assert (K : forall e u,
             Py.get (Py.merge (Py.merge (_time_placeholder self) up) [])
                    (ph_name e u) = Some (group_regex e u)).
  { intros e u. unfold Py.merge. cbn [Py.update fold_left].
    rewrite get_update_other, T; [apply get_completed|].
    intros I. exact (no_time_names_spec up _ U I (ph_name_time e u)). }
  rewrite (format_pieces _ _ (val_of (Py.merge (Py.merge (_time_placeholder self) up) []))).
  - rewrite (fill_in_regex _ _ K). apply compile_template; assumption.
  - exact G.
  - intros name I. rewrite hole_names_regex in I. unfold ph_names in I.
    apply in_map_iff in I as ([e u] & <- & _). cbn [fst snd].
    unfold val_of. now rewrite K.
Qed.

(** *** Matching the rendered name *)

(** A txt of exactly [n] digits. *)
Definition fits (n : nat) (s : string) : bool :=
  (String.length s =? n)%nat && digits s.

(** What [groupdict()] holds for a rendered name. *)
Definition captures (toks : list tok) (t0 t1 : datetime) : Py.dict string :=
  map (fun p => (ph_name (fst p) (snd p), ph_text t0 t1 (fst p) (snd p)))
      (phs toks).

Lemma set_set {V : Type} (d : Py.dict V) (k : string) (a b : V) :
  Py.set (Py.set d k a) k b = Py.set d k b.
Proof.
  induction d as [|[k' v] d IH]; simpl.
  - now rewrite String.eqb_refl.
  - destruct (String.eqb_spec k k') as [->|N]; simpl.
    + now rewrite String.eqb_refl.
    + destruct (String.eqb_spec k k') as [E|_]; [contradiction|].
      now rewrite IH.
Qed.

Lemma set_fresh {V : Type} (d : Py.dict V) (k : string) (v : V) :
  ~ In k (Py.keys d) -> Py.set d k v = (d ++ [(k, v)])%list.
Proof.
  unfold Py.keys. induction d as [|[k' v'] d IH]; simpl; intros N.
  - reflexivity.
  - destruct (String.eqb_spec k k') as [->|_].
    + exfalso. apply N. now left.
    + rewrite IH; [reflexivity|]. intros I. apply N. now right.
Qed.

Lemma update_fresh {V : Type} (l d : Py.dict V) :
  NoDup (Py.keys l) ->
  (forall k, In k (Py.keys l) -> ~ In k (Py.keys d)) ->
  Py.update d l = (d ++ l)%list.
Proof.
  unfold Py.update, Py.keys. revert d.
  induction l as [|[k v] l IH]; intros d D F; cbn [fold_left map fst snd] in *.
  - now rewrite app_nil_r.
  - inversion D as [|? ? Dk D']; subst.
    rewrite set_fresh by (apply F; now left).
    rewrite IH; [now rewrite <- app_assoc| exact D' |].
    intros x I. rewrite map_app, in_app_iff. cbn [map fst In].
    intros [I'|[E|[]]].
    + apply (F x); [now right | exact I'].
    + subst x. contradiction.
Qed.

Lemma run_digits (name : string) (rest : Re.pattern) (s : string) :
  forall (txt acc : string) (g : Py.dict string) (b : bool),
  digits txt = true ->
  Re.run (repeat (Re.IAtom Re.ADigit) (String.length txt)
          ++ Re.IClose :: rest)%list
         (txt ++ s)
         {| Re.opened := [(name, acc)]; Re.groups := g; Re.at_start := b |}
  = Re.run rest s
      {| Re.opened := []; Re.groups := Py.set g name (acc ++ txt);
         Re.at_start :=
           match txt with EmptyString => b | _ => false end |}.
Proof.
  induction txt as [|c txt IH]; intros acc g b H.
  - cbn [String.length repeat app append Re.run Re.close_group Re.opened
         Re.groups Re.at_start].
    now rewrite append_nil_r.
  - unfold digits in H. cbn [Py.chars list_ascii_of_string forallb] in H.
    apply andb_prop in H as [Hc H].
    cbn [String.length repeat app append Re.run Re.atom_ok].
    rewrite Hc.
    unfold Re.consume. cbn [Re.opened Re.groups map fst snd].
    rewrite (IH _ _ _ H). unfold Fmt.push.
    rewrite append_assoc. cbn [append].
    destruct txt; reflexivity.
Qed.

Lemma run_group
  (name txt : string) (rest : Re.pattern) (s : string)
  (g : Py.dict string) (b : bool) :
  digits txt = true ->
  txt <> EmptyString ->
  Re.run (Re.IOpen name
          :: repeat (Re.IAtom Re.ADigit) (String.length txt)
          ++ Re.IClose :: rest)%list
         (txt ++ s)
         {| Re.opened := []; Re.groups := g; Re.at_start := b |}
  = Re.run rest s
      {| Re.opened := []; Re.groups := Py.set g name txt;
         Re.at_start := false |}.
Proof.
  intros H N.
  change (Re.run (Re.IOpen name :: ?p) ?x ?st)
    with (Re.run p x (Re.open_group name st)).
  unfold Re.open_group. cbn [Re.opened Re.groups Re.at_start].
  rewrite (run_digits name rest s txt EmptyString _ _ H).
  cbn [append]. rewrite set_set.
  destruct txt; [contradiction | reflexivity].
Qed.

Lemma fits_spec (n : nat) (s : string) :
  fits n s = true -> String.length s = n /\ digits s = true.
Proof.
  unfold fits. intros H. apply andb_prop in H as [L D].
  apply Nat.eqb_eq in L. now split.
Qed.

Lemma width_pos (u : tunit) : (0 < width u)%nat.
Proof. destruct u; simpl; lia. Qed.

Lemma run_template (toks : list tok) (t0 t1 : datetime) :
  (forall e u, In (e, u) (phs toks) ->
               fits (width u) (ph_text t0 t1 e u) = true) ->
  forall (g : Py.dict string) (b : bool),
  Re.run (flat_map items_of toks ++ [Re.IEol])%list (render toks t0 t1)
         {| Re.opened := []; Re.groups := g; Re.at_start := b |}
  = Some (Py.update g (captures toks t0 t1)).
Proof.
  unfold captures.
  induction toks as [|[c|e u] toks IH]; intros F g b.
  - reflexivity.
  - cbn [flat_map items_of app render Re.run Re.atom_ok phs].
    rewrite Ascii.eqb_refl. apply IH. exact F.
  - cbn [flat_map items_of render phs app map fst snd].
    destruct (fits_spec _ _ (F e u (or_introl eq_refl))) as [L D].
    rewrite <- L, <- !app_assoc. cbn [app].
    rewrite run_group.
    + rewrite IH; [reflexivity|]. intros e' u' I. apply F. now right.
    + exact D.
    + intros E. rewrite E in L. pose proof (width_pos u). simpl in L. lia.
Qed.

Lemma keys_captures (toks : list tok) (t0 t1 : datetime) :
  Py.keys (captures toks t0 t1) = ph_names toks.
Proof.
  unfold Py.keys, captures, ph_names. rewrite map_map. reflexivity.
Qed.

(** [parse_filename] on the rendered name of a plain template. *)
Lemma parse_rendered
  (up : Py.dict string) (self : Dataset) (toks : list tok)
  (t0 t1 : datetime) :
  no_time_names up = true ->
  _time_placeholder self = completed_time_placeholder ->
  forallb plain_tok toks = true ->
  NoDup (ph_names toks) ->
  (forall e u, In (e, u) (phs toks) ->
               fits (width u) (ph_text t0 t1 e u) = true) ->
  parse_filename up self (render toks t0 t1)
                 (template_string (template_of toks))
  = Ok (captures toks t0 t1).
Proof.
  intros U T P D F. unfold parse_filename.
  rewrite (fill_template up self toks U T P D). cbn [bind].
  unfold Re.match_, pattern_of. cbn [Re.run Re.at_start].
  rewrite (run_template toks t0 t1 F).
  rewrite update_fresh.
  - reflexivity.
  - now rewrite keys_captures.
  - intros k _ [].
Qed.

(** *** Decimal texts *)

(** The text [s] has [w] digits and [int(s)] is [v]. *)
Definition reads_back (w : nat) (s : string) (v : Z) : bool :=
  fits w s && eqb (Py.int s) (Ok v).

Lemma reads_back_spec (w : nat) (s : string) (v : Z) :
  reads_back w s v = true -> fits w s = true /\ Py.int s = Ok v.
Proof.
  unfold reads_back. intros H. apply andb_prop in H as [F E].
  apply eqb_eq in E. now split.
Qed.

Lemma zero_pad_2 (v : Z) :
  0 <= v <= 99 -> reads_back 2 (Py.zero_pad 2 v) v = true.
Proof.
  intros H.
  apply (all_from_spec 100 0 (fun v => reads_back 2 (Py.zero_pad 2 v) v));
    [vm_compute; reflexivity | lia].
Qed.

Lemma zero_pad_3 (v : Z) :
  0 <= v <= 999 -> reads_back 3 (Py.zero_pad 3 v) v = true.
Proof.
  intros H.
  apply (all_from_spec 1000 0 (fun v => reads_back 3 (Py.zero_pad 3 v) v));
    [vm_compute; reflexivity | lia].
Qed.

Lemma str_of_year (v : Z) :
  1000 <= v <= 9999 ->
  reads_back 4 (Py.str_of_int v) v = true
  /\ reads_back 2 (Py.last2 (Py.str_of_int v)) (v mod 100) = true.
Proof.
  intros H. apply andb_prop.
  apply (all_from_spec (Z.to_nat 9000) 1000
           (fun v => reads_back 4 (Py.str_of_int v) v
                     && reads_back 2 (Py.last2 (Py.str_of_int v)) (v mod 100)));
    [vm_compute; reflexivity | lia].
Qed.

(** *** The dataset of a plain template *)

Lemma filter_all {A : Type} (f : A -> bool) (l : list A) :
  (forall x, In x l -> f x = true) -> filter f l = l.
Proof.
  induction l as [|x l IH]; intros H; [reflexivity|]. simpl.
  rewrite (H x (or_introl eq_refl)), IH; [reflexivity|].
  intros y I. apply H. now right.
Qed.

Lemma filter_none {A : Type} (f : A -> bool) (l : list A) :
  (forall x, In x l -> f x = false) -> filter f l = [].
Proof.
  induction l as [|x l IH]; intros H; [reflexivity|]. simpl.
  rewrite (H x (or_introl eq_refl)). apply IH.
  intros y I. apply H. now right.
Qed.

Lemma dedup_nodup (l : list string) : NoDup l -> dedup l = l.
Proof.
  induction 1 as [|x l N D IH]; [reflexivity|]. simpl. rewrite IH.
  rewrite filter_all; [reflexivity|].
  intros y I. apply negb_true_iff.
  destruct (String.eqb_spec x y) as [->|]; [contradiction | reflexivity].
Qed.

Lemma findall_template (toks : list tok) :
  forallb plain_tok toks = true ->
  Fmt.findall (template_of toks) = ph_names toks.
Proof.
  intros P. unfold template_of.
  rewrite (findall_pieces _ (good_pieces_of toks P)). apply hole_names_of.
Qed.

Lemma mem_completed (n : string) (toks : list tok) :
  In n (ph_names toks) -> Py.mem completed_time_placeholder n = true.
Proof.
  unfold ph_names. intros I. apply in_map_iff in I as ([e u] & <- & _).
  unfold Py.mem. cbn [fst snd]. now rewrite get_completed.
Qed.

(** The fields of a dataset that parsing and rendering read. *)
Definition plain_dataset (toks : list tok) (self : Dataset) : Prop :=
  path self = template_of toks
  /\ _path_regex self = pattern_of toks
  /\ _time_placeholder self = completed_time_placeholder.

Lemma set_path_plain
  (up : Py.dict string) (self : Dataset) (toks : list tok) :
  no_time_names up = true ->
  _time_placeholder self = completed_time_placeholder ->
  forallb plain_tok toks = true ->
  NoDup (ph_names toks) ->
  exists self',
    set_path up self (template_of toks) = (up, Ok self')
    /\ plain_dataset toks self'.
Proof.
  intros U T P D. unfold set_path.
  destruct (match first_special (Path.dirname (template_of toks)) with
            | Some i => _
            | None => _
            end) as [[[base_dir sub_dir] chunks] resolution].
  rewrite (findall_template toks P), (dedup_nodup _ D).
  cbn [_time_placeholder]. rewrite T.
  rewrite (filter_none _ (ph_names toks)).
  2:{ intros n I. now rewrite (mem_completed n toks I). }
  unfold set_placeholders. cbn [map]. unfold _complete_placeholders_regex.
  cbn [map Py.of_list Py.update fold_left path].
  rewrite fill_template; [| exact U | reflexivity | exact P | exact D].
  cbn [bind with_path_regex path _time_placeholder _path_regex
       _path_placeholders name _base_dir _sub_dir _sub_dir_chunks
       _sub_dir_time_resolution single_file handler info_via exclude
       time_coverage _end_time_superior].
  eexists. split; [reflexivity|].
  unfold plain_dataset. cbn [path _path_regex _time_placeholder].
  repeat split.
Qed.

Lemma init_plain
  (up : Py.dict string) (toks : list tok) (h : option Handler) (nm : string)
  (ex : option (list IntervalTree.interval)) :
  no_time_names up = true ->
  forallb plain_tok toks = true ->
  NoDup (ph_names toks) ->
  exists self,
    init up (template_of toks) h nm None no_coverage ex None = (up, Ok self)
    /\ plain_dataset toks self.
Proof.
  intros U P D. unfold init.
  match goal with
  | |- context [set_path up ?s _] =>
      destruct (set_path_plain up s toks U eq_refl P D) as (s1 & E & Q)
  end.
  rewrite E. destruct Q as (Qp & Qr & Qt).
  cbn [bind]. unfold set_time_coverage.
  destruct (single_file s1); cbn [bind]; eexists; (split; [reflexivity|]);
    unfold plain_dataset; cbn [path _path_regex _time_placeholder];
    repeat split; assumption.
Qed.

(** *** The calendar *)

(** The last step of [_ord2ymd]: month and day of the day [n] (from 0) of
    a year. *)
Definition month_day (leapyear : bool) (n : Z) : Z * Z :=
  let month := Z.shiftr (n + 50) 5 in
  let preceding :=
    Cal.DAYS_BEFORE_MONTH month
    + (if (2 <? month) && leapyear then 1 else 0) in
  if n <? preceding then
    let month := month - 1 in
    let preceding :=
      preceding
      - (Cal.DAYS_IN_MONTH month
         + (if (month =? 2) && leapyear then 1 else 0)) in
    (month, n - preceding + 1)
  else (month, n - preceding + 1).

Definition month_day_ok (leapyear : bool) (n : Z) : bool :=
  let '(m, d) := month_day leapyear n in
  (1 <=? m) && (m <=? 12) && (1 <=? d)
  && (d <=? (if (m =? 2) && leapyear then 29 else Cal.DAYS_IN_MONTH m))
  && (Cal.DAYS_BEFORE_MONTH m + (if (2 <? m) && leapyear then 1 else 0) + d
      =? n + 1).

Lemma month_day_spec (leapyear : bool) (n : Z) :
  0 <= n <= 364 -> month_day_ok leapyear n = true.
Proof.
  intros H.
  apply (all_from_spec 365 0 (month_day_ok leapyear)); [|lia].
  destruct leapyear; vm_compute; reflexivity.
Qed.

Lemma days_before_year_eq (q a b c : Z) :
  0 <= q -> 0 <= a <= 3 -> 0 <= b <= 24 -> 0 <= c <= 3 ->
  Cal.days_before_year (400 * q + 100 * a + 4 * b + c + 1)
  = 146097 * q + 36524 * a + 1461 * b + 365 * c.
Proof.
  intros Hq Ha Hb Hc. unfold Cal.days_before_year. cbv zeta.
  replace (400 * q + 100 * a + 4 * b + c + 1 - 1)
    with (400 * q + 100 * a + 4 * b + c) by lia.
  assert (E4 : (400 * q + 100 * a + 4 * b + c) / 4 = 100 * q + 25 * a + b).
  { symmetry. apply (Z.div_unique _ 4 _ c); lia. }
  assert (E100 : (400 * q + 100 * a + 4 * b + c) / 100 = 4 * q + a).
  { symmetry. apply (Z.div_unique _ 100 _ (4 * b + c)); lia. }
  assert (E400 : (400 * q + 100 * a + 4 * b + c) / 400 = q).
  { symmetry. apply (Z.div_unique _ 400 _ (100 * a + 4 * b + c)); lia. }
  rewrite E4, E100, E400. lia.
Qed.

Lemma is_leap_eq (q a b c : Z) :
  0 <= q -> 0 <= a <= 3 -> 0 <= b <= 24 -> 0 <= c <= 3 ->
  Cal.is_leap (400 * q + 100 * a + 4 * b + c + 1)
  = (c =? 3) && (negb (b =? 24) || (a =? 3)).
Proof.
  intros Hq Ha Hb Hc. unfold Cal.is_leap.
  set (y := 400 * q + 100 * a + 4 * b + c + 1).
  assert (M4 : y mod 4 = (c + 1) mod 4).
  { unfold y. replace (400 * q + 100 * a + 4 * b + c + 1)
      with (c + 1 + (100 * q + 25 * a + b) * 4) by lia.
    apply Z.mod_add. lia. }
  assert (M100 : y mod 100 = (4 * b + c + 1) mod 100).
  { unfold y. replace (400 * q + 100 * a + 4 * b + c + 1)
      with (4 * b + c + 1 + (4 * q + a) * 100) by lia.
    apply Z.mod_add. lia. }
  assert (M400 : y mod 400 = (100 * a + 4 * b + c + 1) mod 400).
  { unfold y. replace (400 * q + 100 * a + 4 * b + c + 1)
      with (100 * a + 4 * b + c + 1 + q * 400) by lia.
    apply Z.mod_add. lia. }
  rewrite M4, M100, M400.
  destruct (Z.eqb_spec c 3) as [->|Nc].
  - replace ((3 + 1) mod 4) with 0 by reflexivity. cbn [Z.eqb andb].
    destruct (Z.eqb_spec b 24) as [->|Nb].
    + replace ((4 * 24 + 3 + 1) mod 100) with 0 by reflexivity.
      cbn [Z.eqb negb orb].
      destruct (Z.eqb_spec a 3) as [->|Na]; [reflexivity|].
      replace (100 * a + 4 * 24 + 3 + 1) with (100 * (a + 1)) by lia.
      assert (X : (100 * (a + 1)) mod 400 <> 0).
      { rewrite Z.mod_small by lia. lia. }
      now destruct (Z.eqb_spec ((100 * (a + 1)) mod 400) 0).
    + assert (X : (4 * b + 3 + 1) mod 100 <> 0).
      { rewrite Z.mod_small by lia. lia. }
      now destruct (Z.eqb_spec ((4 * b + 3 + 1) mod 100) 0).
  - assert (X : (c + 1) mod 4 <> 0).
    { rewrite Z.mod_small by lia. lia. }
    now destruct (Z.eqb_spec ((c + 1) mod 4) 0).
Qed.

Lemma ord2ymd_split (n0 : Z) :
  Cal.ord2ymd n0 =
  let n := n0 - 1 in
  let q := n / 146097 in
  let a := (n mod 146097) / 36524 in
  let b := ((n mod 146097) mod 36524) / 1461 in
  let c := (((n mod 146097) mod 36524) mod 1461) / 365 in
  let r := (((n mod 146097) mod 36524) mod 1461) mod 365 in
  let year := q * 400 + 1 + (a * 100 + b * 4 + c) in
  if (c =? 4) || (a =? 4) then (year - 1, 12, 31)
  else
    let leapyear := (c =? 3) && (negb (b =? 24) || (a =? 3)) in
    (year, fst (month_day leapyear r), snd (month_day leapyear r)).
Proof.
  unfold Cal.ord2ymd, month_day, Cal.DI400Y, Cal.DI100Y, Cal.DI4Y.
  cbv zeta.
  destruct (_ || _); [reflexivity|].
  destruct (_ <? _); reflexivity.
Qed.

(** [_ord2ymd] gives a date of the calendar, and [_ymd2ord] leads back. *)
Lemma ord2ymd_ok (n0 : Z) :
  1 <= n0 <= Cal.MAXORDINAL ->
  exists y m d,
    Cal.ord2ymd n0 = (y, m, d)
    /\ Cal.valid_date y m d = true
    /\ Cal.ymd2ord y m d = n0.
Proof.
  unfold Cal.MAXORDINAL. intros H. rewrite ord2ymd_split. cbv zeta.
  set (n := n0 - 1).
  pose proof (Z.div_mod n 146097 ltac:(lia)) as E1.
  pose proof (Z.mod_pos_bound n 146097 ltac:(lia)) as B1.
  set (q := n / 146097) in *. set (r1 := n mod 146097) in *.
  pose proof (Z.div_mod r1 36524 ltac:(lia)) as E2.
  pose proof (Z.mod_pos_bound r1 36524 ltac:(lia)) as B2.
  set (a := r1 / 36524) in *. set (r2 := r1 mod 36524) in *.
  pose proof (Z.div_mod r2 1461 ltac:(lia)) as E3.
  pose proof (Z.mod_pos_bound r2 1461 ltac:(lia)) as B3.
  set (b := r2 / 1461) in *. set (r3 := r2 mod 1461) in *.
  pose proof (Z.div_mod r3 365 ltac:(lia)) as E4.
  pose proof (Z.mod_pos_bound r3 365 ltac:(lia)) as B4.
  set (c := r3 / 365) in *. set (r := r3 mod 365) in *.
  assert (Hq : 0 <= q <= 24) by (unfold n in *; lia).
  assert (Ha : 0 <= a <= 4) by lia.
  assert (Hb : 0 <= b <= 24) by lia.
  assert (Hc : 0 <= c <= 4) by lia.
  assert (En : n0 = 146097 * q + 36524 * a + 1461 * b + 365 * c + r + 1)
    by (unfold n in *; lia).
  clearbody q a b c r r1 r2 r3 n.
  unfold Cal.valid_date, Cal.ymd2ord, Cal.days_in_month,
    Cal.days_before_month, Cal.MINYEAR, Cal.MAXYEAR.
  destruct (Z.eqb_spec c 4) as [C4|C4]; cbn [orb].
  - (* the last day of a leap year *)
    exists (q * 400 + 1 + (a * 100 + b * 4 + c) - 1), 12, 31.
    split; [reflexivity|].
    replace (q * 400 + 1 + (a * 100 + b * 4 + c) - 1)
      with (400 * q + 100 * a + 4 * b + 3 + 1) by lia.
    rewrite days_before_year_eq, is_leap_eq by lia.
    assert (Nb : b <> 24) by lia.
    destruct (Z.eqb_spec b 24) as [|_]; [contradiction|].
    change (3 =? 3) with true. change (12 =? 2) with false.
    change (2 <? 12) with true.
    cbn [andb orb negb Cal.DAYS_IN_MONTH Cal.DAYS_BEFORE_MONTH].
    split; [|lia].
    repeat (apply andb_true_intro; split); try reflexivity;
      apply Z.leb_le; lia.
  - destruct (Z.eqb_spec a 4) as [A4|A4].
    + exists (q * 400 + 1 + (a * 100 + b * 4 + c) - 1), 12, 31.
      split; [reflexivity|].
      assert (b = 0 /\ c = 0 /\ r = 0) as (-> & -> & ->) by lia. subst a.
      replace (q * 400 + 1 + (4 * 100 + 0 * 4 + 0) - 1)
        with (400 * q + 100 * 3 + 4 * 24 + 3 + 1) by lia.
      rewrite days_before_year_eq, is_leap_eq by lia.
      change (3 =? 3) with true. change (24 =? 24) with true.
      change (12 =? 2) with false. change (2 <? 12) with true.
      cbn [andb orb negb Cal.DAYS_IN_MONTH Cal.DAYS_BEFORE_MONTH].
      split; [|lia].
      repeat (apply andb_true_intro; split); try reflexivity;
        apply Z.leb_le; lia.
    + assert (Hr : 0 <= r <= 364) by lia.
      pose proof (month_day_spec
                    ((c =? 3) && (negb (b =? 24) || (a =? 3))) r Hr) as M.
      unfold month_day_ok in M.
      destruct (month_day _ r) as [m d]. cbn [fst snd].
      exists (q * 400 + 1 + (a * 100 + b * 4 + c)), m, d.
      split; [reflexivity|].
      replace (q * 400 + 1 + (a * 100 + b * 4 + c))
        with (400 * q + 100 * a + 4 * b + c + 1) by lia.
      rewrite days_before_year_eq, is_leap_eq by lia.
      apply andb_prop in M as [M M5]. apply andb_prop in M as [M M4].
      apply andb_prop in M as [M M3]. apply andb_prop in M as [M1 M2].
      apply Z.eqb_eq in M5.
      split; [|lia].
      rewrite M1, M2, M3, M4.
      assert (Y1 : (1 <=? 400 * q + 100 * a + 4 * b + c + 1) = true)
        by (apply Z.leb_le; lia).
      assert (Y2 : (400 * q + 100 * a + 4 * b + c + 1 <=? 9999) = true).
      { apply Z.leb_le. lia. }
      now rewrite Y1, Y2.
Qed.

(** *** The fields of a datetime *)

Lemma toordinal_range (t : datetime) :
  DT.in_range t = true -> 1 <= DT.toordinal t <= Cal.MAXORDINAL.
Proof.
  unfold DT.in_range, DT.min, DT.max, DT.toordinal, Cal.MAXORDINAL.
  change DT.US_PER_DAY with 86400000000.
  intros H. apply andb_prop in H as [L U].
  apply Z.leb_le in L. apply Z.leb_le in U.
  Z.div_mod_to_equations. lia.
Qed.

Lemma date_of (t : datetime) :
  DT.in_range t = true ->
  Cal.valid_date (DT.year t) (DT.month t) (DT.day t) = true
  /\ Cal.ymd2ord (DT.year t) (DT.month t) (DT.day t) = DT.toordinal t.
Proof.
  intros R. unfold DT.year, DT.month, DT.day.
  destruct (ord2ymd_ok _ (toordinal_range t R)) as (y & m & d & E & V & O).
  rewrite E. cbn [fst snd]. now split.
Qed.

Lemma time_bounds (t : datetime) :
  0 <= DT.hour t <= 23 /\ 0 <= DT.minute t <= 59
  /\ 0 <= DT.second t <= 59 /\ 0 <= DT.microsecond t <= 999999.
Proof.
  unfold DT.hour, DT.minute, DT.second, DT.microsecond.
  change DT.US_PER_DAY with 86400000000.
  change DT.US_PER_HOUR with 3600000000.
  change DT.US_PER_MINUTE with 60000000.
  change DT.US_PER_SECOND with 1000000.
  Z.div_mod_to_equations. lia.
Qed.

(** A datetime is its date and its time of day. *)
Lemma time_of_day (t : datetime) :
  t = (DT.toordinal t - 1) * DT.US_PER_DAY
      + DT.hour t * DT.US_PER_HOUR + DT.minute t * DT.US_PER_MINUTE
      + DT.second t * DT.US_PER_SECOND + DT.microsecond t.
Proof.
  unfold DT.toordinal, DT.hour, DT.minute, DT.second, DT.microsecond.
  change DT.US_PER_DAY with 86400000000.
  change DT.US_PER_HOUR with 3600000000.
  change DT.US_PER_MINUTE with 60000000.
  change DT.US_PER_SECOND with 1000000.
  Z.div_mod_to_equations. lia.
Qed.

Lemma date_bounds (t : datetime) :
  DT.in_range t = true ->
  1 <= DT.year t <= 9999 /\ 1 <= DT.month t <= 12 /\ 1 <= DT.day t <= 31.
Proof.
  intros R. destruct (date_of t R) as [V _].
  unfold Cal.valid_date, Cal.MINYEAR, Cal.MAXYEAR in V.
  repeat (apply andb_prop in V as [V ?]).
  repeat match goal with
         | H : (_ <=? _) = true |- _ => apply Z.leb_le in H
         end.
  assert (Cal.days_in_month (DT.year t) (DT.month t) <= 31).
  { unfold Cal.days_in_month.
    destruct (_ && _); [lia|].
    assert (C : DT.month t = 1 \/ DT.month t = 2 \/ DT.month t = 3
                \/ DT.month t = 4 \/ DT.month t = 5 \/ DT.month t = 6
                \/ DT.month t = 7 \/ DT.month t = 8 \/ DT.month t = 9
                \/ DT.month t = 10 \/ DT.month t = 11 \/ DT.month t = 12)
      by lia.
    repeat (destruct C as [->|C]; [simpl; lia|]). rewrite C. simpl. lia. }
  lia.
Qed.

(** [datetime(...)] on the date of [t] and a time of day. *)
Lemma make_date (t : datetime) (H M S us : Z) :
  DT.in_range t = true ->
  0 <= H <= 23 -> 0 <= M <= 59 -> 0 <= S <= 59 -> 0 <= us <= 999999 ->
  DT.make (DT.year t) (DT.month t) (DT.day t) H M S us
  = Ok ((DT.toordinal t - 1) * DT.US_PER_DAY
        + H * DT.US_PER_HOUR + M * DT.US_PER_MINUTE
        + S * DT.US_PER_SECOND + us).
Proof.
  intros R HH HM HS Hus. unfold DT.make.
  destruct (date_of t R) as [V O]. rewrite V, O.
  replace (0 <=? H) with true by (symmetry; apply Z.leb_le; lia).
  replace (H <=? 23) with true by (symmetry; apply Z.leb_le; lia).
  replace (0 <=? M) with true by (symmetry; apply Z.leb_le; lia).
  replace (M <=? 59) with true by (symmetry; apply Z.leb_le; lia).
  replace (0 <=? S) with true by (symmetry; apply Z.leb_le; lia).
  replace (S <=? 59) with true by (symmetry; apply Z.leb_le; lia).
  replace (0 <=? us) with true by (symmetry; apply Z.leb_le; lia).
  replace (us <=? 999999) with true by (symmetry; apply Z.leb_le; lia).
  reflexivity.
Qed.

(** The day of the year, from 1. *)
Definition doy (t : datetime) : Z :=
  DT.toordinal t - Cal.days_before_year (DT.year t).

Lemma days_before_month_bounds (y m : Z) :
  1 <= m <= 12 -> 0 <= Cal.days_before_month y m <= 335.
Proof.
  intros H. unfold Cal.days_before_month.
  assert (C : m = 1 \/ m = 2 \/ m = 3 \/ m = 4 \/ m = 5 \/ m = 6
              \/ m = 7 \/ m = 8 \/ m = 9 \/ m = 10 \/ m = 11 \/ m = 12)
    by lia.
  destruct (Cal.is_leap y);
    repeat (destruct C as [->|C]; [simpl; lia|]); rewrite C; simpl; lia.
Qed.

Lemma doy_bounds (t : datetime) :
  DT.in_range t = true -> 1 <= doy t <= 366.
Proof.
  intros R. destruct (date_of t R) as [_ O].
  destruct (date_bounds t R) as (_ & Bm & Bd).
  pose proof (days_before_month_bounds (DT.year t) (DT.month t) Bm).
  unfold doy. rewrite <- O. unfold Cal.ymd2ord. lia.
Qed.

Lemma make_january_first (y : Z) :
  1 <= y <= 9999 ->
  DT.make y 1 1 0 0 0 0 = Ok (Cal.days_before_year y * DT.US_PER_DAY).
Proof.
  intros By.
  unfold DT.make, Cal.valid_date, Cal.MINYEAR, Cal.MAXYEAR, Cal.ymd2ord.
  replace (1 <=? y) with true by (symmetry; apply Z.leb_le; lia).
  replace (y <=? 9999) with true by (symmetry; apply Z.leb_le; lia).
  unfold Cal.days_in_month, Cal.days_before_month.
  change (1 =? 2) with false. change (2 <? 1) with false.
  cbn [Z.leb Z.compare Pos.compare Pos.compare_cont andb
       Cal.DAYS_IN_MONTH Cal.DAYS_BEFORE_MONTH].
  f_equal. ring.
Qed.

Lemma january_first (t : datetime) :
  DT.in_range t = true ->
  DT.make (DT.year t) 1 1 0 0 0 0
  = Ok (Cal.days_before_year (DT.year t) * DT.US_PER_DAY).
Proof.
  intros R. destruct (date_bounds t R) as (By & _ & _).
  apply make_january_first, By.
Qed.

Lemma unit_text_doy (t : datetime) :
  DT.in_range t = true ->
  unit_text Doy t = Py.zero_pad 3 (doy t).
Proof.
  intros R. unfold unit_text. rewrite (january_first t R).
  f_equal. unfold DT.td_days, DT.diff, doy, DT.toordinal.
  rewrite <- Z.add_opp_r, <- Z.mul_opp_l, Z.div_add by discriminate.
  lia.
Qed.

(** *** What a placeholder shows of a time *)

(** The number that a placeholder shows. *)
Definition uval (u : tunit) (t : datetime) : Z :=
  match u with
  | Year => DT.year t
  | Year2 => DT.year t mod 100
  | Month => DT.month t
  | Day => DT.day t
  | Doy => doy t
  | Hour => DT.hour t
  | Minute => DT.minute t
  | Second => DT.second t
  | Millisecond => DT.microsecond t / 1000
  end.

(** The text of a placeholder has the width of its regex, and [int] reads
    its number back. *)
Lemma unit_text_reads (u : tunit) (t : datetime) :
  DT.in_range t = true ->
  1000 <= DT.year t ->
  reads_back (width u) (unit_text u t) (uval u t) = true.
Proof.
  intros R Y.
  destruct (date_bounds t R) as (By & Bm & Bd).
  destruct (time_bounds t) as (BH & BM & BS & Bus).
  pose proof (doy_bounds t R) as Bdoy.
  destruct u; try rewrite (unit_text_doy t R); unfold unit_text, uval, width.
  - apply str_of_year. lia.
  - apply str_of_year. lia.
  - apply zero_pad_2. lia.
  - apply zero_pad_2. lia.
  - apply zero_pad_3. lia.
  - apply zero_pad_2. lia.
  - apply zero_pad_2. lia.
  - apply zero_pad_2. lia.
  - apply zero_pad_3. Z.div_mod_to_equations. lia.
Qed.

Lemma ph_text_fits (toks : list tok) (t0 t1 : datetime) :
  DT.in_range t0 = true -> DT.in_range t1 = true ->
  1000 <= DT.year t0 -> 1000 <= DT.year t1 ->
  forall e u, In (e, u) (phs toks) ->
              fits (width u) (ph_text t0 t1 e u) = true.
Proof.
  intros R0 R1 Y0 Y1 e u _. unfold ph_text.
  destruct e;
    [apply (reads_back_spec _ _ (uval u t1))
    |apply (reads_back_spec _ _ (uval u t0))];
    apply unit_text_reads; assumption.
Qed.

(** *** Dictionaries by their lookups *)

Lemma get_set {V : Type} (d : Py.dict V) (k k' : string) (v : V) :
  Py.get (Py.set d k v) k' = if String.eqb k' k then Some v else Py.get d k'.
Proof.
  destruct (String.eqb_spec k' k) as [->|N].
  - apply get_set_same.
  - apply get_set_other. congruence.
Qed.

Lemma get_absent {V : Type} (d : Py.dict V) (k : string) :
  ~ In k (Py.keys d) -> Py.get d k = None.
Proof.
  intros N. pose proof (mem_keys d k) as M. unfold Py.mem in M.
  destruct (Py.get d k); [|reflexivity].
  exfalso. apply N, M. reflexivity.
Qed.

Lemma get_present {V : Type} (d : Py.dict V) (k : string) :
  In k (Py.keys d) -> Py.get d k <> None.
Proof.
  intros I. apply mem_keys in I. unfold Py.mem in I.
  destruct (Py.get d k); [discriminate | discriminate I].
Qed.

Lemma get_remove {V : Type} (d : Py.dict V) (k k' : string) :
  NoDup (Py.keys d) ->
  Py.get (Py.remove d k) k' = if String.eqb k' k then None else Py.get d k'.
Proof.
  unfold Py.keys. induction d as [|[k0 v0] d IH]; cbn [map fst Py.remove Py.get];
    intros D.
  - now destruct (String.eqb k' k).
  - inversion D as [|? ? N D']; subst.
    destruct (String.eqb_spec k k0) as [E|Nk].
    + subst k0. destruct (String.eqb_spec k' k) as [E'|N']; [|reflexivity].
      subst k'. apply get_absent, N.
    + cbn [Py.get]. destruct (String.eqb_spec k' k0) as [E'|N'].
      * subst k'. destruct (String.eqb_spec k0 k); [congruence | reflexivity].
      * apply IH, D'.
Qed.

Lemma keys_remove {V : Type} (d : Py.dict V) (k x : string) :
  In x (Py.keys (Py.remove d k)) -> In x (Py.keys d).
Proof.
  unfold Py.keys. induction d as [|[k0 v0] d IH]; cbn [map fst Py.remove];
    [trivial|].
  destruct (String.eqb k k0); cbn [map fst In].
  - now right.
  - intros [E|I]; [now left | right; apply IH, I].
Qed.

Lemma nodup_remove {V : Type} (d : Py.dict V) (k : string) :
  NoDup (Py.keys d) -> NoDup (Py.keys (Py.remove d k)).
Proof.
  induction d as [|[k0 v0] d IH]; cbn [Py.keys map fst Py.remove]; intros D.
  - constructor.
  - inversion D as [|? ? N D']; subst.
    destruct (String.eqb k k0); [exact D'|].
    cbn [map fst]. constructor; [|apply IH, D'].
    intros I. apply N. exact (keys_remove d k k0 I).
Qed.

Lemma nodup_set {V : Type} (d : Py.dict V) (k : string) (v : V) :
  NoDup (Py.keys d) -> NoDup (Py.keys (Py.set d k v)).
Proof.
  induction d as [|[k0 v0] d IH]; cbn [Py.keys map fst Py.set]; intros D.
  - constructor; [intros [] | constructor].
  - inversion D as [|? ? N D']; subst.
    destruct (String.eqb_spec k k0) as [->|Nk]; cbn [map fst].
    + constructor; assumption.
    + constructor; [|apply IH, D'].
      intros I. destruct (keys_set d k v k0 I) as [E|I']; [congruence|].
      apply N, I'.
Qed.

(** The dictionary [d] has no key twice, and [f] is its lookup. *)
Definition reads {V : Type} (d : Py.dict V) (f : string -> option V) : Prop :=
  NoDup (Py.keys d) /\ forall k, Py.get d k = f k.

Lemma reads_set {V : Type} (d : Py.dict V) (f : string -> option V)
  (k : string) (v : V) :
  reads d f ->
  reads (Py.set d k v) (fun k' => if String.eqb k' k then Some v else f k').
Proof.
  intros [D G]. split; [apply nodup_set, D|].
  intros k'. now rewrite get_set, G.
Qed.

Lemma reads_remove {V : Type} (d : Py.dict V) (f : string -> option V)
  (k : string) :
  reads d f ->
  reads (Py.remove d k) (fun k' => if String.eqb k' k then None else f k').
Proof.
  intros [D G]. split; [apply nodup_remove, D|].
  intros k'. now rewrite (get_remove d k k' D), G.
Qed.

Lemma reads_ext {V : Type} (d : Py.dict V) (f g : string -> option V) :
  reads d f -> (forall k, f k = g k) -> reads d g.
Proof. intros [D G] E. split; [exact D|]. intros k. now rewrite G. Qed.

Lemma get_update {V : Type} (o d : Py.dict V) (k : string) :
  NoDup (Py.keys o) ->
  Py.get (Py.update d o) k
  = match Py.get o k with Some v => Some v | None => Py.get d k end.
Proof.
  unfold Py.update, Py.keys. revert d.
  induction o as [|[k0 v0] o IH]; intros d D; cbn [fold_left fst snd Py.get].
  - reflexivity.
  - inversion D as [|? ? N D']; subst. rewrite (IH _ D'), get_set.
    destruct (String.eqb_spec k k0) as [->|Nk]; [|reflexivity].
    now rewrite (get_absent o k0 N).
Qed.

Lemma nodup_update {V : Type} (o d : Py.dict V) :
  NoDup (Py.keys d) -> NoDup (Py.keys (Py.update d o)).
Proof.
  unfold Py.update. revert d.
  induction o as [|[k0 v0] o IH]; intros d D; cbn [fold_left]; [exact D|].
  apply IH, nodup_set, D.
Qed.

Lemma reads_merge {V : Type} (a b : Py.dict V) (f g : string -> option V) :
  reads a f -> reads b g ->
  reads (Py.merge a b)
        (fun k => match g k with Some v => Some v | None => f k end).
Proof.
  intros [Da Ga] [Db Gb]. split; [apply nodup_update, Da|].
  intros k. unfold Py.merge. now rewrite (get_update b a k Db), Ga, Gb.
Qed.

(** *** Standardising the arguments of [datetime] *)

Definition unit_of_name (k : string) : option tunit :=
  if String.eqb k "year" then Some Year
  else if String.eqb k "year2" then Some Year2
  else if String.eqb k "month" then Some Month
  else if String.eqb k "day" then Some Day
  else if String.eqb k "doy" then Some Doy
  else if String.eqb k "hour" then Some Hour
  else if String.eqb k "minute" then Some Minute
  else if String.eqb k "second" then Some Second
  else if String.eqb k "millisecond" then Some Millisecond
  else None.

(** The captures of the placeholders that [shown] holds, as numbers. *)
Definition raw (shown : tunit -> bool) (t : datetime) (k : string)
  : option Z :=
  match unit_of_name k with
  | Some u => if shown u then Some (uval u t) else None
  | None => None
  end.

Definition when (b : bool) (v : Z) : option Z :=
  if b then Some v else None.

(** The keywords of [datetime] that come out of them. *)
Definition cooked (shown : tunit -> bool) (t : datetime) (k : string)
  : option Z :=
  if String.eqb k "year" then when (shown Year || shown Year2) (DT.year t)
  else if String.eqb k "month"
  then when (shown Month || shown Doy) (DT.month t)
  else if String.eqb k "day" then when (shown Day || shown Doy) (DT.day t)
  else if String.eqb k "hour" then when (shown Hour) (DT.hour t)
  else if String.eqb k "minute" then when (shown Minute) (DT.minute t)
  else if String.eqb k "second" then when (shown Second) (DT.second t)
  else if String.eqb k "microsecond"
  then when (shown Millisecond) (DT.microsecond t / 1000 * 1000)
  else None.

Lemma raw_name (shown : tunit -> bool) (t : datetime) (u : tunit) :
  raw shown t (unit_name u) = when (shown u) (uval u t).
Proof. destruct u; reflexivity. Qed.

Lemma century (y : Z) :
  1965 <= y <= 2064 ->
  (if y mod 100 <? DatasetClass.year2_threshold
   then 2000 + y mod 100 else 1900 + y mod 100) = y.
Proof.
  intros H. unfold DatasetClass.year2_threshold.
  destruct (Z.ltb_spec (y mod 100) 65); Z.div_mod_to_equations; lia.
Qed.

(** The start of the day of [t]. *)
Definition midnight (t : datetime) : datetime :=
  (DT.toordinal t - 1) * DT.US_PER_DAY.

Lemma midnight_ordinal (t : datetime) :
  DT.toordinal (midnight t) = DT.toordinal t.
Proof.
  unfold midnight, DT.toordinal. rewrite Z.div_mul by discriminate. lia.
Qed.

Lemma midnight_range (t : datetime) :
  DT.in_range t = true -> DT.in_range (midnight t) = true.
Proof.
  unfold DT.in_range, midnight, DT.toordinal, DT.min, DT.max, Cal.MAXORDINAL.
  change DT.US_PER_DAY with 86400000000.
  intros H. apply andb_prop in H as [L U].
  apply Z.leb_le in L. apply Z.leb_le in U.
  apply andb_true_intro. split; apply Z.leb_le;
    Z.div_mod_to_equations; lia.
Qed.

(** The date of the day of the year that [t] shows: the first of January
    and [doy - 1] days. *)
Lemma date_of_doy (t : datetime) :
  DT.in_range t = true ->
  (jan1 <- DT.make (DT.year t) 1 1 0 0 0 0 ;;
   DT.add jan1 (DT.days (doy t - 1))) = Ok (midnight t).
Proof.
  intros R. rewrite (january_first t R). cbn [bind].
  unfold DT.add, DT.days.
  replace (Cal.days_before_year (DT.year t) * DT.US_PER_DAY
           + (doy t - 1) * DT.US_PER_DAY) with (midnight t)
    by (unfold midnight, doy; change DT.US_PER_DAY with 86400000000; lia).
  now rewrite (midnight_range t R).
Qed.

Lemma midnight_date (t : datetime) :
  DT.month (midnight t) = DT.month t /\ DT.day (midnight t) = DT.day t.
Proof. unfold DT.month, DT.day. now rewrite midnight_ordinal. Qed.

Lemma set_either {V : Type} (c : bool) (d : Py.dict V) (k : string) (a b : V) :
  (if c then Py.set d k a else Py.set d k b) = Py.set d k (if c then a else b).
Proof. now destruct c. Qed.

Lemma add_doy (t : datetime) :
  DT.in_range t = true ->
  DT.add (Cal.days_before_year (DT.year t) * DT.US_PER_DAY)
         (DT.days (doy t - 1)) = Ok (midnight t).
Proof.
  intros R. unfold DT.add, DT.days.
  replace (Cal.days_before_year (DT.year t) * DT.US_PER_DAY
           + (doy t - 1) * DT.US_PER_DAY) with (midnight t)
    by (unfold midnight, doy; change DT.US_PER_DAY with 86400000000; lia).
  now rewrite (midnight_range t R).
Qed.

Ltac literal_keys :=
  cbn [String.eqb Ascii.eqb Bool.eqb andb].

Ltac by_key k :=
  repeat match goal with
         | |- context [String.eqb k ?s] =>
             destruct (String.eqb_spec k s) as [->|?]; literal_keys
         end.

(** [_standardise_datetime_args] on the captures of a time [t]: the
    two-digit year becomes the year, the milliseconds become microseconds
    and the day of the year becomes month and day. *)
Lemma standardise_spec (shown : tunit -> bool) (t : datetime) (d : Py.dict Z) :
  reads d (raw shown t) ->
  DT.in_range t = true ->
  (shown Year2 = true -> 1965 <= DT.year t <= 2064) ->
  (shown Doy = true -> shown Year || shown Year2 = true) ->
  exists d',
    _standardise_datetime_args d = Ok d' /\ reads d' (cooked shown t).
Proof.
  intros Rd R C2 CD. unfold _standardise_datetime_args. cbv zeta.
  (* year2 *)
  assert (G2 : Py.get d "year2" = when (shown Year2) (DT.year t mod 100))
    by (rewrite (proj2 Rd); exact (raw_name shown t Year2)).
  rewrite G2.
  match goal with
  | |- context [Py.get ?D "millisecond"] => set (d2 := D)
  end.
  assert (R2 : reads d2
                 (fun k => if shown Year2 && String.eqb k "year"
                           then Some (DT.year t)
                           else if String.eqb k "year2" then None
                                else raw shown t k)).
  { subst d2. unfold when. destruct (shown Year2) eqn:S2; cbn [andb].
    - rewrite set_either, (century _ (C2 eq_refl)).
      exact (reads_set _ _ "year" (DT.year t) (reads_remove _ _ "year2" Rd)).
    - exact (reads_remove _ _ "year2" Rd). }
  clearbody d2.
  (* millisecond *)
  assert (G3 : Py.get d2 "millisecond"
               = when (shown Millisecond) (DT.microsecond t / 1000)).
  { rewrite (proj2 R2). rewrite andb_false_r. reflexivity. }
  rewrite G3.
  match goal with
  | |- context [Py.get ?D "doy"] => set (d3 := D)
  end.
  assert (R3 : reads d3
                 (fun k => if shown Millisecond && String.eqb k "microsecond"
                           then Some (DT.microsecond t / 1000 * 1000)
                           else if String.eqb k "millisecond" then None
                           else if shown Year2 && String.eqb k "year"
                           then Some (DT.year t)
                           else if String.eqb k "year2" then None
                                else raw shown t k)).
  { subst d3. unfold when. destruct (shown Millisecond) eqn:S3; cbn [andb].
    - exact (reads_set _ _ "microsecond" _
               (reads_remove _ _ "millisecond" R2)).
    - exact (reads_remove _ _ "millisecond" R2). }
  clearbody d3.
  (* doy *)
  assert (G4 : Py.get d3 "doy" = when (shown Doy) (doy t)).
  { rewrite (proj2 R3). rewrite !andb_false_r. reflexivity. }
  rewrite G4.
  pose proof (reads_remove _ _ "doy" R3) as R4.
  set (d4 := Py.remove d3 "doy") in *. clearbody d4.
  unfold when. destruct (shown Doy) eqn:S4.
  - assert (G5 : Py.get d4 "year" = Some (DT.year t)).
    { rewrite (proj2 R4). literal_keys. rewrite andb_false_r, andb_true_r.
      specialize (CD eq_refl).
      destruct (shown Year2); [reflexivity|]. literal_keys.
      rewrite orb_false_r in CD.
      change (raw shown t "year") with (raw shown t (unit_name Year)).
      rewrite raw_name, CD. reflexivity. }
    rewrite G5, (january_first t R). cbn [bind].
    rewrite (add_doy t R). cbn [bind].
    destruct (midnight_date t) as [-> ->].
    eexists. split; [reflexivity|].
    eapply reads_ext.
    + exact (reads_set _ _ "day" (DT.day t)
               (reads_set _ _ "month" (DT.month t) R4)).
    + intros k. unfold cooked, raw, unit_of_name, when. rewrite S4.
      by_key k; rewrite ?andb_true_r, ?andb_false_r, ?orb_true_r,
                  ?orb_false_r;
        repeat match goal with
               | |- context [shown ?u] => destruct (shown u)
               end; reflexivity.
  - eexists. split; [reflexivity|].
    eapply reads_ext; [exact R4|].
    intros k. unfold cooked, raw, unit_of_name, when. rewrite S4.
    by_key k; rewrite ?andb_true_r, ?andb_false_r, ?orb_true_r,
                ?orb_false_r;
      repeat match goal with
             | |- context [shown ?u] => destruct (shown u)
             end; reflexivity.
Qed.

(** *** From the captures to the arguments of [datetime] *)

Definition tunit_eqb (a b : tunit) : bool :=
  String.eqb (unit_name a) (unit_name b).

Lemma unit_name_inj (u u' : tunit) : unit_name u = unit_name u' -> u = u'.
Proof. intros H. now destruct (ph_name_inj false false u u' H). Qed.

Lemma tunit_eqb_spec (a b : tunit) : reflect (a = b) (tunit_eqb a b).
Proof.
  unfold tunit_eqb. destruct (String.eqb_spec (unit_name a) (unit_name b)).
  - constructor. now apply unit_name_inj.
  - constructor. congruence.
Qed.

(** The units of the start ([e = false]) or of the end of a template. *)
Definition units (e : bool) (l : list (bool * tunit)) : list tunit :=
  map snd (filter (fun p => Bool.eqb (fst p) e) l).

(** The template has the placeholder of the unit [u] for the start or the
    end. *)
Definition shows (toks : list tok) (e : bool) (u : tunit) : bool :=
  existsb (tunit_eqb u) (units e (phs toks)).

Definition numbers (us : list tunit) (t : datetime) : Py.dict Z :=
  map (fun u => (unit_name u, uval u t)) us.

Lemma unit_of_name_spec (k : string) (u : tunit) :
  unit_of_name k = Some u <-> k = unit_name u.
Proof.
  split.
  - unfold unit_of_name.
    by_key k; intros H; inversion H; reflexivity.
  - intros ->. now destruct u.
Qed.

Lemma get_numbers (us : list tunit) (t : datetime) (k : string) :
  Py.get (numbers us t) k = raw (fun u => existsb (tunit_eqb u) us) t k.
Proof.
  unfold raw, numbers. induction us as [|u0 us IH]; cbn [map Py.get existsb].
  - now destruct (unit_of_name k).
  - destruct (String.eqb_spec k (unit_name u0)) as [->|N].
    + rewrite (proj2 (unit_of_name_spec _ u0) eq_refl).
      destruct (tunit_eqb_spec u0 u0); [reflexivity | contradiction].
    + rewrite IH. destruct (unit_of_name k) as [u|] eqn:E; [|reflexivity].
      apply unit_of_name_spec in E.
      destruct (tunit_eqb_spec u u0) as [->|_]; [contradiction | reflexivity].
Qed.

Lemma units_in (e : bool) (l : list (bool * tunit)) (u : tunit) :
  In u (units e l) -> In (e, u) l.
Proof.
  unfold units. intros I. apply in_map_iff in I as ([e' u'] & <- & I).
  apply filter_In in I as [I E]. cbn [fst snd] in *.
  apply Bool.eqb_prop in E. now subst e'.
Qed.

Lemma nodup_units (e : bool) (l : list (bool * tunit)) :
  NoDup (map (fun p => ph_name (fst p) (snd p)) l) ->
  NoDup (map unit_name (units e l)).
Proof.
  induction l as [|[e0 u0] l IH]; intros D; [constructor|].
  cbn [map fst snd] in D. inversion D as [|? ? N D']; subst.
  unfold units. cbn [filter fst]. fold (units e l).
  destruct (Bool.eqb e0 e) eqn:E.
  - apply Bool.eqb_prop in E. subst e0. cbn [map snd]. fold (units e l).
    constructor; [|apply IH, D'].
    intros I. apply in_map_iff in I as (u & Eu & I).
    apply unit_name_inj in Eu. subst u. apply units_in in I.
    apply N. apply in_map_iff. exists (e, u0). now split.
  - apply IH, D'.
Qed.

(** The dictionary comprehension over numbers without a repeated key. *)
Lemma reads_numbers (us : list tunit) (t : datetime) :
  NoDup (map unit_name us) ->
  Py.of_list (numbers us t) = numbers us t
  /\ reads (numbers us t) (raw (fun u => existsb (tunit_eqb u) us) t).
Proof.
  intros D.
  assert (K : Py.keys (numbers us t) = map unit_name us).
  { unfold Py.keys, numbers. now rewrite map_map. }
  split.
  - unfold Py.of_list. rewrite update_fresh; [reflexivity | now rewrite K |].
    intros k _ [].
  - split; [now rewrite K | apply get_numbers].
Qed.

Lemma ph_name_end (e : bool) (u : tunit) :
  Py.startswith (ph_name e u) "end_" = e
  /\ Py.drop 4 (ph_name true u) = unit_name u.
Proof. destruct e, u; split; reflexivity. Qed.

Lemma mem_ph_name (e : bool) (u : tunit) :
  Py.mem completed_time_placeholder (ph_name e u) = true.
Proof. unfold Py.mem. now rewrite get_completed. Qed.

(** The two comprehensions of [_to_datetime_args] over the captures of a
    rendered name. *)
Lemma args_of_captures
  (self : Dataset) (l : list (bool * tunit)) (t0 t1 : datetime) :
  _time_placeholder self = completed_time_placeholder ->
  DT.in_range t0 = true -> DT.in_range t1 = true ->
  1000 <= DT.year t0 -> 1000 <= DT.year t1 ->
  let caps :=
    map (fun p => (ph_name (fst p) (snd p), ph_text t0 t1 (fst p) (snd p)))
        l in
  mapM (fun pv => v <- Py.int (snd pv) ;; Ok (fst pv, v))
       (filter (fun pv => negb (Py.startswith (fst pv) "end_")
                          && Py.mem (_time_placeholder self) (fst pv))
               caps)
  = Ok (numbers (units false l) t0)
  /\ mapM (fun pv => v <- Py.int (snd pv) ;; Ok (Py.drop 4 (fst pv), v))
          (filter (fun pv => Py.startswith (fst pv) "end_"
                             && Py.mem (_time_placeholder self) (fst pv))
                  caps)
     = Ok (numbers (units true l) t1).
Proof.
  intros T R0 R1 Y0 Y1. cbv zeta. rewrite T.
  induction l as [|[e u] l [IH0 IH1]]; [split; reflexivity|].
  cbn [map filter fst snd].
  destruct (ph_name_end e u) as [S _]. rewrite S.
  rewrite !(mem_ph_name e u).
  destruct e; cbn [negb andb].
  - split; [exact IH0|].
    cbn [mapM fst snd]. rewrite IH1.
    destruct (reads_back_spec _ _ _ (unit_text_reads u t1 R1 Y1)) as [_ I].
    unfold ph_text. rewrite I. cbn [bind].
    destruct (ph_name_end true u) as [_ ->].
    unfold units. cbn [filter fst Bool.eqb map snd numbers]. reflexivity.
  - split; [|exact IH1].
    cbn [mapM fst snd]. rewrite IH0.
    destruct (reads_back_spec _ _ _ (unit_text_reads u t0 R0 Y0)) as [_ I].
    unfold ph_text. rewrite I. cbn [bind].
    unfold units. cbn [filter fst Bool.eqb map snd numbers]. reflexivity.
Qed.

(** *** The time coverage of a rendered name *)

Definition keep (b : bool) (v : Z) : Z := if b then v else 0.

(** The time [t] with the fields of the time of day that are not shown
    set to zero. *)
Definition kept (shown : tunit -> bool) (t : datetime) : datetime :=
  midnight t
  + keep (shown Hour) (DT.hour t) * DT.US_PER_HOUR
  + keep (shown Minute) (DT.minute t) * DT.US_PER_MINUTE
  + keep (shown Second) (DT.second t) * DT.US_PER_SECOND
  + keep (shown Millisecond) (DT.microsecond t / 1000 * 1000).

Lemma in_kwargs (k : string) :
  In k DT.kwargs -> existsb (String.eqb k) DT.kwargs = true.
Proof.
  intros I. apply existsb_exists. exists k. split; [exact I|].
  apply String.eqb_refl.
Qed.

(** [datetime( **args )] for arguments that hold the date of [t]. *)
Lemma of_kwargs_reads
  (d : Py.dict Z) (f : string -> option Z) (t : datetime) (H M S us : Z) :
  reads d f ->
  (forall k, f k <> None -> In k DT.kwargs) ->
  f "year" = Some (DT.year t) ->
  f "month" = Some (DT.month t) ->
  f "day" = Some (DT.day t) ->
  DT.opt0 (f "hour") = H -> DT.opt0 (f "minute") = M ->
  DT.opt0 (f "second") = S -> DT.opt0 (f "microsecond") = us ->
  DT.in_range t = true ->
  0 <= H <= 23 -> 0 <= M <= 59 -> 0 <= S <= 59 -> 0 <= us <= 999999 ->
  DT.of_kwargs d
  = Ok (midnight t + H * DT.US_PER_HOUR + M * DT.US_PER_MINUTE
        + S * DT.US_PER_SECOND + us).
Proof.
  intros [D G] K Fy Fm Fd FH FM FS Fus R BH BM BS Bus. unfold DT.of_kwargs.
  assert (X : forallb (fun k => existsb (String.eqb k) DT.kwargs) (Py.keys d)
              = true).
  { apply forallb_forall. intros k I. apply in_kwargs, K.
    rewrite <- G. apply get_present, I. }
  rewrite X. cbn [negb]. rewrite !G, Fy, Fm, Fd, FH, FM, FS, Fus.
  apply make_date; assumption.
Qed.

Lemma cooked_kwargs (shown : tunit -> bool) (t : datetime) (k : string) :
  cooked shown t k <> None -> In k DT.kwargs.
Proof.
  unfold cooked, DT.kwargs. by_key k; intros H; cbn [In]; try tauto.
Qed.

Lemma keep_bounds (b : bool) (v hi : Z) :
  0 <= v <= hi -> 0 <= keep b v <= hi.
Proof. destruct b; simpl; lia. Qed.

Lemma opt0_when (b : bool) (v : Z) : DT.opt0 (when b v) = keep b v.
Proof. now destruct b. Qed.

Lemma millis_bounds (t : datetime) :
  0 <= DT.microsecond t / 1000 * 1000 <= 999999.
Proof.
  destruct (time_bounds t) as (_ & _ & _ & B).
  Z.div_mod_to_equations. lia.
Qed.

(** The template shows the date of the start or of the end. *)
Definition shows_date (shown : tunit -> bool) : bool :=
  (shown Year || shown Year2) && (shown Month || shown Doy)
  && (shown Day || shown Doy).

Lemma of_kwargs_cooked (shown : tunit -> bool) (t : datetime) (d : Py.dict Z) :
  reads d (cooked shown t) ->
  shows_date shown = true ->
  DT.in_range t = true ->
  DT.of_kwargs d = Ok (kept shown t).
Proof.
  intros Rd Sd R. unfold shows_date in Sd.
  apply andb_prop in Sd as [Sd S3]. apply andb_prop in Sd as [S1 S2].
  destruct (time_bounds t) as (BH & BM & BS & _).
  unfold kept.
  apply (of_kwargs_reads d (cooked shown t) t); try assumption.
  - apply cooked_kwargs.
  - unfold cooked. literal_keys. now rewrite S1.
  - unfold cooked. literal_keys. now rewrite S2.
  - unfold cooked. literal_keys. now rewrite S3.
  - unfold cooked. literal_keys. apply opt0_when.
  - unfold cooked. literal_keys. apply opt0_when.
  - unfold cooked. literal_keys. apply opt0_when.
  - unfold cooked. literal_keys. apply opt0_when.
  - now apply keep_bounds.
  - now apply keep_bounds.
  - now apply keep_bounds.
  - apply keep_bounds, millis_bounds.
Qed.

(** A two-digit year is read back within 1965 .. 2064, and a day of the
    year needs a year beside it. *)
Definition readable (shown : tunit -> bool) (t : datetime) : Prop :=
  (shown Year2 = true -> 1965 <= DT.year t <= 2064)
  /\ (shown Doy = true -> shown Year || shown Year2 = true).

(** A field that the end does not show is taken from the start. *)
Definition inherits (e s : bool) (v0 v1 : Z) : Prop :=
  e = false -> s = true -> v0 = v1.

(** The two times agree on the fields that the template shows for the
    start only. *)
Definition agree (s e : tunit -> bool) (t0 t1 : datetime) : Prop :=
  inherits (e Year || e Year2) (s Year || s Year2) (DT.year t0) (DT.year t1)
  /\ inherits (e Month || e Doy) (s Month || s Doy)
              (DT.month t0) (DT.month t1)
  /\ inherits (e Day || e Doy) (s Day || s Doy) (DT.day t0) (DT.day t1)
  /\ inherits (e Hour) (s Hour) (DT.hour t0) (DT.hour t1)
  /\ inherits (e Minute) (s Minute) (DT.minute t0) (DT.minute t1)
  /\ inherits (e Second) (s Second) (DT.second t0) (DT.second t1)
  /\ inherits (e Millisecond) (s Millisecond)
              (DT.microsecond t0 / 1000) (DT.microsecond t1 / 1000).

Definition either (s e : tunit -> bool) (u : tunit) : bool := e u || s u.

Definition has_end (toks : list tok) : bool :=
  negb (is_empty (units true (phs toks))).

Lemma cooked_none (shown : tunit -> bool) (t : datetime) :
  (forall k, cooked shown t k = None) -> forall u, shown u = false.
Proof.
  intros H u.
  destruct u;
    [ pose proof (H "year") as X | pose proof (H "year") as X
    | pose proof (H "month") as X | pose proof (H "day") as X
    | pose proof (H "month") as X | pose proof (H "hour") as X
    | pose proof (H "minute") as X | pose proof (H "second") as X
    | pose proof (H "microsecond") as X ];
    unfold cooked, when in X;
    cbn [String.eqb Ascii.eqb Bool.eqb andb] in X;
    match goal with
    | |- shown ?v = false => destruct (shown v); [|reflexivity]
    end;
    rewrite ?orb_true_r in X; cbn [orb] in X; discriminate X.
Qed.

Lemma reads_nil {V : Type} (f : string -> option V) :
  reads [] f -> forall k, f k = None.
Proof. intros [_ G] k. now rewrite <- G. Qed.

Lemma merged_kwargs (s e : tunit -> bool) (t0 t1 : datetime) (k : string) :
  match cooked e t1 k with Some v => Some v | None => cooked s t0 k end
  <> None -> In k DT.kwargs.
Proof.
  intros H. destruct (cooked e t1 k) eqn:E.
  - apply (cooked_kwargs e t1). congruence.
  - now apply (cooked_kwargs s t0).
Qed.

Lemma merged_date (e s : bool) (v0 v1 : Z) :
  s = true -> inherits e s v0 v1 ->
  match when e v1 with Some v => Some v | None => when s v0 end = Some v1.
Proof.
  intros S I. subst s. destruct e; [reflexivity|].
  cbn. f_equal. now apply I.
Qed.

Lemma merged_time (e s : bool) (v0 v1 : Z) :
  inherits e s v0 v1 ->
  DT.opt0 match when e v1 with Some v => Some v | None => when s v0 end
  = keep (e || s) v1.
Proof.
  intros I. destruct e; [reflexivity|]. destruct s; [|reflexivity].
  cbn. now apply I.
Qed.

(** [datetime( **{**start_args, **end_args} )]. *)
Lemma of_kwargs_merged
  (s e : tunit -> bool) (t0 t1 : datetime) (d0 d1 : Py.dict Z) :
  reads d0 (cooked s t0) -> reads d1 (cooked e t1) ->
  shows_date s = true ->
  agree s e t0 t1 ->
  DT.in_range t1 = true ->
  DT.of_kwargs (Py.merge d0 d1) = Ok (kept (either s e) t1).
Proof.
  intros R0 R1 Sd A R. unfold shows_date in Sd.
  apply andb_prop in Sd as [Sd S3]. apply andb_prop in Sd as [S1 S2].
  destruct A as (Ay & Am & Ad & AH & AM & AS & Au).
  destruct (time_bounds t1) as (BH & BM & BS & _).
  unfold kept, either.
  apply (of_kwargs_reads _ _ t1
           (keep (e Hour || s Hour) (DT.hour t1))
           (keep (e Minute || s Minute) (DT.minute t1))
           (keep (e Second || s Second) (DT.second t1))
           (keep (e Millisecond || s Millisecond)
                 (DT.microsecond t1 / 1000 * 1000))
           (reads_merge _ _ _ _ R0 R1)).
  - apply merged_kwargs.
  - unfold cooked. literal_keys. now apply merged_date.
  - unfold cooked. literal_keys. now apply merged_date.
  - unfold cooked. literal_keys. now apply merged_date.
  - unfold cooked. literal_keys. now apply merged_time.
  - unfold cooked. literal_keys. now apply merged_time.
  - unfold cooked. literal_keys. now apply merged_time.
  - unfold cooked. literal_keys. apply merged_time.
    intros E S. now rewrite (Au E S).
  - exact R.
  - now apply keep_bounds.
  - now apply keep_bounds.
  - now apply keep_bounds.
  - apply keep_bounds, millis_bounds.
Qed.

Lemma shows_units (toks : list tok) (e : bool) (u : tunit) :
  shows toks e u = true -> units e (phs toks) <> [].
Proof.
  unfold shows. destruct (units e (phs toks)); [discriminate|].
  intros _. discriminate.
Qed.

Lemma nonempty_reads (shown : tunit -> bool) (t : datetime) (d : Py.dict Z)
  (u : tunit) :
  reads d (cooked shown t) -> shown u = true -> is_empty d = false.
Proof.
  intros Rd S. destruct d; [|reflexivity].
  pose proof (cooked_none shown t (reads_nil _ Rd) u). congruence.
Qed.

(** [_retrieve_time_coverage] on the captures of a rendered name. *)
Lemma retrieve_captures
  (self : Dataset) (toks : list tok) (t0 t1 : datetime) :
  _time_placeholder self = completed_time_placeholder ->
  NoDup (ph_names toks) ->
  DT.in_range t0 = true -> DT.in_range t1 = true ->
  1000 <= DT.year t0 -> 1000 <= DT.year t1 ->
  shows_date (shows toks false) = true ->
  readable (shows toks false) t0 ->
  readable (shows toks true) t1 ->
  (has_end toks = true ->
   agree (shows toks false) (shows toks true) t0 t1
   /\ kept (shows toks false) t0
      <= kept (either (shows toks false) (shows toks true)) t1) ->
  _retrieve_time_coverage self (captures toks t0 t1)
  = Ok (Some (Some (kept (shows toks false) t0),
              if has_end toks
              then Some (kept (either (shows toks false) (shows toks true))
                              t1)
              else None)).
Proof.
  intros T D R0 R1 Y0 Y1 Sd [C0 D0] [C1 D1] E.
  assert (Sy : exists u, shows toks false u = true).
  { unfold shows_date in Sd. apply andb_prop in Sd as [Sd _].
    apply andb_prop in Sd as [Sd _]. apply orb_prop in Sd as [S|S]; eauto. }
  destruct Sy as [u0 Su0].
  unfold _retrieve_time_coverage, captures.
  assert (N : phs toks <> []).
  { intros Z. pose proof (shows_units toks false u0 Su0) as X.
    rewrite Z in X. now apply X. }
  destruct (phs toks) as [|p l] eqn:L; [contradiction|].
  rewrite <- L. clear N.
  replace (is_empty _) with false by (rewrite L; reflexivity).
  unfold _to_datetime_args.
  destruct (args_of_captures self (phs toks) t0 t1 T R0 R1 Y0 Y1) as [A0 A1].
  rewrite A0. cbn [bind]. rewrite A1. cbn [bind].
  destruct (reads_numbers (units false (phs toks)) t0
              (nodup_units false _ D)) as [O0 Rn0].
  destruct (reads_numbers (units true (phs toks)) t1
              (nodup_units true _ D)) as [O1 Rn1].
  rewrite O0, O1.
  destruct (standardise_spec _ t0 _ Rn0 R0 C0 D0) as (d0 & S0 & Rd0).
  destruct (standardise_spec _ t1 _ Rn1 R1 C1 D1) as (d1 & S1 & Rd1).
  fold (shows toks false) in Rd0. fold (shows toks true) in Rd1.
  rewrite S0. cbn [bind]. rewrite S1. cbn [bind].
  rewrite (nonempty_reads _ _ _ u0 Rd0 Su0).
  rewrite (of_kwargs_cooked _ t0 d0 Rd0 Sd R0). cbn [bind].
  unfold has_end in *.
  destruct (units true (phs toks)) as [|u1 us] eqn:U.
  - (* no placeholder of the end *)
    cbn in S1. inversion S1; subst d1. reflexivity.
  - assert (Su1 : shows toks true u1 = true).
    { unfold shows. rewrite U. cbn [existsb].
      destruct (tunit_eqb_spec u1 u1); [reflexivity | contradiction]. }
    rewrite (nonempty_reads _ _ _ u1 Rd1 Su1).
    cbn [is_empty negb] in *. destruct (E eq_refl) as [A Le].
    rewrite (of_kwargs_merged _ _ t0 t1 d0 d1 Rd0 Rd1 Sd A R1). cbn [bind].
    replace (_ <? _) with false by (symmetry; apply Z.ltb_ge; exact Le).
    reflexivity.
Qed.

(** *** The round trip through a file name *)

Fixpoint distinct (l : list string) : bool :=
  match l with
  | [] => true
  | x :: l' => negb (existsb (String.eqb x) l') && distinct l'
  end.

Lemma distinct_spec (l : list string) : distinct l = true -> NoDup l.
Proof.
  induction l as [|x l IH]; simpl; intros H; [constructor|].
  apply andb_prop in H as [N H]. constructor; [|apply IH, H].
  intros I. apply negb_true_iff in N.
  rewrite (proj2 (existsb_exists _ _)) in N; [discriminate|].
  exists x. split; [exact I | apply String.eqb_refl].
Qed.

Definition readableb (shown : tunit -> bool) (t : datetime) : bool :=
  implb (shown Year2) ((1965 <=? DT.year t) && (DT.year t <=? 2064))
  && implb (shown Doy) (shown Year || shown Year2).

Lemma readableb_spec (shown : tunit -> bool) (t : datetime) :
  readableb shown t = true -> readable shown t.
Proof.
  unfold readableb, readable. intros H. apply andb_prop in H as [A B].
  split; intros S; rewrite S in *; cbn [implb] in *; [|exact B].
  apply andb_prop in A as [L U].
  apply Z.leb_le in L. apply Z.leb_le in U. lia.
Qed.

Definition inheritsb (e s : bool) (v0 v1 : Z) : bool :=
  e || negb s || (v0 =? v1).

Lemma inheritsb_spec (e s : bool) (v0 v1 : Z) :
  inheritsb e s v0 v1 = true -> inherits e s v0 v1.
Proof.
  unfold inheritsb, inherits. intros H -> ->. cbn in H.
  now apply Z.eqb_eq.
Qed.

Definition agreeb (s e : tunit -> bool) (t0 t1 : datetime) : bool :=
  inheritsb (e Year || e Year2) (s Year || s Year2) (DT.year t0) (DT.year t1)
  && inheritsb (e Month || e Doy) (s Month || s Doy)
               (DT.month t0) (DT.month t1)
  && inheritsb (e Day || e Doy) (s Day || s Doy) (DT.day t0) (DT.day t1)
  && inheritsb (e Hour) (s Hour) (DT.hour t0) (DT.hour t1)
  && inheritsb (e Minute) (s Minute) (DT.minute t0) (DT.minute t1)
  && inheritsb (e Second) (s Second) (DT.second t0) (DT.second t1)
  && inheritsb (e Millisecond) (s Millisecond)
               (DT.microsecond t0 / 1000) (DT.microsecond t1 / 1000).

Lemma agreeb_spec (s e : tunit -> bool) (t0 t1 : datetime) :
  agreeb s e t0 t1 = true -> agree s e t0 t1.
Proof.
  unfold agreeb, agree. intros H.
  repeat (apply andb_prop in H as [H ?]).
  repeat split; apply inheritsb_spec; assumption.
Qed.

(** A template of plain characters and time placeholders, none of them
    twice, and two times with years of four digits. *)
Definition renders (toks : list tok) (t0 t1 : datetime) : bool :=
  forallb plain_tok toks && distinct (ph_names toks)
  && DT.in_range t0 && DT.in_range t1
  && (1000 <=? DT.year t0) && (1000 <=? DT.year t1).

Lemma renders_spec (toks : list tok) (t0 t1 : datetime) :
  renders toks t0 t1 = true ->
  forallb plain_tok toks = true /\ NoDup (ph_names toks)
  /\ DT.in_range t0 = true /\ DT.in_range t1 = true
  /\ 1000 <= DT.year t0 /\ 1000 <= DT.year t1.
Proof.
  unfold renders. intros H. repeat (apply andb_prop in H as [H ?]).
  repeat split; try assumption;
    [now apply distinct_spec | now apply Z.leb_le | now apply Z.leb_le].
Qed.

(** The captures can be turned into the time coverage: the start has a
    date, two-digit years and days of the year can be read back, and with
    placeholders of the end the two times agree on what only the start
    shows and the end that is read is not earlier than the start. *)
Definition covers_times (toks : list tok) (t0 t1 : datetime) : bool :=
  shows_date (shows toks false)
  && readableb (shows toks false) t0
  && readableb (shows toks true) t1
  && implb (has_end toks)
       (agreeb (shows toks false) (shows toks true) t0 t1
        && (kept (shows toks false) t0
            <=? kept (either (shows toks false) (shows toks true)) t1)).

Lemma match_rendered (toks : list tok) (t0 t1 : datetime) :
  NoDup (ph_names toks) ->
  (forall e u, In (e, u) (phs toks) ->
               fits (width u) (ph_text t0 t1 e u) = true) ->
  Re.match_ (pattern_of toks) (render toks t0 t1)
  = Some (captures toks t0 t1).
Proof.
  intros D F. unfold Re.match_, pattern_of. cbn [Re.run Re.at_start].
  rewrite (run_template toks t0 t1 F).
  rewrite update_fresh.
  - reflexivity.
  - now rewrite keys_captures.
  - intros k _ [].
Qed.

(** The example S1 of a template, and one with placeholders of the end. *)
Definition s1_toks : list tok :=
  [ph false Year; lit "/"; ph false Month; lit "/"; ph false Day; lit "/";
   ph false Hour; ph false Minute; ph false Second;
   lit "."; lit "n"; lit "c"]%char.

Definition span_toks : list tok :=
  [ph false Year; ph false Month; ph false Day; lit "_";
   ph false Hour; ph false Minute; lit "-";
   ph true Hour; ph true Minute; lit "."; lit "d"; lit "a"; lit "t"]%char.





(** ** More about the arguments of [datetime] *)

Lemma reads_self {V : Type} (d : Py.dict V) :
  NoDup (Py.keys d) -> reads d (Py.get d).
Proof. intros D. split; [exact D | reflexivity]. Qed.

(** X3. A day of the year without a year: when the arguments hold [doy]
    (each key once) and neither [year] nor [year2],
    [_standardise_datetime_args] raises [KeyError], whatever else they
    hold. *)
Theorem doy_without_year (d : Py.dict Z) (v : Z) :
  distinct (Py.keys d) = true ->
  Py.get d "doy" = Some v ->
  Py.get d "year" = None ->
  Py.get d "year2" = None ->
  _standardise_datetime_args d = Err KeyError.
Proof.
  intros D Gd Gy G2. apply distinct_spec in D.
  unfold _standardise_datetime_args. cbv zeta.
  rewrite G2.
  pose proof (reads_remove _ _ "year2" (reads_self d D)) as R1.
  set (d1 := Py.remove d "year2") in *. clearbody d1.
  assert (R2 : exists d2 f2,
             match Py.get d1 "millisecond" with
             | Some millisecond =>
                 Py.set (Py.remove d1 "millisecond") "microsecond"
                        (millisecond * 1000)
             | None => Py.remove d1 "millisecond"
             end = d2
             /\ reads d2 f2 /\ f2 "doy" = Some v /\ f2 "year" = None).
  { destruct (Py.get d1 "millisecond") as [ms|].
    - eexists. eexists. split; [reflexivity|]. split.
      + exact (reads_set _ _ "microsecond" _
                 (reads_remove _ _ "millisecond" R1)).
      + cbn [String.eqb Ascii.eqb Bool.eqb andb]. now split.
    - eexists. eexists. split; [reflexivity|]. split.
      + exact (reads_remove _ _ "millisecond" R1).
      + cbn [String.eqb Ascii.eqb Bool.eqb andb]. now split. }
  destruct R2 as (d2 & f2 & -> & R2 & Fd & Fy).
  rewrite (proj2 R2), Fd.
  rewrite (proj2 (reads_remove _ _ "doy" R2)).
  cbn [String.eqb Ascii.eqb Bool.eqb andb]. now rewrite Fy.
Qed.

Lemma doy_without_year_example :
  _standardise_datetime_args [("doy", 32); ("hour", 7)] = Err KeyError.
Proof.
  apply (doy_without_year [("doy", 32); ("hour", 7)] 32); reflexivity.
Defined.

(** ** The groups of the placeholders *)

Lemma prefix_app (p s : string) : Py.prefix p (p ++ s) = true.
Proof.
  induction p as [|a p IH]; [reflexivity|].
  simpl. now rewrite Ascii.eqb_refl.
Qed.

Lemma contains_app (p s : string) : Py.contains p (p ++ s) = true.
Proof.
  destruct (p ++ s) eqn:E; simpl; rewrite <- E, prefix_app; reflexivity.
Qed.

Lemma drop_app (p s : string) : Py.drop (String.length p) (p ++ s) = s.
Proof. induction p as [|a p IH]; [reflexivity | exact IH]. Qed.

Lemma take_all_but_last (s : string) (c : ascii) :
  Py.take (String.length (s ++ String c EmptyString) - 1)
          (s ++ String c EmptyString) = s.
Proof.
  induction s as [|a s IH]; [reflexivity|].
  cbn [append String.length].
  replace (S (String.length (s ++ String c EmptyString)) - 1)%nat
    with (S (String.length (s ++ String c EmptyString) - 1))%nat.
  - cbn [Py.take]. now rewrite IH.
  - rewrite length_append. simpl. lia.
Qed.

(** The regex that a value stands for. *)
Definition regex_of (value : pvalue) : string :=
  match value with
  | str_value v => v
  | seq_value vs => join "|" vs
  end.

(** X4. [_remove_group_capturing] undoes [_add_group_capturing]: for every
    name and every value, a regex or a list of alternatives, removing the
    group of the completed regex gives the regex back (the alternatives
    joined by a bar). *)
Theorem remove_add_group_capturing (placeholder : string) (value : pvalue) :
  _remove_group_capturing placeholder
    (_add_group_capturing placeholder value)
  = regex_of value.
Proof.
  unfold _remove_group_capturing, _add_group_capturing.
  assert (X : forall v,
             (let opening := "(?P<" ++ placeholder ++ ">" in
              if negb (Py.contains opening
                         ("(?P<" ++ placeholder ++ ">" ++ v ++ ")"))
              then "(?P<" ++ placeholder ++ ">" ++ v ++ ")"
              else
                let rest :=
                  Py.drop (String.length opening)
                          ("(?P<" ++ placeholder ++ ">" ++ v ++ ")") in
                Py.take (String.length rest - 1) rest) = v).
  { intros v. cbv zeta.
    replace ("(?P<" ++ placeholder ++ ">" ++ v ++ ")")
      with (("(?P<" ++ placeholder ++ ">") ++ (v ++ ")"))
      by (now rewrite <- !append_assoc).
    rewrite contains_app, drop_app. cbn [negb].
    apply take_all_but_last. }
  destruct value; apply X.
Qed.

(** ** The time resolution of a path *)

Lemma best_by_least (ps : list string) :
  forall p,
  resolution_of (best_by Z.ltb p ps) <= resolution_of p
  /\ forall q, In q ps ->
       resolution_of (best_by Z.ltb p ps) <= resolution_of q.
Proof.
  unfold best_by. induction ps as [|x ps IH]; intros p; cbn [fold_left].
  - split; [lia | intros q []].
  - destruct (Z.ltb_spec (resolution_of x) (resolution_of p)) as [L|L].
    + destruct (IH x) as [B A]. split; [lia|].
      intros q [<-|I]; [exact B | apply A, I].
    + destruct (IH p) as [B A]. split; [exact B|].
      intros q [<-|I]; [lia | apply A, I].
Qed.

Lemma best_by_greatest (ps : list string) :
  forall p,
  resolution_of p <= resolution_of (best_by Z.gtb p ps)
  /\ forall q, In q ps ->
       resolution_of q <= resolution_of (best_by Z.gtb p ps).
Proof.
  unfold best_by. induction ps as [|x ps IH]; intros p; cbn [fold_left].
  - split; [lia | intros q []].
  - destruct (Z.gtb_spec (resolution_of x) (resolution_of p)) as [L|L].
    + destruct (IH x) as [B A]. split; [lia|].
      intros q [<-|I]; [exact B | apply A, I].
    + destruct (IH p) as [B A]. split; [exact B|].
      intros q [<-|I]; [lia | apply A, I].
Qed.

(** The placeholders of a path that have a resolution, the day of the year
    counting as the day and the two-digit year as the year. *)
Definition resolved (path : string) : list string :=
  known_resolutions
    (map (fun p => if String.eqb p "doy" then "day"
                   else if String.eqb p "year2" then "year" else p)
         (dedup (Fmt.findall path))).

(** X5. [_get_time_resolution] returns a placeholder and its own
    timedelta. For a path without a placeholder of a known resolution this
    is the year with 366 days; otherwise the placeholder is one of the path
    and no placeholder of the path has a smaller timedelta (with
    [highest=True]) or a larger one (with [highest=False]). *)
Theorem time_resolution_extremal (path : string) (highest : bool) :
  let (placeholder, delta) := _get_time_resolution path highest in
  delta = resolution_of placeholder
  /\ (resolved path = [] -> placeholder = "year" /\ delta = DT.days 366)
  /\ (resolved path <> [] ->
      In placeholder (resolved path)
      /\ forall q, In q (resolved path) ->
           if highest then delta <= resolution_of q
           else resolution_of q <= delta).
Proof.
  unfold _get_time_resolution. fold (resolved path).
  destruct (resolved path) as [|p ps].
  - split; [reflexivity|]. split; [now split | intros N; now contradiction N].
  - split; [reflexivity|]. split; [discriminate|]. intros _.
    destruct highest.
    + split; [apply best_by_in|].
      destruct (best_by_least ps p) as [B A].
      intros q [<-|I]; [exact B | apply A, I].
    + split; [apply best_by_in|].
      destruct (best_by_greatest ps p) as [B A].
      intros q [<-|I]; [exact B | apply A, I].
Qed.

(** ** A bundle size that is not positive *)

(** X6. A bundle size of zero or below: when the search of a dataset of
    many files finds files, [find] with [bundle=0] raises [ValueError]
    (the step of [range]), and with a negative bundle size it yields
    nothing and raises no error, whether or not [no_files_error] is set. *)
Theorem find_bundle_size_not_positive
  (env : Env) (up : Py.dict string) (self : Dataset) (cache : cache_t)
  (start end_ : option datetime) (sort : bool) (n : Z)
  (filters : option (Py.dict pvalue)) (no_files_error : bool)
  (s e : datetime) (files : list FileInfo.t) (cache' : cache_t) :
  single_file self = false ->
  find_window start end_ = Ok (s, e) ->
  find_files env up self cache s e filters = Ok (files, cache') ->
  files <> [] ->
  n <= 0 ->
  find env up self cache start end_ sort (bundle_size n) filters
       no_files_error
  = if n =? 0 then Err ValueError else Ok ([], cache').
Proof.
  intros SF W F N L. unfold find. rewrite W. cbn [bind]. rewrite SF, F.
  cbn [bind].
  assert (P : _prepare_find_files_return env files sort (bundle_size n)
              = if n =? 0 then Err ValueError else Ok []).
  { unfold _prepare_find_files_return. rewrite orb_true_r.
    rewrite (sorted_by_start_total files (find_files_times _ _ _ _ _ _ _ _ _ F)).
    cbn [bind]. destruct (Z.eqb_spec n 0); [reflexivity|].
    destruct (Z.ltb_spec n 0); [reflexivity | lia]. }
  destruct files as [|f files]; [contradiction|].
  destruct (negb no_files_error); rewrite P;
    destruct (n =? 0); reflexivity.
Qed.

Lemma find_bundle_size_not_positive_june :
  find june [] june_dataset [] (Some (at_ 2018 6 1 0 0 0))
       (Some (at_ 2018 6 2 0 0 0)) true (bundle_size (-2)) None true
  = (if -2 =? 0 then Err ValueError
     else Ok ([], cache_after (june_search no_bundle))).
Proof.
  apply (find_bundle_size_not_positive june [] june_dataset []
           (Some (at_ 2018 6 1 0 0 0)) (Some (at_ 2018 6 2 0 0 0))
           true (-2) None true
           (at_ 2018 6 1 0 0 0) (at_ 2018 6 2 0 0 0 - 1)
           june_files (cache_after (june_search no_bundle))).
  - reflexivity.
  - vm_compute. reflexivity.
  - vm_compute. reflexivity.
  - vm_compute. discriminate.
  - lia.
Defined.

(** ** The choice of [find_closest] *)

Lemma nearest_spec (timestamp : datetime) (files : list FileInfo.t) :
  forall best,
  In (nearest timestamp best files) (best :: files)
  /\ forall f, In f (best :: files) ->
       distance timestamp (nearest timestamp best files)
       <= distance timestamp f.
Proof.
  induction files as [|x files IH]; intros best; cbn [nearest].
  - split; [now left|]. intros f [<-|[]]. lia.
  - destruct (Z.ltb_spec (distance timestamp x) (distance timestamp best))
      as [L|L].
    + destruct (IH x) as [I M]. split.
      * destruct I as [E|I]; [right; left; exact E | right; right; exact I].
      * intros f [<-|[<-|I']].
        -- pose proof (M x (or_introl eq_refl)). lia.
        -- apply M. now left.
        -- apply M. now right.
    + destruct (IH best) as [I M]. split.
      * destruct I as [E|I]; [left; exact E | right; right; exact I].
      * intros f [<-|[<-|I']].
        -- apply M. now left.
        -- pose proof (M best (or_introl eq_refl)). lia.
        -- apply M. now right.
Qed.

(** X7. What [find_closest] chooses. For a dataset of many files, when the
    name rendered for the timestamp is no file and the search between the
    bounds finds files, [find_closest] returns one of them: a file whose
    time coverage contains the timestamp, or, when no file does, a file
    such that no other found file has an end nearer to the timestamp. *)
Theorem find_closest_choice
  (env : Env) (up : Py.dict string) (self : Dataset) (cache : cache_t)
  (timestamp : datetime) (filters : option (Py.dict pvalue))
  (start end_ s e : datetime) (files : list FileInfo.t) (cache' : cache_t) :
  single_file self = false ->
  no_direct_hit env up self timestamp ->
  closest_bounds self timestamp = Ok (start, end_) ->
  find_window (Some start) (Some end_) = Ok (s, e) ->
  find_files env up self cache s e filters = Ok (files, cache') ->
  files <> [] ->
  exists hit,
    find_closest env up self cache timestamp filters
    = Ok (closest_file hit, cache')
    /\ In hit files
    /\ (covers timestamp hit = true
        \/ ((forall f, In f files -> covers timestamp f = false)
            /\ forall f, In f files ->
                 distance timestamp hit <= distance timestamp f)).
Proof.
  intros SF D B W F N. unfold find_closest. rewrite SF.
  assert (X : match
                path_ <- generate_filename up self (one_time timestamp)
                                           None None ;;
                (if isfile env path_ then
                   r <- get_info env up self cache (FileInfo.of_path path_)
                                 None ;;
                   Ok (Some r)
                 else Ok None)
              with
              | Ok r => Ok r
              | Err UnknownPlaceholderError
              | Err UnfilledPlaceholderError => Ok None
              | Err e => Err e
              end = Ok None).
  { destruct D as [D|[D|(p & D & I)]]; rewrite D; simpl;
      [reflexivity | reflexivity | rewrite I; reflexivity]. }
  rewrite X. cbn [bind]. unfold closest_bounds in B. rewrite B. cbn [bind].
  unfold find. rewrite W. cbn [bind]. rewrite SF, F. cbn [bind negb].
  destruct files as [|f0 rest]; [contradiction|].
  unfold _prepare_find_files_return. cbn [orb bind].
  rewrite files_of_file.
  destruct (List.find (covers timestamp) (f0 :: rest)) as [hit|] eqn:E.
  - exists hit. apply find_some in E as [I C].
    split; [reflexivity|]. split; [exact I | now left].
  - exists (nearest timestamp f0 rest).
    destruct (nearest_spec timestamp rest f0) as [I M].
    split; [reflexivity|]. split; [exact I|]. right. split; [|exact M].
    intros f If. exact (find_none _ _ E f If).
Qed.

(** The search of [find_closest] in the example: all the files. *)
Definition june_all : result (list FileInfo.t * cache_t) :=
  find_files june [] june_dataset [] DT.min (DT.max - 1) None.

Definition found_files (r : result (list FileInfo.t * cache_t))
  : list FileInfo.t :=
  match r with Ok (files, _) => files | Err _ => [] end.

Definition found_cache (r : result (list FileInfo.t * cache_t)) : cache_t :=
  match r with Ok (_, c) => c | Err _ => [] end.

Lemma find_closest_choice_june :
  exists hit,
    find_closest june [] june_dataset [] (at_ 2018 6 1 11 0 0) None
    = Ok (closest_file hit, found_cache june_all)
    /\ In hit (found_files june_all)
    /\ (covers (at_ 2018 6 1 11 0 0) hit = true
        \/ ((forall f, In f (found_files june_all) ->
                       covers (at_ 2018 6 1 11 0 0) f = false)
            /\ forall f, In f (found_files june_all) ->
                 distance (at_ 2018 6 1 11 0 0) hit
                 <= distance (at_ 2018 6 1 11 0 0) f)).
Proof.
  apply (find_closest_choice june [] june_dataset []
           (at_ 2018 6 1 11 0 0) None DT.min DT.max DT.min (DT.max - 1)
           (found_files june_all) (found_cache june_all)).
  - reflexivity.
  - right. right. exists "/data/20180601_1100-1100.nc". split; reflexivity.
  - vm_compute. reflexivity.
  - vm_compute. reflexivity.
  - vm_compute. reflexivity.
  - vm_compute. discriminate.
Defined.

(** ** The black list of a search *)

Lemma check_file_spec (black_list : Py.dict Re.pattern)
  (placeholders : Py.dict string) :
  _check_file black_list placeholders = true ->
  forall p forbidden value,
    In (p, forbidden) black_list ->
    Py.get placeholders p = Some value ->
    Re.match_ forbidden value = None.
Proof.
  induction black_list as [|[p0 f0] rest IH]; cbn [_check_file];
    intros H p forbidden value I G; [contradiction|].
  destruct I as [E|I].
  - inversion E; subst. rewrite G in H.
    destruct (Re.match_ forbidden value); [discriminate | reflexivity].
  - destruct (Py.get placeholders p0) as [v0|].
    + destruct (Re.match_ f0 v0); [discriminate|]. now apply (IH H p).
    + now apply (IH H p).
Qed.

(** X8. The black list of [find]: a dataset of many files never yields a
    file one of whose attributes is matched by the regex that the filters
    forbid for it (a filter whose name begins with an exclamation mark),
    whatever the sorting and the bundling. *)
Theorem find_black_list
  (env : Env) (up : Py.dict string) (self : Dataset) (cache : cache_t)
  (start end_ : option datetime) (sort : bool) (bundle_ : bundle_arg)
  (filters : option (Py.dict pvalue)) (no_files_error : bool)
  (out : list found) (cache' : cache_t) :
  single_file self = false ->
  find env up self cache start end_ sort bundle_ filters no_files_error
  = Ok (out, cache') ->
  exists s e regex black_list search_dirs,
    find_window start end_ = Ok (s, e)
    /\ walk_of env up self s e filters = Ok (regex, black_list, search_dirs)
    /\ forall f p forbidden value,
         In f (files_of out) ->
         In (p, forbidden) black_list ->
         Py.get (FileInfo.attr f) p = Some value ->
         Re.match_ forbidden value = None.
Proof.
  intros SF H. unfold find in H.
  bind_ok H w Ew. destruct w as [s e]. rewrite SF in H.
  bind_ok H r E. destruct r as [files cache1].
  assert (P : exists o, _prepare_find_files_return env files sort bundle_
                        = Ok o /\ Ok (o, cache1) = Ok (out, cache')).
  { destruct (negb no_files_error).
    - bind_ok H o Eo. now exists o.
    - destruct files; [discriminate|]. bind_ok H o Eo. now exists o. }
  destruct P as (o & Eo & Eq). inversion Eq; subst o cache1. clear Eq H.
  assert (M : forall f, In f (files_of out) -> In f files).
  { intros f. rewrite (prepare_files _ _ _ _ _ Eo). unfold prepared.
    assert (S : In f (sorted start_time files) -> In f files)
      by (apply Permutation_in, sorted_perm).
    destruct bundle_ as [|n|freq|]; try destruct (is_sorting _ _);
      try destruct (n <? 0); try assumption; try tauto;
      intros []. }
  clear Eo.
  rewrite find_files_walk in E. bind_ok E wk Ewk.
  destruct wk as [[regex black_list] search_dirs].
  apply file_finder_filter in E as (all & Eall & F).
  exists s, e, regex, black_list, search_dirs.
  split; [reflexivity|]. split; [exact Ewk|].
  intros f p forbidden value If Ip G.
  apply M in If. rewrite F in If. apply filter_In in If as [_ A].
  unfold allowed in A. apply orb_prop in A as [A|A].
  - destruct black_list; [contradiction | discriminate].
  - exact (check_file_spec _ _ A p forbidden value Ip G).
Qed.

(** Two satellites in one directory, and a search that forbids one. *)
Definition obs_path : string := "/obs/{satellite}_{year}{month}{day}.nc".

Definition obs_names : list string :=
  ["/obs/noaa_20180601.nc"; "/obs/metop_20180601.nc"].

Definition obs : Env :=
  {| isfile := fun p => existsb (String.eqb p) obs_names;
     iglob := fun p => if String.eqb p "/obs/*" then obs_names else [];
     set_time_resolution := fun t _ => t;
     decompress := fun p => p;
     freq_bin := fun _ => None |}.

(** The dictionary of the class after [Dataset(obs_path)]. *)
Definition obs_placeholder : Py.dict string :=
  fst (init [] obs_path None "obs" None no_coverage None None).

Definition obs_dataset : Dataset :=
  match snd (init [] obs_path None "obs" None no_coverage None None) with
  | Ok self => self
  | Err _ => blank
  end.

Definition obs_search : result (list found * cache_t) :=
  find obs obs_placeholder obs_dataset [] (Some (at_ 2018 6 1 0 0 0))
       (Some (at_ 2018 6 2 0 0 0)) false no_bundle
       (Some [("!satellite", str_value "noaa")]) true.

Lemma find_black_list_obs :
  (exists s e regex black_list search_dirs,
     find_window (Some (at_ 2018 6 1 0 0 0)) (Some (at_ 2018 6 2 0 0 0))
     = Ok (s, e)
     /\ walk_of obs obs_placeholder obs_dataset s e
                (Some [("!satellite", str_value "noaa")])
        = Ok (regex, black_list, search_dirs)
     /\ forall f p forbidden value,
          In f (files_of (yielded obs_search)) ->
          In (p, forbidden) black_list ->
          Py.get (FileInfo.attr f) p = Some value ->
          Re.match_ forbidden value = None)
  /\ map FileInfo.path (files_of (yielded obs_search))
     = ["/obs/metop_20180601.nc"].
Proof.
  split; [|vm_compute; reflexivity].
  apply (find_black_list obs obs_placeholder obs_dataset []
           (Some (at_ 2018 6 1 0 0 0)) (Some (at_ 2018 6 2 0 0 0))
           false no_bundle (Some [("!satellite", str_value "noaa")]) true
           (yielded obs_search) (cache_after obs_search)).
  - vm_compute. reflexivity.
  - vm_compute. reflexivity.
Defined.

(** ** Directories that show no day *)

(** X9. [_check_placeholders] on a directory without a day: when the
    captures of a directory hold the year, or the year and the month,
    [datetime] cannot be built, and the directory is kept exactly when its
    year lies between the years of the two bounds; the month is not looked
    at. *)
Theorem check_placeholders_without_day
  (self : Dataset) (year_text month_text : string) (y m : Z)
  (start end_ : datetime) :
  _time_placeholder self = completed_time_placeholder ->
  Py.int year_text = Ok y ->
  Py.int month_text = Ok m ->
  _check_placeholders self [("year", year_text)] start end_
  = Ok ((DT.year start <=? y) && (y <=? DT.year end_))
  /\ _check_placeholders self [("year", year_text); ("month", month_text)]
                         start end_
     = Ok ((DT.year start <=? y) && (y <=? DT.year end_)).
Proof.
  intros T Iy Im. unfold _check_placeholders, _to_datetime_args.
  rewrite T. split.
  - cbn [filter fst snd Py.startswith Py.prefix Ascii.eqb Bool.eqb negb andb].
    change (Py.mem completed_time_placeholder "year") with true.
    cbn [mapM fst snd]. rewrite Iy. reflexivity.
  - cbn [filter fst snd Py.startswith Py.prefix Ascii.eqb Bool.eqb negb andb].
    change (Py.mem completed_time_placeholder "year") with true.
    change (Py.mem completed_time_placeholder "month") with true.
    cbn [mapM fst snd]. rewrite Iy. cbn [bind]. rewrite Im. reflexivity.
Qed.

Lemma check_placeholders_without_day_june :
  _check_placeholders june_dataset [("year", "2018")]
                      (at_ 2018 6 1 0 0 0) (at_ 2018 6 2 0 0 0)
  = Ok ((DT.year (at_ 2018 6 1 0 0 0) <=? 2018)
        && (2018 <=? DT.year (at_ 2018 6 2 0 0 0)))
  /\ _check_placeholders june_dataset [("year", "2018"); ("month", "01")]
                         (at_ 2018 6 1 0 0 0) (at_ 2018 6 2 0 0 0)
     = Ok ((DT.year (at_ 2018 6 1 0 0 0) <=? 2018)
           && (2018 <=? DT.year (at_ 2018 6 2 0 0 0))).
Proof.
  apply (check_placeholders_without_day june_dataset "2018" "01" 2018 1);
    vm_compute; reflexivity.
Defined.

(** ** What a save leaves on the disk *)

Lemma exec_nodup (d : disk) (s : step) :
  NoDup (Py.keys d) -> NoDup (Py.keys (exec d s)).
Proof.
  intros D. destruct s as [f|f t|src dst]; cbn [exec].
  - apply nodup_set, D.
  - destruct (Py.get d f); [apply nodup_set, D | exact D].
  - destruct (Py.get d src); [apply nodup_remove, nodup_set, D | exact D].
Qed.

Lemma run_nodup (steps : list step) (d : disk) :
  NoDup (Py.keys d) -> NoDup (Py.keys (run steps d)).
Proof.
  unfold run. revert d. induction steps as [|s steps IH]; intros d D;
    cbn [fold_left]; [exact D|].
  apply IH, exec_nodup, D.
Qed.

(** X10. A save that has run to its end leaves no backup file, and it
    changes no file but the one that is named (the disk holding every path
    once). *)
Theorem save_info_cache_frame
  (codec : Codec) (info_cache : cache_t) (filename : string) (d : disk) :
  distinct (Py.keys d) = true ->
  Py.get (save_info_cache codec info_cache (Some filename) d)
         (filename ++ ".backup") = None
  /\ forall g, g <> filename -> g <> filename ++ ".backup" ->
       Py.get (save_info_cache codec info_cache (Some filename) d) g
       = Py.get d g.
Proof.
  intros D. apply distinct_spec in D.
  unfold save_info_cache, save_info_cache_steps.
  set (backup := filename ++ ".backup").
  set (text := json_dump (map (to_json_dict codec) (Py.values info_cache))).
  rewrite app_comm_cons, run_app.
  set (d1 := run (open_w backup :: map (write backup) text) d).
  assert (D1 : NoDup (Py.keys d1)) by (apply run_nodup, D).
  assert (W : Py.get d1 backup = Some text
              /\ forall g, g <> backup -> Py.get d1 g = Py.get d g).
  { subst d1.
    change (run (open_w backup :: ?s) d) with (run s (Py.set d backup [])).
    destruct (run_writes backup text [] (Py.set d backup [])
                (get_set_same _ _ _)) as [A B].
    split; [exact A|]. intros g N. rewrite (B g N).
    apply get_set_other. congruence. }
  destruct W as [W1 W2]. clearbody d1.
  change (run [move backup filename] d1) with (exec d1 (move backup filename)).
  cbn [exec]. rewrite W1.
  assert (D2 : NoDup (Py.keys (Py.set d1 filename text)))
    by (apply nodup_set, D1).
  split.
  - rewrite (get_remove _ backup backup D2). now rewrite String.eqb_refl.
  - intros g Nf Nb. rewrite (get_remove _ backup g D2).
    destruct (String.eqb_spec g backup); [contradiction|].
    rewrite get_set_other by congruence. apply W2, Nb.
Qed.

Lemma save_info_cache_frame_june :
  Py.get (save_info_cache plain_codec june_cache (Some "/cache.json") old_disk)
         ("/cache.json" ++ ".backup") = None
  /\ forall g, g <> "/cache.json" -> g <> "/cache.json" ++ ".backup" ->
       Py.get (save_info_cache plain_codec june_cache (Some "/cache.json")
                               old_disk) g
       = Py.get old_disk g.
Proof.
  apply (save_info_cache_frame plain_codec june_cache "/cache.json" old_disk).
  vm_compute. reflexivity.
Defined.

(** ** A placeholder that nobody knows *)

Lemma format_missing (ps : list piece) (kw : Py.dict string) (name : string) :
  forallb good_piece ps = true ->
  In name (hole_names ps) ->
  Py.get kw name = None ->
  Fmt.format (pieces_string ps) kw = Err KeyError.
Proof.
  unfold Fmt.format. induction ps as [|[s|n] ps IH]; intros G I M.
  - contradiction.
  - simpl in G. apply andb_prop in G as [Gs G].
    cbn [pieces_string]. rewrite (format_text _ _ _ Gs), (IH G I M).
    reflexivity.
  - simpl in G. apply andb_prop in G as [Gn G].
    cbn [pieces_string]. rewrite (format_hole _ _ _ Gn).
    destruct I as [<-|I]; [now rewrite M|].
    destruct (Py.get kw n); [|reflexivity].
    now rewrite (IH G I M).
Qed.

Lemma get_app_none {V : Type} (a b : Py.dict V) (k : string) :
  Py.get a k = None -> Py.get b k = None -> Py.get (a ++ b)%list k = None.
Proof.
  induction a as [|[k' v'] a IH]; simpl; intros A B; [exact B|].
  destruct (String.eqb k k'); [discriminate | now apply IH].
Qed.

(** The user placeholders do not take the name of a time placeholder, and
    [name] is neither the one nor the other. *)
Definition unknown_placeholder (up : Py.dict string) (name : string) : bool :=
  no_time_names up
  && negb (existsb (String.eqb name) time_names)
  && negb (existsb (String.eqb name) (Py.keys up)).



(** ** Years of fewer than four digits *)

Lemma short_year (y : Z) :
  1 <= y <= 999 -> (String.length (Py.str_of_int y) <? 4)%nat = true.
Proof.
  intros H.
  apply (all_from_spec 999 1
           (fun y => (String.length (Py.str_of_int y) <? 4)%nat));
    [vm_compute; reflexivity | lia].
Qed.

(** Fewer digits than the regex asks for, and then something else. *)
Lemma run_digits_short
  (n : nat) (rest : Re.pattern) (c : ascii) (s2 : string) :
  Py.is_digit c = false ->
  forall (s1 : string) (st : Re.mstate),
  digits s1 = true ->
  (String.length s1 < n)%nat ->
  Re.run (repeat (Re.IAtom Re.ADigit) n ++ rest)%list
         (s1 ++ String c s2) st = None.
Proof.
  intros C. induction n as [|n IH]; intros s1 st D L; [lia|].
  destruct s1 as [|a s1]; cbn [repeat app append Re.run Re.atom_ok].
  - now rewrite C.
  - unfold digits in D. cbn [Py.chars list_ascii_of_string forallb] in D.
    apply andb_prop in D as [Da D]. rewrite Da.
    apply IH; [exact D | simpl in L; lia].
Qed.

(** ** [find_closest] and the excluded periods *)

Lemma find_files_in_window
  (env : Env) (up : Py.dict string) (self : Dataset) (cache : cache_t)
  (s e : datetime) (filters : option (Py.dict pvalue))
  (files : list FileInfo.t) (cache' : cache_t) :
  find_files env up self cache s e filters = Ok (files, cache') ->
  forall f, In f files -> in_window self s e f = true.
Proof.
  intros F f I. rewrite find_files_walk in F. bind_ok F wk Ewk.
  destruct wk as [[regex black_list] search_dirs].
  apply file_finder_filter in F as (all & _ & F).
  rewrite F in I. apply filter_In in I as [I _].
  now apply filter_In in I as [_ I].
Qed.

(** X13. The search of [find_closest] does not look into the excluded
    periods: for a dataset of many files, when the name rendered for the
    timestamp is no file, the file that [find_closest] returns is one
    whose period [is_excluded] does not hold, although the documentation
    of the method says that it ignores [Dataset.exclude]. *)
Theorem find_closest_skips_excluded
  (env : Env) (up : Py.dict string) (self : Dataset) (cache : cache_t)
  (timestamp : datetime) (filters : option (Py.dict pvalue))
  (start end_ s e : datetime) (hit : FileInfo.t) (cache' : cache_t) :
  single_file self = false ->
  no_direct_hit env up self timestamp ->
  closest_bounds self timestamp = Ok (start, end_) ->
  find_window (Some start) (Some end_) = Ok (s, e) ->
  find_closest env up self cache timestamp filters
  = Ok (closest_file hit, cache') ->
  exists t0 t1,
    FileInfo.times hit = (Some t0, Some t1)
    /\ is_excluded self (t0, t1) = false.
Proof.
  intros SF D B W H. unfold find_closest in H. rewrite SF in H.
  assert (X : match
                path_ <- generate_filename up self (one_time timestamp)
                                           None None ;;
                (if isfile env path_ then
                   r <- get_info env up self cache (FileInfo.of_path path_)
                                 None ;;
                   Ok (Some r)
                 else Ok None)
              with
              | Ok r => Ok r
              | Err UnknownPlaceholderError
              | Err UnfilledPlaceholderError => Ok None
              | Err e => Err e
              end = Ok None).
  { destruct D as [D|[D|(p & D & I)]]; rewrite D; simpl;
      [reflexivity | reflexivity | rewrite I; reflexivity]. }
  rewrite X in H. cbn [bind] in H.
  unfold closest_bounds in B. rewrite B in H. cbn [bind] in H.
  unfold find in H. rewrite W in H. cbn [bind] in H. rewrite SF in H.
  destruct (find_files env up self cache s e filters)
    as [[files cache1]|] eqn:F; cbn [bind negb] in H; [|discriminate H].
  destruct files as [|f0 rest]; [discriminate H|].
  unfold _prepare_find_files_return in H. cbn [orb bind] in H.
  rewrite files_of_file in H.
  assert (I : In hit (f0 :: rest)).
  { destruct (List.find (covers timestamp) (f0 :: rest)) as [c|] eqn:E.
    - inversion H; subst. now apply find_some in E as [I _].
    - inversion H; subst.
      now destruct (nearest_spec timestamp rest f0) as [I _]. }
  pose proof (find_files_in_window _ _ _ _ _ _ _ _ _ F hit I) as Wn.
  unfold in_window in Wn.
  destruct (period_of hit) as [p|] eqn:P; [|discriminate].
  apply andb_prop in Wn as [_ Ex]. apply negb_true_iff in Ex.
  apply period_of_ok in P. destruct p as [t0 t1].
  exists t0, t1. split; assumption.
Qed.

(** The file from 12:30 to 12:45 covers 12:35, but its period is excluded:
    the search returns the nearest of the other files. *)
Lemma find_closest_skips_excluded_june :
  (exists t0 t1,
     FileInfo.times file_1305 = (Some t0, Some t1)
     /\ is_excluded june_dataset (t0, t1) = false)
  /\ covers (at_ 2018 6 1 12 35 0) file_1230 = true
  /\ isfile june (FileInfo.path file_1230) = true.
Proof.
  split; [|split; vm_compute; reflexivity].
  apply (find_closest_skips_excluded june [] june_dataset []
           (at_ 2018 6 1 12 35 0) None DT.min DT.max DT.min (DT.max - 1)
           file_1305 (found_cache june_all)).
  - reflexivity.
  - right. right. exists "/data/20180601_1235-1235.nc". split; reflexivity.
  - vm_compute. reflexivity.
  - vm_compute. reflexivity.
  - vm_compute. reflexivity.
Defined.

(** ** The information cache only grows *)

(** The cache [c'] holds every record of [c]. *)
Definition extends (c c' : cache_t) : Prop :=
  forall p info, Py.get c p = Some info -> Py.get c' p = Some info.

Lemma extends_refl (c : cache_t) : extends c c.
Proof. intros p info H. exact H. Qed.

Lemma extends_trans (a b c : cache_t) :
  extends a b -> extends b c -> extends a c.
Proof. intros X Y p info H. apply Y, X, H. Qed.

Lemma get_info_extends
  (env : Env) (up : Py.dict string) (self : Dataset) (cache : cache_t)
  (file_info : FileInfo.t) (via : option info_via_t)
  (info : FileInfo.t) (cache' : cache_t) :
  get_info env up self cache file_info via = Ok (info, cache') ->
  extends cache cache'
  /\ Py.get cache' (FileInfo.path file_info) = Some info.
Proof.
  unfold get_info.
  destruct (Py.get cache (FileInfo.path file_info)) as [cached|] eqn:C.
  - intros H. inversion H; subst. split; [apply extends_refl | exact C].
  - intros H. cbv zeta in H.
    set (info0 := if single_file self then _ else file_info) in H.
    assert (P0 : FileInfo.path info0 = FileInfo.path file_info).
    { subst info0. destruct (single_file self); [|reflexivity].
      now destruct (time_coverage self). }
    clearbody info0.
    bind_ok H info1 E1.
    assert (P1 : FileInfo.path info1 = FileInfo.path file_info).
    { destruct (uses_filename _).
      - bind_ok E1 filled Ef. bind_ok E1 cov Ec. inversion E1; subst.
        exact P0.
      - inversion E1; subst. exact P0. }
    bind_ok H info2 E2.
    assert (P2 : FileInfo.path info2 = FileInfo.path file_info).
    { destruct (uses_handler _).
      - destruct (handler self) as [h|]; [|discriminate].
        bind_ok E2 hi Eh. inversion E2; subst. exact P1.
      - inversion E2; subst. exact P1. }
    bind_ok H info3 E3.
    assert (P3 : FileInfo.path info3 = FileInfo.path file_info).
    { destruct (FileInfo.times info2) as [[t0|] [t1|]].
      - inversion E3; subst. exact P2.
      - destruct (time_coverage self); try (inversion E3; subst; exact P2).
        bind_ok E3 t1 Et. inversion E3; subst. exact P2.
      - discriminate.
      - inversion E3; subst. exact P2. }
    inversion H; subst. rewrite P3. split.
    + intros p i G. rewrite get_set.
      destruct (String.eqb_spec p (FileInfo.path file_info)) as [->|_];
        [congruence | exact G].
    + apply get_set_same.
Qed.

(** The record [f] is in the cache. *)
Definition held (c : cache_t) (f : FileInfo.t) : Prop :=
  exists p, Py.get c p = Some f.

Lemma held_extends (c c' : cache_t) (f : FileInfo.t) :
  extends c c' -> held c f -> held c' f.
Proof. intros X [p G]. exists p. apply X, G. Qed.

Lemma matching_files_loop_extends
  (env : Env) (up : Py.dict string) (self : Dataset) (regex : Re.pattern)
  (start end_ : datetime) (filenames : list string) :
  forall (cache : cache_t) (found : list FileInfo.t) (cache' : cache_t),
  matching_files_loop env up self regex start end_ filenames cache
  = Ok (found, cache') ->
  extends cache cache' /\ Forall (held cache') found.
Proof.
  induction filenames as [|filename rest IH]; intros cache found cache' H;
    cbn [matching_files_loop] in H.
  - inversion H; subst. split; [apply extends_refl | constructor].
  - destruct (Re.match_ regex filename); [|apply IH, H].
    bind_ok H r E. destruct r as [file_info cache1].
    bind_ok H period Ep. bind_ok H r2 E2. destruct r2 as [found2 cache2].
    destruct (get_info_extends _ _ _ _ _ _ _ _ E) as [X G].
    destruct (IH _ _ _ E2) as [X2 F2].
    assert (Hd : held cache2 file_info).
    { apply (held_extends cache1); [exact X2|]. eexists. exact G. }
    destruct (_ && _); inversion H; subst;
      (split; [exact (extends_trans _ _ _ X X2)|]);
      [constructor; assumption | assumption].
Qed.

Lemma file_finder_extends
  (env : Env) (up : Py.dict string) (self : Dataset) (regex : Re.pattern)
  (black_list : Py.dict Re.pattern) (start end_ : datetime)
  (search_dirs : list (string * Py.dict string)) :
  forall (cache : cache_t) (files : list FileInfo.t) (cache' : cache_t),
  file_finder env up self regex black_list start end_ search_dirs cache
  = Ok (files, cache') ->
  extends cache cache' /\ Forall (held cache') files.
Proof.
  induction search_dirs as [|[path_ a] rest IH]; intros cache files cache' H;
    cbn [file_finder] in H.
  - inversion H; subst. split; [apply extends_refl | constructor].
  - bind_ok H r E. destruct r as [found cache1].
    bind_ok H r2 E2. destruct r2 as [more cache2].
    inversion H; subst. clear H.
    unfold _get_matching_files in E.
    destruct (matching_files_loop_extends _ _ _ _ _ _ _ _ _ _ E) as [X F].
    destruct (IH _ _ _ E2) as [X2 F2].
    split; [exact (extends_trans _ _ _ X X2)|].
    apply Forall_app. split; [|exact F2].
    rewrite Forall_forall in *. intros f I.
    apply filter_In in I as [I _].
    apply (held_extends cache1); [exact X2 | apply F, I].
Qed.

(** X14. The information cache only grows: a search that succeeds leaves
    every record that the cache held before under its path, unchanged, and
    every file that it yields is a record of the cache afterwards
    ([FileInfo.update], which is not among the sources, keeping the path as
    the description of the class says). *)
Theorem find_extends_cache
  (env : Env) (up : Py.dict string) (self : Dataset) (cache : cache_t)
  (start end_ : option datetime) (sort : bool) (bundle_ : bundle_arg)
  (filters : option (Py.dict pvalue)) (no_files_error : bool)
  (out : list found) (cache' : cache_t) :
  find env up self cache start end_ sort bundle_ filters no_files_error
  = Ok (out, cache') ->
  (forall p info, Py.get cache p = Some info -> Py.get cache' p = Some info)
  /\ forall f, In f (files_of out) -> exists p, Py.get cache' p = Some f.
Proof.
  intros H. unfold find in H.
  bind_ok H w Ew. destruct w as [s e].
  destruct (single_file self) eqn:SF.
  - destruct (isfile env (path self)); [|discriminate].
    bind_ok H r E. destruct r as [file_info cache1]. bind_ok H p Ep.
    destruct (get_info_extends _ _ _ _ _ _ _ _ E) as [X G].
    destruct (IntervalTree.interval_overlaps p (s, e)).
    + inversion H; subst. split; [exact X|].
      intros f [<-|[]]. eexists. exact G.
    + destruct no_files_error; inversion H; subst.
      split; [exact X | intros f []].
  - bind_ok H r E. destruct r as [files cache1].
    assert (P : exists o, _prepare_find_files_return env files sort bundle_
                          = Ok o /\ Ok (o, cache1) = Ok (out, cache')).
    { destruct (negb no_files_error).
      - bind_ok H o Eo. now exists o.
      - destruct files; [discriminate|]. bind_ok H o Eo. now exists o. }
    destruct P as (o & Eo & Eq). inversion Eq; subst o cache1. clear Eq H.
    assert (M : forall f, In f (files_of out) -> In f files).
    { intros f. rewrite (prepare_files _ _ _ _ _ Eo). unfold prepared.
      assert (S : In f (sorted start_time files) -> In f files)
        by (apply Permutation_in, sorted_perm).
      destruct bundle_ as [|n|freq|]; try destruct (is_sorting _ _);
        try destruct (n <? 0); try assumption; try tauto;
        intros []. }
    rewrite find_files_walk in E. bind_ok E wk Ewk.
    destruct wk as [[regex black_list] search_dirs].
    destruct (file_finder_extends _ _ _ _ _ _ _ _ _ _ _ E) as [X F].
    split; [exact X|]. intros f I.
    rewrite Forall_forall in F. exact (F f (M f I)).
Qed.

Lemma find_extends_cache_june :
  (forall p info,
      Py.get (cache_after (june_search no_bundle)) p = Some info ->
      Py.get (cache_after
                (find june [] june_dataset
                      (cache_after (june_search no_bundle))
                      (Some (at_ 2018 6 1 13 0 0))
                      (Some (at_ 2018 6 2 0 0 0)) false no_bundle None true))
             p = Some info)
  /\ forall f,
       In f (files_of
               (yielded
                  (find june [] june_dataset
                        (cache_after (june_search no_bundle))
                        (Some (at_ 2018 6 1 13 0 0))
                        (Some (at_ 2018 6 2 0 0 0)) false no_bundle None
                        true))) ->
       exists p,
         Py.get (cache_after
                   (find june [] june_dataset
                         (cache_after (june_search no_bundle))
                         (Some (at_ 2018 6 1 13 0 0))
                         (Some (at_ 2018 6 2 0 0 0)) false no_bundle None
                         true))
                p = Some f.
Proof.
  apply (find_extends_cache june [] june_dataset
           (cache_after (june_search no_bundle))
           (Some (at_ 2018 6 1 13 0 0)) (Some (at_ 2018 6 2 0 0 0))
           false no_bundle None true).
  vm_compute. reflexivity.
Defined.

(** X15. [get_info] asks once: after a call that has succeeded, every
    later call for the same path returns the same record and leaves the
    cache as it is, whatever [retrieve_via] says then; the file name is not
    parsed and the handler is not asked again. *)
Theorem get_info_asks_once
  (env : Env) (up up' : Py.dict string) (self : Dataset) (cache : cache_t)
  (file_info : FileInfo.t) (via via' : option info_via_t)
  (info : FileInfo.t) (cache' : cache_t) :
  get_info env up self cache file_info via = Ok (info, cache') ->
  get_info env up' self cache' file_info via' = Ok (info, cache').
Proof.
  intros H. destruct (get_info_extends _ _ _ _ _ _ _ _ H) as [_ G].
  unfold get_info. now rewrite G.
Qed.

Lemma get_info_asks_once_june :
  get_info june [] june_dataset
    (cache_after (june_search no_bundle))
    (FileInfo.of_path "/data/20180601_1305-1310.nc") (Some via_handler)
  = Ok (file_1305, cache_after (june_search no_bundle)).
Proof.
  apply (get_info_asks_once june [] [] june_dataset
           (cache_after (june_search no_bundle))
           (FileInfo.of_path "/data/20180601_1305-1310.nc")
           None (Some via_handler) file_1305
           (cache_after (june_search no_bundle))).
  vm_compute. reflexivity.
Defined.

(** ** Bundles of a frequency *)

Lemma group_by_key_same {A : Type} (key : A -> Z) (l : list A) :
  Forall (fun g => exists x rest,
              g = x :: rest /\ Forall (fun y => key y = key x) rest)
         (group_by_key key l).
Proof.
  induction l as [|x l IH]; cbn [group_by_key]; [constructor|].
  destruct (group_by_key key l) as [|[|y g] gs].
  - constructor; [|constructor]. exists x, []. split; [reflexivity|constructor].
  - constructor; [|exact IH]. exists x, []. split; [reflexivity|constructor].
  - inversion IH as [|? ? (y' & rest & E & F) IH']; subst.
    inversion E; subst y' rest.
    destruct (Z.eqb_spec (key x) (key y)) as [K|K].
    + constructor; [|exact IH'].
      exists x, (y :: g). split; [reflexivity|].
      constructor; [now symmetry|].
      eapply Forall_impl; [|exact F]. intros z Hz. simpl in Hz. congruence.
    + constructor; [|constructor; [|exact IH']].
      * exists x, []. split; [reflexivity|constructor].
      * exists y, g. split; [reflexivity | exact F].
Qed.

(** X16. Bundles of a frequency: when [find] is called with a frequency
    string that pandas knows, on files that all have a start time, the
    bundles taken together are the files in ascending order of their start
    times (none lost, none twice), no bundle is empty, and the files of one
    bundle lie in the same bin of the frequency. *)
Theorem frequency_bundles
  (env : Env) (files : list FileInfo.t) (sort : bool) (freq : string)
  (bin : datetime -> Z) :
  freq_bin env freq = Some bin ->
  forallb has_start files = true ->
  exists groups,
    _prepare_find_files_return env files sort (bundle_freq freq)
    = Ok (map bundle groups)
    /\ List.concat groups = sorted start_time files
    /\ Permutation (List.concat groups) files
    /\ Forall (fun g => exists x rest,
                   g = x :: rest
                   /\ Forall (fun y => bin (start_time y)
                                       = bin (start_time x)) rest)
              groups.
Proof.
  intros B S. exists (groupby_freq bin files).
  assert (C : List.concat (groupby_freq bin files) = sorted start_time files)
    by (unfold groupby_freq; apply concat_group_by_key).
  split; [|split; [exact C | split]].
  - unfold _prepare_find_files_return. rewrite orb_false_r.
    assert (E : (if sort then sorted_by_start files else Ok files)
                = Ok (if sort then sorted start_time files else files)).
    { destruct sort; [|reflexivity].
      unfold sorted_by_start. rewrite S. now destruct files as [|x [|y l]]. }
    rewrite E. cbn [bind]. rewrite B.
    destruct sort.
    + assert (S' : forallb has_start (sorted start_time files) = true).
      { apply forallb_forall. intros f I.
        rewrite forallb_forall in S. apply S.
        eapply Permutation_in; [apply sorted_perm | exact I]. }
      rewrite S'. unfold groupby_freq.
      now rewrite (sorted_ascending_id _ _ (sorted_ascending _ _)).
    + now rewrite S.
  - rewrite C. apply sorted_perm.
  - unfold groupby_freq.
    apply (group_by_key_same (fun info => bin (start_time info))).
Qed.

(** The example with a grouper by the hour. *)
Definition hourly : Env :=
  {| isfile := isfile june; iglob := iglob june;
     set_time_resolution := set_time_resolution june;
     decompress := decompress june;
     freq_bin := fun freq =>
       if String.eqb freq "H" then Some (fun t => t / DT.US_PER_HOUR)
       else None |}.

Lemma frequency_bundles_june :
  exists groups,
    _prepare_find_files_return hourly june_files false (bundle_freq "H")
    = Ok (map bundle groups)
    /\ List.concat groups = sorted start_time june_files
    /\ Permutation (List.concat groups) june_files
    /\ Forall (fun g => exists x rest,
                   g = x :: rest
                   /\ Forall (fun y => start_time y / DT.US_PER_HOUR
                                       = start_time x / DT.US_PER_HOUR) rest)
              groups.
Proof.
  apply (frequency_bundles hourly june_files false "H"
           (fun t => t / DT.US_PER_HOUR)).
  - reflexivity.
  - vm_compute. reflexivity.
Defined.

(** ** A user placeholder that is left at its default *)

Lemma get_app_r {V : Type} (a b : Py.dict V) (k : string) :
  Py.get a k = None -> Py.get (a ++ b)%list k = Py.get b k.
Proof.
  induction a as [|[k' v'] a IH]; simpl; intros A; [reflexivity|].
  destruct (String.eqb k k'); [discriminate | now apply IH].
Qed.

Lemma get_map_values {V W : Type} (f : string -> V -> W) (d : Py.dict V)
  (k : string) :
  Py.get (map (fun pv => (fst pv, f (fst pv) (snd pv))) d) k
  = option_map (f k) (Py.get d k).
Proof.
  induction d as [|[k' v] d IH]; simpl; [reflexivity|].
  destruct (String.eqb_spec k k') as [->|_]; [reflexivity | exact IH].
Qed.

Lemma time_name_ph (name : string) :
  In name time_names -> exists e u, name = ph_name e u.
Proof.
  intros I. vm_compute in I.
  repeat (destruct I as [<-|I];
          [first [ now exists false, Year | now exists false, Year2
                 | now exists false, Month | now exists false, Day
                 | now exists false, Doy | now exists false, Hour
                 | now exists false, Minute | now exists false, Second
                 | now exists false, Millisecond
                 | now exists true, Year | now exists true, Year2
                 | now exists true, Month | now exists true, Day
                 | now exists true, Doy | now exists true, Hour
                 | now exists true, Minute | now exists true, Second
                 | now exists true, Millisecond ]|]).
  contradiction.
Qed.

Lemma special_app (a b : string) :
  has_special_chars (a ++ b) = has_special_chars a || has_special_chars b.
Proof.
  unfold has_special_chars, Py.any_char_in. rewrite chars_app.
  apply existsb_app.
Qed.

Lemma fill_in_special (val : string -> string) (ps : list piece) (p : string) :
  In p (hole_names ps) ->
  has_special_chars (val p) = true ->
  has_special_chars (fill_in val ps) = true.
Proof.
  induction ps as [|[s|n] ps IH]; cbn [hole_names flat_map fill_in app];
    intros I S; [contradiction | |].
  - rewrite special_app, (IH I S). apply orb_true_r.
  - rewrite special_app. destruct I as [->|I].
    + now rewrite S.
    + rewrite (IH I S). apply orb_true_r.
Qed.

(** Every placeholder of the template is a time placeholder or a user
    placeholder, no user placeholder has the name of a time placeholder,
    and the dictionary of the class holds every name once. *)
Definition all_known (up : Py.dict string) (ps : list piece) : bool :=
  forallb good_piece ps
  && forallb (fun n => existsb (String.eqb n) time_names
                       || existsb (String.eqb n) (Py.keys up))
             (hole_names ps)
  && no_time_names up
  && distinct (Py.keys up).

Lemma remove_group_of_string (p v : string) :
  _remove_group_capturing p (_add_group_capturing p (str_value v)) = v.
Proof.
  unfold _remove_group_capturing, _add_group_capturing. cbv zeta.
  replace ("(?P<" ++ p ++ ">" ++ v ++ ")")
    with (("(?P<" ++ p ++ ">") ++ (v ++ ")"))
    by (now rewrite <- !append_assoc).
  rewrite contains_app, drop_app. cbn [negb].
  apply take_all_but_last.
Qed.



(** ** Loading the cache *)

(** The paths of the records of a cache file; none when the file is
    missing or is no list of records. *)
Definition file_paths (d : disk) (filename : string) : list string :=
  match Py.get d filename with
  | Some text_ =>
      match json_load text_ with
      | Ok records => map json_path records
      | Err _ => []
      end
  | None => []
  end.

Lemma mapM_paths (codec : Codec) (records : list json_dict)
  (loaded : list (string * FileInfo.t)) :
  mapM (fun json_dict_ =>
          info <- from_json_dict codec json_dict_ ;;
          Ok (json_path json_dict_, info)) records = Ok loaded ->
  map fst loaded = map json_path records.
Proof.
  revert loaded. induction records as [|r records IH]; intros loaded H;
    cbn [mapM] in H.
  - inversion H. reflexivity.
  - bind_ok H x Ex. bind_ok Ex info Ei. inversion Ex; subst x.
    bind_ok H more Em. inversion H; subst loaded.
    cbn [map fst]. now rewrite (IH more eq_refl).
Qed.

(** X18. [load_info_cache] changes the cache only at the paths of the
    records in the file: the record of every other path is after the load
    what it was before, be the file missing, unreadable or good. *)
Theorem load_info_cache_frame
  (codec : Codec) (d : disk) (info_cache : cache_t) (filename p : string) :
  existsb (String.eqb p) (file_paths d filename) = false ->
  Py.get (load_info_cache codec d info_cache (Some filename)) p
  = Py.get info_cache p.
Proof.
  unfold file_paths, load_info_cache. intros N.
  destruct (Py.get d filename) as [text_|]; [|reflexivity].
  destruct (json_load text_) as [records|]; cbn [bind]; [|reflexivity].
  destruct (mapM _ records) as [loaded|] eqn:M; [|reflexivity].
  apply get_update_other. intros I.
  unfold Py.of_list in I. apply keys_update in I as [[]|I].
  unfold Py.keys in I. rewrite (mapM_paths _ _ _ M) in I.
  rewrite (proj2 (existsb_exists _ _)) in N; [discriminate|].
  exists p. split; [exact I | apply String.eqb_refl].
Qed.

Lemma load_info_cache_frame_june :
  Py.get (load_info_cache plain_codec
            (save_info_cache plain_codec june_cache (Some "/cache.json")
                             old_disk)
            [("/data/other.nc", FileInfo.of_path "/data/other.nc")]
            (Some "/cache.json")) "/data/other.nc"
  = Py.get [("/data/other.nc", FileInfo.of_path "/data/other.nc")]
           "/data/other.nc".
Proof.
  apply (load_info_cache_frame plain_codec
           (save_info_cache plain_codec june_cache (Some "/cache.json")
                            old_disk)
           [("/data/other.nc", FileInfo.of_path "/data/other.nc")]
           "/cache.json" "/data/other.nc").
  vm_compute. reflexivity.
Defined.

(** ** The parts of a path *)

Lemma first_special_spec (s : string) :
  match first_special s with
  | None => has_special_chars s = false
  | Some i =>
      has_special_chars (Py.take i s) = false
      /\ Py.take i s ++ Py.drop i s = s
      /\ exists c rest,
           Py.drop i s = String c rest
           /\ existsb (Ascii.eqb c) DatasetClass._special_chars = true
  end.
Proof.
  unfold has_special_chars, Py.any_char_in.
  induction s as [|c s IH]; cbn [first_special]; [reflexivity|].
  destruct (existsb (Ascii.eqb c) DatasetClass._special_chars) eqn:E.
  - split; [reflexivity|]. split; [reflexivity|]. now exists c, s.
  - destruct (first_special s) as [i|]; cbn [option_map].
    + destruct IH as (A & B & C). split; [|split].
      * cbn [Py.take Py.chars list_ascii_of_string existsb].
        rewrite E. exact A.
      * cbn [Py.take Py.drop append]. now rewrite B.
      * exact C.
    + cbn [Py.chars list_ascii_of_string existsb]. rewrite E. exact IH.
Qed.

(** The base directory and the sub directory of a dataset. *)
Definition split_at_placeholders (self : Dataset) (value : string) : Prop :=
  path self = value
  /\ _base_dir self ++ _sub_dir self = Path.dirname value
  /\ has_special_chars (_base_dir self) = false
  /\ (_sub_dir self = EmptyString
      \/ exists c rest,
           _sub_dir self = String c rest
           /\ existsb (Ascii.eqb c) DatasetClass._special_chars = true)
  /\ single_file self = negb (has_special_chars value).

Lemma set_path_split
  (up : Py.dict string) (self self' : Dataset) (value : string) :
  _sub_dir self = EmptyString ->
  snd (set_path up self value) = Ok self' ->
  split_at_placeholders self' value.
Proof.
  intros S0. unfold set_path.
  pose proof (first_special_spec (Path.dirname value)) as F.
  destruct (first_special (Path.dirname value)) as [i|].
  - destruct F as (A & B & C).
    match goal with
    | |- context [set_placeholders up ?s ?ph] =>
        destruct (set_placeholders up s ph) as [up1 [s1|e]] eqn:E
    end; cbn [snd bind]; [|discriminate].
    unfold set_placeholders in E. inversion E as [[E1 E2]]. clear E E1.
    bind_ok E2 regex Er. inversion E2; subst s1.
    intros H. inversion H; subst self'. unfold split_at_placeholders.
    cbn [path _base_dir _sub_dir single_file with_path_regex].
    repeat split; try assumption. now right.
  - match goal with
    | |- context [set_placeholders up ?s ?ph] =>
        destruct (set_placeholders up s ph) as [up1 [s1|e]] eqn:E
    end; cbn [snd bind]; [|discriminate].
    unfold set_placeholders in E. inversion E as [[E1 E2]]. clear E E1.
    bind_ok E2 regex Er. inversion E2; subst s1.
    intros H. inversion H; subst self'. unfold split_at_placeholders.
    cbn [path _base_dir _sub_dir single_file with_path_regex].
    rewrite S0, append_nil_r. repeat split; try assumption. now left.
Qed.

Lemma set_placeholders_split
  (up : Py.dict string) (self self' : Dataset) (ph : Py.dict pvalue)
  (value : string) :
  snd (set_placeholders up self ph) = Ok self' ->
  split_at_placeholders self value -> split_at_placeholders self' value.
Proof.
  unfold set_placeholders. cbn [snd]. intros H S.
  bind_ok H regex Er. inversion H; subst self'. exact S.
Qed.



(** ** A placeholder that is used twice *)

(** No opening brace in the text. *)
Definition no_lbrace (s : string) : bool :=
  forallb (fun c => negb (Ascii.eqb c Fmt.lbrace)) (Py.chars s).

Lemma prefix_field_other (p : string) (c : ascii) (rest : string) :
  Ascii.eqb c Fmt.lbrace = false ->
  Py.prefix (field p) (String c rest) = false.
Proof.
  intros H. unfold field. cbn [append Py.prefix].
  change "{"%char with Fmt.lbrace. rewrite Ascii.eqb_sym, H. reflexivity.
Qed.

Lemma index_no_lbrace (p s rest : string) :
  no_lbrace s = true ->
  Py.index (field p) (s ++ rest)
  = option_map (Nat.add (String.length s)) (Py.index (field p) rest).
Proof.
  unfold no_lbrace. induction s as [|c s IH]; intros H.
  - cbn [append String.length]. now destruct (Py.index (field p) rest).
  - cbn [Py.chars list_ascii_of_string forallb] in H.
    apply andb_prop in H as [Hc H]. apply negb_true_iff in Hc.
    cbn [append Py.index]. rewrite (prefix_field_other p c _ Hc), (IH H).
    destruct (Py.index (field p) rest); reflexivity.
Qed.

Lemma replace_no_lbrace (p v s rest : string) :
  no_lbrace s = true ->
  Py.replace_from O (field p) v (s ++ rest)
  = s ++ Py.replace_from O (field p) v rest.
Proof.
  unfold no_lbrace. induction s as [|c s IH]; intros H; [reflexivity|].
  cbn [Py.chars list_ascii_of_string forallb] in H.
  apply andb_prop in H as [Hc H]. apply negb_true_iff in Hc.
  cbn [append Py.replace_from]. rewrite (prefix_field_other p c _ Hc), (IH H).
  reflexivity.
Qed.

Lemma replace_skip (old new a rest : string) :
  Py.replace_from (String.length a) old new (a ++ rest)
  = Py.replace_from O old new rest.
Proof.
  induction a as [|c a IH]; [reflexivity|].
  cbn [String.length append Py.replace_from]. exact IH.
Qed.

(** The word characters and the closing brace are no opening brace. *)
Lemma name_no_lbrace (q : string) :
  forallb Py.is_word (Py.chars q) = true -> no_lbrace (q ++ "}") = true.
Proof.
  unfold no_lbrace. induction q as [|c q IH]; intros H; [reflexivity|].
  cbn [Py.chars list_ascii_of_string forallb] in H.
  apply andb_prop in H as [Hc H].
  cbn [append Py.chars list_ascii_of_string forallb].
  destruct (word_not_syntax c Hc) as (L & _ & _). rewrite L.
  exact (IH H).
Qed.

Lemma prefix_name_differs (p q rest : string) :
  forallb Py.is_word (Py.chars p) = true ->
  forallb Py.is_word (Py.chars q) = true ->
  p <> q ->
  Py.prefix (p ++ "}") (q ++ String "}" rest) = false.
Proof.
  revert q. induction p as [|a p IH]; intros q Wp Wq N.
  - destruct q as [|b q]; [contradiction|].
    cbn [Py.chars list_ascii_of_string forallb] in Wq.
    apply andb_prop in Wq as [Wb _].
    destruct (word_not_syntax b Wb) as (_ & R & _).
    cbn [append Py.prefix]. change "}"%char with Fmt.rbrace.
    rewrite Ascii.eqb_sym, R. reflexivity.
  - cbn [Py.chars list_ascii_of_string forallb] in Wp.
    apply andb_prop in Wp as [Wa Wp].
    destruct q as [|b q].
    + destruct (word_not_syntax a Wa) as (_ & R & _).
      cbn [append Py.prefix]. change "}"%char with Fmt.rbrace.
      now rewrite R.
    + cbn [Py.chars list_ascii_of_string forallb] in Wq.
      apply andb_prop in Wq as [Wb Wq].
      cbn [append Py.prefix].
      destruct (Ascii.eqb_spec a b) as [->|_]; [|reflexivity].
      cbn [andb]. apply IH; try assumption. congruence.
Qed.

Lemma no_braces_no_lbrace (s : string) :
  no_braces s = true -> no_lbrace s = true.
Proof.
  unfold no_braces, no_lbrace. induction (Py.chars s) as [|c l IH];
    cbn [forallb]; intros H; [reflexivity|].
  apply andb_prop in H as [Hc H]. apply andb_prop in Hc as [Hc _].
  now rewrite Hc, (IH H).
Qed.

Lemma field_name_word (q : string) :
  field_name q = true -> forallb Py.is_word (Py.chars q) = true.
Proof.
  unfold field_name. destruct q; [discriminate|].
  intros H. now apply andb_prop in H as [_ H].
Qed.

Lemma field_split (q rest : string) :
  field q ++ rest = String Fmt.lbrace ((q ++ "}") ++ rest).
Proof. unfold field. cbn [append]. now rewrite !append_assoc. Qed.

Lemma prefix_field_differs (p q rest : string) :
  field_name p = true -> field_name q = true -> p <> q ->
  Py.prefix (field p) (field q ++ rest) = false.
Proof.
  intros Fp Fq N. rewrite field_split. unfold field.
  cbn [append Py.prefix]. change "{"%char with Fmt.lbrace.
  rewrite Ascii.eqb_refl. cbn [andb]. rewrite append_assoc.
  apply prefix_name_differs; [now apply field_name_word
                             | now apply field_name_word | exact N].
Qed.

Lemma length_field (p : string) :
  String.length (field p) = S (String.length (p ++ "}")).
Proof. reflexivity. Qed.

(** The first [{p}] comes after the pieces that do not hold it. *)
Lemma index_pieces (p : string) (ps : list piece) (rest : string) :
  field_name p = true ->
  forallb good_piece ps = true ->
  ~ In p (hole_names ps) ->
  Py.index (field p) (pieces_string ps ++ rest)
  = option_map (Nat.add (String.length (pieces_string ps)))
               (Py.index (field p) rest).
Proof.
  intros Fp. induction ps as [|[s|q] ps IH]; intros G N.
  - cbn [pieces_string append String.length].
    now destruct (Py.index (field p) rest).
  - simpl in G. apply andb_prop in G as [Gs G].
    cbn [pieces_string]. rewrite append_assoc.
    rewrite (index_no_lbrace _ _ _ (no_braces_no_lbrace _ Gs)), (IH G N).
    rewrite length_append.
    destruct (Py.index (field p) rest); cbn [option_map]; [|reflexivity].
    f_equal. lia.
  - simpl in G. apply andb_prop in G as [Gq G].
    assert (Npq : p <> q) by (intros ->; apply N; now left).
    assert (N' : ~ In p (hole_names ps)) by (intros I; apply N; now right).
    cbn [pieces_string]. rewrite append_assoc.
    pose proof (prefix_field_differs p q (pieces_string ps ++ rest) Fp Gq Npq)
      as X.
    rewrite field_split in *. cbn [Py.index]. rewrite X.
    rewrite (index_no_lbrace _ _ _ (name_no_lbrace _ (field_name_word _ Gq))).
    rewrite (IH G N'). cbn [String.length]. rewrite !length_append.
    destruct (Py.index (field p) rest); cbn [option_map]; [|reflexivity].
    f_equal. rewrite length_field, length_append. lia.
Qed.

Lemma replace_pieces (p v : string) (ps : list piece) (rest : string) :
  field_name p = true ->
  forallb good_piece ps = true ->
  ~ In p (hole_names ps) ->
  Py.replace_from O (field p) v (pieces_string ps ++ rest)
  = pieces_string ps ++ Py.replace_from O (field p) v rest.
Proof.
  intros Fp. induction ps as [|[s|q] ps IH]; intros G N.
  - reflexivity.
  - simpl in G. apply andb_prop in G as [Gs G].
    cbn [pieces_string]. rewrite !append_assoc.
    now rewrite (replace_no_lbrace _ _ _ _ (no_braces_no_lbrace _ Gs)),
      (IH G N).
  - simpl in G. apply andb_prop in G as [Gq G].
    assert (Npq : p <> q) by (intros ->; apply N; now left).
    assert (N' : ~ In p (hole_names ps)) by (intros I; apply N; now right).
    cbn [pieces_string]. rewrite !append_assoc.
    pose proof (prefix_field_differs p q (pieces_string ps ++ rest) Fp Gq Npq)
      as X.
    rewrite !field_split in *. cbn [Py.replace_from]. rewrite X.
    rewrite (replace_no_lbrace _ _ _ _
               (name_no_lbrace _ (field_name_word _ Gq))).
    now rewrite (IH G N').
Qed.

Lemma replace_field (p v rest : string) :
  Py.replace_from O (field p) v (field p ++ rest)
  = v ++ Py.replace_from O (field p) v rest.
Proof.
  pose proof (prefix_app (field p) rest) as X.
  rewrite field_split in *. cbn [Py.replace_from]. rewrite X.
  change (Nat.pred (String.length (field p)))
    with (String.length (p ++ "}")).
  now rewrite replace_skip.
Qed.

Lemma count_str_app (a b : list string) (p : string) :
  count_str (a ++ b) p = (count_str a p + count_str b p)%nat.
Proof. unfold count_str. now rewrite filter_app, length_app. Qed.

Lemma count_str_cons (x : string) (l : list string) (p : string) :
  count_str (x :: l) p
  = ((if String.eqb p x then 1 else 0) + count_str l p)%nat.
Proof. unfold count_str. cbn [filter]. now destruct (String.eqb p x). Qed.

Lemma count_absent (l : list string) (p : string) :
  ~ In p l -> count_str l p = O.
Proof.
  unfold count_str. induction l as [|x l IH]; intros N; [reflexivity|].
  cbn [filter]. destruct (String.eqb_spec p x) as [->|_].
  - exfalso. apply N. now left.
  - apply IH. intros I. apply N. now right.
Qed.

(** The placeholders that are there more than once, when one is there
    twice and the others once. *)
Lemma duplicated_names (l1 l2 l3 : list string) (x : string) :
  NoDup (l1 ++ x :: l2 ++ l3)%list ->
  filter (fun p => (1 <? count_str (l1 ++ x :: l2 ++ x :: l3)%list p)%nat)
         (l1 ++ x :: l2 ++ x :: l3)%list
  = [x; x].
Proof.
  intros D.
  assert (Nx : ~ In x l1 /\ ~ In x l2 /\ ~ In x l3).
  { apply NoDup_remove_2 in D. rewrite !in_app_iff in D. tauto. }
  destruct Nx as (N1 & N2 & N3).
  assert (C : forall p,
             count_str (l1 ++ x :: l2 ++ x :: l3)%list p
             = (count_str (l1 ++ x :: l2 ++ l3)%list p
                + if String.eqb p x then 1 else 0)%nat).
  { intros p. rewrite !count_str_app, !count_str_cons, !count_str_app,
      !count_str_cons. lia. }
  assert (Cx : count_str (l1 ++ x :: l2 ++ l3)%list x = 1%nat).
  { rewrite count_str_app, count_str_cons, count_str_app,
      (count_absent _ _ N1), (count_absent _ _ N2), (count_absent _ _ N3),
      String.eqb_refl. reflexivity. }
  assert (F : forall l, ~ In x l ->
              filter (fun p => (1 <? count_str (l1 ++ x :: l2 ++ x :: l3)%list
                                                p)%nat) l = []).
  { intros l N. apply filter_none. intros p I. rewrite C.
    destruct (String.eqb_spec p x) as [->|_]; [contradiction|].
    pose proof (count_nodup _ p D). apply Nat.ltb_ge. lia. }
  assert (T : (1 <? count_str (l1 ++ x :: l2 ++ x :: l3)%list x)%nat = true).
  { rewrite C, Cx, String.eqb_refl. reflexivity. }
  rewrite filter_app. cbn [filter]. rewrite T, filter_app. cbn [filter].
  rewrite T, (F l1 N1), (F l2 N2), (F l3 N3). reflexivity.
Qed.

Definition raw_regex (u : tunit) : string :=
  "\d{" ++ digit_string (width u) ++ "}".

(** The regex without its group, the braces doubled for [format]. *)
Definition escaped (u : tunit) : string :=
  "\d{{" ++ digit_string (width u) ++ "}}".

Lemma remove_group_regex (e : bool) (u : tunit) :
  _remove_group_capturing (ph_name e u) (group_regex e u) = raw_regex u
  /\ Py.replace "}" "}}" (Py.replace "{" "{{" (raw_regex u)) = escaped u.
Proof. destruct e, u; split; reflexivity. Qed.

Lemma take_app (a b : string) : Py.take (String.length a) (a ++ b) = a.
Proof.
  induction a as [|c a IH]; [now destruct b|].
  cbn [String.length append Py.take]. now rewrite IH.
Qed.

Lemma replace_nil (old new : string) :
  Py.replace_from O old new EmptyString = EmptyString.
Proof. reflexivity. Qed.

Lemma pieces_string_app (a b : list piece) :
  pieces_string (a ++ b) = pieces_string a ++ pieces_string b.
Proof.
  induction a as [|[s|q] a IH]; cbn [app pieces_string];
    [reflexivity | |]; now rewrite IH, append_assoc.
Qed.

Lemma index_here (p s : string) : Py.index p (p ++ s) = Some O.
Proof.
  assert (U : forall x, Py.index p x
                        = if Py.prefix p x then Some O
                          else match x with
                               | EmptyString => None
                               | String _ x' => option_map S (Py.index p x')
                               end) by (intros [|? ?]; reflexivity).
  now rewrite U, prefix_app.
Qed.

(** One round of covering: the second [{p}] gives way to the regex. *)
Lemma cover_second (p v : string) (a b c : list piece) :
  field_name p = true ->
  forallb good_piece a = true -> forallb good_piece b = true ->
  forallb good_piece c = true ->
  ~ In p (hole_names a) -> ~ In p (hole_names b) -> ~ In p (hole_names c) ->
  cover_duplicate
    (pieces_string (a ++ hole p :: b ++ hole p :: c)) (p, v)
  = Ok (pieces_string (a ++ hole p :: b)
        ++ Py.replace "}" "}}" (Py.replace "{" "{{" v)
        ++ pieces_string c).
Proof.
  intros Fp Ga Gb Gc Na Nb Nc. unfold cover_duplicate.
  rewrite !pieces_string_app. cbn [pieces_string].
  rewrite !pieces_string_app. cbn [pieces_string].
  rewrite (index_pieces p a _ Fp Ga Na).
  assert (X : Py.index (field p)
                (field p ++ pieces_string b ++ field p ++ pieces_string c)
              = Some O) by apply index_here.
  rewrite X. cbn [option_map]. cbv zeta.
  replace (String.length (pieces_string a) + 0 + String.length p + 2)%nat
    with (String.length (pieces_string a ++ field p)).
  2:{ rewrite length_append, length_field, length_append. simpl. lia. }
  rewrite <- (append_assoc (pieces_string a) (field p)).
  rewrite take_app, drop_app.
  unfold Py.replace at 1.
  rewrite (replace_pieces p _ b _ Fp Gb Nb), replace_field.
  rewrite <- (append_nil_r (pieces_string c)) at 1.
  rewrite (replace_pieces p _ c _ Fp Gc Nc), replace_nil, append_nil_r.
  now rewrite !append_assoc.
Qed.

Lemma format_pieces_then
  (ps : list piece) (rest : string) (kw : Py.dict string)
  (val : string -> string) :
  forallb good_piece ps = true ->
  (forall name, In name (hole_names ps) -> Py.get kw name = Some (val name)) ->
  Fmt.format_from Fmt.Text (pieces_string ps ++ rest) kw
  = r <- Fmt.format_from Fmt.Text rest kw ;; Ok (fill_in val ps ++ r).
Proof.
  induction ps as [|[s|name] ps IH]; intros G H.
  - cbn [pieces_string fill_in append].
    destruct (Fmt.format_from Fmt.Text rest kw); reflexivity.
  - simpl in G. apply andb_prop in G as [Gs G].
    cbn [pieces_string fill_in].
    rewrite append_assoc, (format_text _ _ _ Gs), (IH G H).
    destruct (Fmt.format_from Fmt.Text rest kw); cbn [bind];
      [now rewrite append_assoc | reflexivity].
  - simpl in G. apply andb_prop in G as [Gn G].
    cbn [pieces_string fill_in].
    rewrite append_assoc, (format_hole _ _ _ Gn), (H name (or_introl eq_refl)).
    rewrite IH; [| exact G | intros n I; apply H; right; exact I].
    destruct (Fmt.format_from Fmt.Text rest kw); cbn [bind];
      [now rewrite append_assoc | reflexivity].
Qed.

(** [format] turns the doubled braces back into single ones. *)
Lemma format_escaped (u : tunit) (rest : string) (kw : Py.dict string) :
  Fmt.format_from Fmt.Text (escaped u ++ rest) kw
  = r <- Fmt.format_from Fmt.Text rest kw ;; Ok (raw_regex u ++ r).
Proof.
  destruct u; cbn; destruct (Fmt.format_from Fmt.Text rest kw); reflexivity.
Qed.

Lemma parse_raw (u : tunit) (st : Re.pstate) (rest : string) :
  Re.parse Re.Normal st (raw_regex u ++ rest)
  = Re.parse Re.Normal
      (Re.with_pend (Re.PRep Re.ADigit (width u)) (Re.flush st)) rest.
Proof. destruct u; reflexivity. Qed.

Lemma parse_tok_names (toks : list tok) (st : Re.pstate) (n : string) :
  In n (Re.names (fold_left parse_tok toks st)) ->
  In n (ph_names toks) \/ In n (Re.names st).
Proof.
  unfold ph_names. revert st.
  induction toks as [|[c|e u] toks IH]; intros st I; cbn [fold_left] in I.
  - now right.
  - apply IH in I as [I|I]; [now left | right; exact I].
  - apply IH in I as [I|I]; [left; cbn; now right |].
    cbn in I. destruct I as [<-|I]; [left; cbn; now left | now right].
Qed.

Lemma nodup_app_apart {A : Type} (a b : list A) (x : A) :
  NoDup (a ++ b)%list -> In x a -> In x b -> False.
Proof.
  induction a as [|y a IH]; intros D Ia Ib; [destruct Ia|].
  cbn [app] in D. inversion D as [|? ? N D']; subst.
  destruct Ia as [->|Ia]; [|exact (IH D' Ia Ib)].
  apply N, in_or_app. now right.
Qed.

(** The pattern of a template in which the placeholder [ph e u] comes a
    second time, between [T2] and [T3]. *)
Definition pattern_twice (T1 : list tok) (e : bool) (u : tunit)
  (T2 T3 : list tok) : Re.pattern :=
  (Re.IBol :: flat_map items_of (T1 ++ ph e u :: T2)
   ++ repeat (Re.IAtom Re.ADigit) (width u)
   ++ flat_map items_of T3 ++ [Re.IEol])%list.

Lemma compile_twice (T1 : list tok) (e : bool) (u : tunit) (T2 T3 : list tok) :
  forallb plain_tok (T1 ++ ph e u :: T2 ++ T3) = true ->
  NoDup (ph_names (T1 ++ ph e u :: T2 ++ T3)) ->
  Re.compile ("^" ++ regex_body (T1 ++ ph e u :: T2)
              ++ raw_regex u ++ regex_body T3 ++ "$")
  = Ok (pattern_twice T1 e u T2 T3).
Proof.
  intros P D.
  replace (T1 ++ ph e u :: T2 ++ T3)%list
    with ((T1 ++ ph e u :: T2) ++ T3)%list in P, D
    by (rewrite <- app_assoc; reflexivity).
  rewrite forallb_app in P. apply andb_prop in P as [Pa Pc].
  unfold ph_names in D. unfold phs in D. rewrite flat_map_app, map_app in D.
  fold (phs (T1 ++ ph e u :: T2)) in D. fold (phs T3) in D.
  fold (ph_names (T1 ++ ph e u :: T2)) in D. fold (ph_names T3) in D.
  pose proof (NoDup_app_remove_r _ _ D) as Da.
  pose proof (NoDup_app_remove_l _ _ D) as Dc.
  unfold Re.compile.
  change (Re.parse Re.Normal ?st ("^" ++ ?s))
    with (Re.parse Re.Normal (Re.emit Re.IBol st) s).
  rewrite (parse_body _ _ _ Pa Da) by (intros n _ []).
  rewrite parse_raw.
  rewrite (parse_body T3 _ _ Pc Dc).
  2:{ intros n I J. cbn [Re.with_pend Re.flush Re.names] in J.
      apply parse_tok_names in J as [J|[]].
      exact (nodup_app_apart _ _ n D J I). }
  cbn [Re.parse].
  match goal with
  | |- context [fold_left parse_tok T3 ?st] =>
      destruct (parse_tok_out T3 st) as [O3 D3]
  end.
  match type of O3 with
  | context [fold_left parse_tok (T1 ++ ph e u :: T2) ?st] =>
      destruct (parse_tok_out (T1 ++ ph e u :: T2) st) as [Oa Da']
  end.
  cbn [Re.emit Re.with_pend Re.depth Re.flush Re.out Re.pend Re.flush_items
       app] in *.
  rewrite D3, Da'. cbn [Nat.eqb]. rewrite O3, Oa.
  unfold pattern_twice. cbn [rev].
  rewrite !rev_app_distr, !rev_involutive, rev_repeat. cbn [rev app].
  rewrite <- !app_assoc. reflexivity.
Qed.

Lemma ph_names_app (a b : list tok) :
  ph_names (a ++ b) = (ph_names a ++ ph_names b)%list.
Proof. unfold ph_names, phs. now rewrite flat_map_app, map_app. Qed.

Lemma captures_app (a b : list tok) (t0 t1 : datetime) :
  captures (a ++ b) t0 t1 = (captures a t0 t1 ++ captures b t0 t1)%list.
Proof. unfold captures, phs. now rewrite flat_map_app, map_app. Qed.

Lemma in_dedup (l : list string) (x : string) : In x (dedup l) -> In x l.
Proof.
  induction l as [|y l IH]; [intros []|]. cbn [dedup].
  intros [->|I]; [now left|]. right. apply IH.
  apply filter_In in I. apply I.
Qed.

(** [_fill_placeholders_with_regexes] on a plain template in which one
    placeholder comes twice. *)
Lemma fill_twice
  (up : Py.dict string) (self : Dataset)
  (T1 : list tok) (e : bool) (u : tunit) (T2 T3 : list tok) :
  no_time_names up = true ->
  _time_placeholder self = completed_time_placeholder ->
  forallb plain_tok (T1 ++ ph e u :: T2 ++ T3) = true ->
  NoDup (ph_names (T1 ++ ph e u :: T2 ++ T3)) ->
  _fill_placeholders_with_regexes up self
    (template_of (T1 ++ ph e u :: T2 ++ ph e u :: T3)) None
  = Ok (pattern_twice T1 e u T2 T3).
Proof.
  intros U T P D.
  assert (P' : forallb plain_tok T1 = true /\ forallb plain_tok T2 = true
               /\ forallb plain_tok T3 = true).
  { rewrite forallb_app in P. cbn [forallb plain_tok andb] in P.
    rewrite forallb_app in P.
    apply andb_prop in P as [P1 P]. apply andb_prop in P as [P2 P3].
    repeat split; assumption. }
  destruct P' as (P1 & P2 & P3).
  assert (Pf : forallb plain_tok (T1 ++ ph e u :: T2 ++ ph e u :: T3) = true).
  { rewrite forallb_app. cbn [forallb plain_tok andb].
    rewrite forallb_app. cbn [forallb plain_tok andb].
    now rewrite P1, P2, P3. }
  pose proof D as D'.
  rewrite ph_names_app in D'.
  change (ph_names (ph e u :: T2 ++ T3))
    with (ph_name e u :: ph_names (T2 ++ T3)) in D'.
  rewrite ph_names_app in D'.
  assert (Nx : ~ In (ph_name e u) (ph_names T1)
               /\ ~ In (ph_name e u) (ph_names T2)
               /\ ~ In (ph_name e u) (ph_names T3)).
  { pose proof (NoDup_remove_2 _ _ _ D') as N. rewrite !in_app_iff in N.
    tauto. }
  destruct Nx as (N1 & N2 & N3).
  unfold _fill_placeholders_with_regexes.
  destruct (replace_template _ Pf) as [R G]. rewrite R.
  rewrite (findall_pieces _ G), hole_names_regex.
  rewrite ph_names_app.
  change (ph_names (ph e u :: T2 ++ ph e u :: T3))
    with (ph_name e u :: ph_names (T2 ++ ph e u :: T3)).
  rewrite ph_names_app.
  change (ph_names (ph e u :: T3)) with (ph_name e u :: ph_names T3).
  rewrite (duplicated_names _ _ _ _ D').
  assert (K : forall e u,
             Py.get (Py.merge (Py.merge (_time_placeholder self) up) [])
                    (ph_name e u) = Some (group_regex e u)).
  { intros e' u'. unfold Py.merge. cbn [Py.update fold_left].
    rewrite get_update_other, T; [apply get_completed|].
    intros I. exact (no_time_names_spec up _ U I (ph_name_time e' u')). }
  cbn [mapM]. rewrite K. cbn [bind].
  destruct (remove_group_regex e u) as [Rg Re]. rewrite Rg.
  cbn [Py.of_list Py.update fold_left Py.set fst snd].
  rewrite String.eqb_refl. cbn [foldM].
  rewrite !map_app. cbn [map regex_piece_of]. rewrite !map_app.
  cbn [map regex_piece_of].
  destruct (replace_template _ P1) as [_ G1].
  destruct (replace_template _ P2) as [_ G2].
  destruct (replace_template _ P3) as [_ G3].
  rewrite cover_second;
    [| apply ph_name_field | exact G1 | exact G2 | exact G3
     | now rewrite hole_names_regex | now rewrite hole_names_regex
     | now rewrite hole_names_regex ].
  cbn [bind]. rewrite Re. unfold Fmt.format.
  set (kw := Py.merge (Py.merge (_time_placeholder self) up) []) in *.
  assert (V : forall toks name,
             In name (hole_names (map regex_piece_of toks)) ->
             Py.get kw name = Some (val_of kw name)).
  { intros toks name I. rewrite hole_names_regex in I. unfold ph_names in I.
    apply in_map_iff in I as ([e' u'] & <- & _). cbn [fst snd].
    unfold val_of. now rewrite K. }
  change (map regex_piece_of T1 ++ hole (ph_name e u) :: map regex_piece_of T2)%list
    with (map regex_piece_of T1 ++ map regex_piece_of (ph e u :: T2))%list.
  rewrite <- map_app.
  rewrite (format_pieces_then _ _ kw (val_of kw)); [| | apply V].
  2:{ rewrite map_app, forallb_app. cbn [map regex_piece_of forallb good_piece].
      now rewrite G1, G2, ph_name_field. }
  rewrite format_escaped.
  rewrite <- (append_nil_r (pieces_string (map regex_piece_of T3))).
  rewrite (format_pieces_then _ _ kw (val_of kw) G3 (V T3)).
  cbn [Fmt.format_from bind]. rewrite append_nil_r.
  rewrite !(fill_in_regex kw _ K), !append_assoc.
  apply compile_twice; assumption.
Qed.

Lemma run_plain_digits (rest : Re.pattern) (s : string) (g : Py.dict string) :
  forall (txt : string) (b : bool),
  digits txt = true ->
  exists b',
    Re.run (repeat (Re.IAtom Re.ADigit) (String.length txt) ++ rest)%list
           (txt ++ s)
           {| Re.opened := []; Re.groups := g; Re.at_start := b |}
    = Re.run rest s
        {| Re.opened := []; Re.groups := g; Re.at_start := b' |}.
Proof.
  induction txt as [|c txt IH]; intros b H.
  - exists b. reflexivity.
  - unfold digits in H. cbn [Py.chars list_ascii_of_string forallb] in H.
    apply andb_prop in H as [Hc H].
    cbn [String.length repeat app append Re.run Re.atom_ok].
    rewrite Hc. unfold Re.consume. cbn [Re.opened Re.groups map].
    apply IH, H.
Qed.

Lemma run_template_then
  (toks : list tok) (t0 t1 : datetime) (rest : Re.pattern) (s : string) :
  (forall e u, In (e, u) (phs toks) ->
               fits (width u) (ph_text t0 t1 e u) = true) ->
  forall (g : Py.dict string) (b : bool),
  exists b',
    Re.run (flat_map items_of toks ++ rest)%list (render toks t0 t1 ++ s)
           {| Re.opened := []; Re.groups := g; Re.at_start := b |}
    = Re.run rest s
        {| Re.opened := []; Re.groups := Py.update g (captures toks t0 t1);
           Re.at_start := b' |}.
Proof.
  unfold captures.
  induction toks as [|[c|e u] toks IH]; intros F g b.
  - exists b. reflexivity.
  - cbn [flat_map items_of app render append Re.run Re.atom_ok phs].
    rewrite Ascii.eqb_refl. unfold Re.consume.
    cbn [Re.opened Re.groups map]. apply IH. exact F.
  - cbn [flat_map items_of render phs app map fst snd].
    destruct (fits_spec _ _ (F e u (or_introl eq_refl))) as [L D].
    rewrite <- L, <- !app_assoc, append_assoc. cbn [app].
    rewrite run_group.
    + apply IH. intros e' u' I. apply F. now right.
    + exact D.
    + intros E. rewrite E in L. pose proof (width_pos u). simpl in L. lia.
Qed.

(** The pattern of a repeated placeholder asks at the second place for
    digits only. *)
Lemma match_twice
  (T1 : list tok) (e : bool) (u : tunit) (T2 T3 : list tok)
  (t0 t1 : datetime) (again : string) :
  NoDup (ph_names (T1 ++ ph e u :: T2 ++ T3)) ->
  (forall e' u', In (e', u') (phs (T1 ++ ph e u :: T2 ++ T3)) ->
                 fits (width u') (ph_text t0 t1 e' u') = true) ->
  fits (width u) again = true ->
  Re.match_ (pattern_twice T1 e u T2 T3)
            (render (T1 ++ ph e u :: T2) t0 t1 ++ again ++ render T3 t0 t1)
  = Some (captures (T1 ++ ph e u :: T2 ++ T3) t0 t1).
Proof.
  intros D F A.
  replace (T1 ++ ph e u :: T2 ++ T3)%list
    with ((T1 ++ ph e u :: T2) ++ T3)%list in *
    by (rewrite <- app_assoc; reflexivity).
  assert (Fa : forall e' u', In (e', u') (phs (T1 ++ ph e u :: T2)) ->
                             fits (width u') (ph_text t0 t1 e' u') = true).
  { intros e' u' I. apply F. unfold phs in *. rewrite flat_map_app.
    apply in_or_app. now left. }
  assert (Fc : forall e' u', In (e', u') (phs T3) ->
                             fits (width u') (ph_text t0 t1 e' u') = true).
  { intros e' u' I. apply F. unfold phs in *. rewrite flat_map_app.
    apply in_or_app. now right. }
  unfold Re.match_, pattern_twice. cbn [Re.run Re.at_start].
  destruct (run_template_then _ t0 t1
              (repeat (Re.IAtom Re.ADigit) (width u)
               ++ flat_map items_of T3 ++ [Re.IEol])%list
              (again ++ render T3 t0 t1) Fa [] true) as [b1 E1].
  rewrite E1.
  destruct (fits_spec _ _ A) as [L Dg]. rewrite <- L.
  destruct (run_plain_digits (flat_map items_of T3 ++ [Re.IEol])%list
              (render T3 t0 t1)
              (Py.update [] (captures (T1 ++ ph e u :: T2) t0 t1))
              again b1 Dg) as [b2 E2].
  rewrite E2, (run_template T3 t0 t1 Fc).
  f_equal. unfold Py.update at 1 2. rewrite <- fold_left_app.
  fold (Py.update (V := string) []
          (captures (T1 ++ ph e u :: T2) t0 t1 ++ captures T3 t0 t1)%list).
  rewrite <- captures_app, update_fresh.
  - reflexivity.
  - now rewrite keys_captures.
  - intros k _ [].
Qed.

Lemma plain_twice (T1 : list tok) (e : bool) (u : tunit) (T2 T3 : list tok) :
  forallb plain_tok (T1 ++ ph e u :: T2 ++ T3) = true ->
  forallb plain_tok (T1 ++ ph e u :: T2 ++ ph e u :: T3) = true.
Proof.
  rewrite !forallb_app. cbn [forallb plain_tok andb]. rewrite !forallb_app.
  cbn [forallb plain_tok andb]. exact (fun H => H).
Qed.

Lemma set_path_twice
  (up : Py.dict string) (self : Dataset)
  (T1 : list tok) (e : bool) (u : tunit) (T2 T3 : list tok) :
  no_time_names up = true ->
  _time_placeholder self = completed_time_placeholder ->
  forallb plain_tok (T1 ++ ph e u :: T2 ++ T3) = true ->
  NoDup (ph_names (T1 ++ ph e u :: T2 ++ T3)) ->
  exists self',
    set_path up self (template_of (T1 ++ ph e u :: T2 ++ ph e u :: T3))
    = (up, Ok self')
    /\ path self' = template_of (T1 ++ ph e u :: T2 ++ ph e u :: T3)
    /\ _path_regex self' = pattern_twice T1 e u T2 T3
    /\ _time_placeholder self' = completed_time_placeholder.
Proof.
  intros U T P D. pose proof (plain_twice T1 e u T2 T3 P) as Pf.
  unfold set_path.
  destruct (match first_special (Path.dirname _) with
            | Some i => _
            | None => _
            end) as [[[base_dir sub_dir] chunks] resolution].
  rewrite (findall_template _ Pf).
  cbn [_time_placeholder]. rewrite T.
  rewrite (filter_none _ (dedup _)).
  2:{ intros n I. apply in_dedup in I. now rewrite (mem_completed n _ I). }
  unfold set_placeholders. cbn [map]. unfold _complete_placeholders_regex.
  cbn [map Py.of_list Py.update fold_left path].
  rewrite fill_twice; [| exact U | reflexivity | exact P | exact D].
  cbn [bind with_path_regex path _time_placeholder _path_regex
       _path_placeholders name _base_dir _sub_dir _sub_dir_chunks
       _sub_dir_time_resolution single_file handler info_via exclude
       time_coverage _end_time_superior].
  eexists. split; [reflexivity|].
  cbn [path _path_regex _time_placeholder]. repeat split.
Qed.

Lemma init_twice
  (up : Py.dict string) (T1 : list tok) (e : bool) (u : tunit)
  (T2 T3 : list tok) (h : option Handler) (nm : string)
  (ex : option (list IntervalTree.interval)) :
  no_time_names up = true ->
  forallb plain_tok (T1 ++ ph e u :: T2 ++ T3) = true ->
  NoDup (ph_names (T1 ++ ph e u :: T2 ++ T3)) ->
  exists self,
    init up (template_of (T1 ++ ph e u :: T2 ++ ph e u :: T3))
         h nm None no_coverage ex None = (up, Ok self)
    /\ path self = template_of (T1 ++ ph e u :: T2 ++ ph e u :: T3)
    /\ _path_regex self = pattern_twice T1 e u T2 T3.
Proof.
  intros U P D. unfold init.
  match goal with
  | |- context [set_path up ?s _] =>
      destruct (set_path_twice up s T1 e u T2 T3 U eq_refl P D)
        as (s1 & E & Qp & Qr & Qt)
  end.
  rewrite E. cbn [bind]. unfold set_time_coverage.
  destruct (single_file s1); cbn [bind]; eexists; (split; [reflexivity|]);
    cbn [path _path_regex]; split; assumption.
Qed.

(** A path with the year twice, before and after a separator. *)
Definition year_twice_head : list tok := []%list.
Definition year_twice_middle : list tok := [lit "/"]%char.
Definition year_twice_tail : list tok :=
  [ph false Month; lit "."; lit "n"; lit "c"]%char.



(** ** Years of fewer than four digits, anywhere in the path *)

Lemma render_app (a b : list tok) (t0 t1 : datetime) :
  render (a ++ b) t0 t1 = render a t0 t1 ++ render b t0 t1.
Proof.
  induction a as [|[c|e u] a IH]; cbn [app render append].
  - reflexivity.
  - now rewrite IH.
  - now rewrite IH, append_assoc.
Qed.

(** Every placeholder of [toks] is rendered at the width of its regex. *)
Definition fitting (toks : list tok) (t0 t1 : datetime) : bool :=
  forallb (fun p => fits (width (snd p)) (ph_text t0 t1 (fst p) (snd p)))
          (phs toks).

Lemma fitting_spec (toks : list tok) (t0 t1 : datetime) :
  fitting toks t0 t1 = true ->
  forall e u, In (e, u) (phs toks) ->
              fits (width u) (ph_text t0 t1 e u) = true.
Proof.
  unfold fitting. intros H e u I.
  exact (proj1 (forallb_forall _ _) H (e, u) I).
Qed.


(** The path [/d/{year}.nc]. *)
Definition early_pre : list tok := [lit "/"; lit "d"; lit "/"]%char.
Definition early_rest : list tok := [lit "n"; lit "c"]%char.


(** ** The round trip of C1 *)

(** [Dataset(p)] as the first dataset that is made: the user placeholders
    of the class after the call, and the dataset. *)
Definition first_dataset (p : string) : Py.dict string * Dataset :=
  let r := init [] p None "d" None no_coverage None None in
  (fst r, match snd r with Ok self => self | Err _ => blank end).

(** The path of S1 from the root of the file system. *)
Definition s1_root : list tok := (lit "/" :: s1_toks)%char.



